(** * Triage, routing and refund core of the customer-support chatbot

    A shallow embedding of the classification / reconciliation / routing
    code of the repository (utils/validators.py, agents/base_agent.py,
    agents/triage_agent.py, agents/refund_agent.py, agents/faq_agent.py and
    app.py), followed by the properties established about it.

    Text.  A Python [str] is modelled by Stdlib's [string]; a character is an
    [ascii].  On the ASCII range the functions [lower], [upper], [isspace]
    and [isdigit] below agree with [str.lower], [str.upper], the whitespace
    test used by [str.strip] / [str.split] and the regex class [\d]; other
    characters are left alone by the case functions and are neither spaces
    nor digits, and [String.length] is [len] on ASCII text.  A property
    that depends on this agreement is stated for ASCII text
    ([Reference.ascii_text]).

    Numbers.  Confidences and time stamps are floats in the source that are
    only compared and copied, never computed with; they are modelled by
    rationals ([Q]). *)

From Stdlib Require Import String Ascii List Bool Arith ZArith QArith Lia Lqa.
From Stdlib Require Import DecimalString Sorted Permutation.
Import ListNotations.

Close Scope Q_scope.
Open Scope nat_scope.
Open Scope list_scope.
Open Scope string_scope.

(* ================================================================== *)
(** * Python string primitives *)
(* ================================================================== *)

Module PyStr.

Definition is_upper_letter (c : ascii) : bool :=
  let n := nat_of_ascii c in (65 <=? n)%nat && (n <=? 90)%nat.

Definition is_lower_letter (c : ascii) : bool :=
  let n := nat_of_ascii c in (97 <=? n)%nat && (n <=? 122)%nat.

Definition lower_char (c : ascii) : ascii :=
  if is_upper_letter c then ascii_of_nat (nat_of_ascii c + 32) else c.

Definition upper_char (c : ascii) : ascii :=
  if is_lower_letter c then ascii_of_nat (nat_of_ascii c - 32) else c.

(** [str.lower()] and [str.upper()] on ASCII text; every other character
    is left as it is. *)
Fixpoint lower (s : string) : string :=
  match s with
  | EmptyString => EmptyString
  | String c s' => String (lower_char c) (lower s')
  end.

Fixpoint upper (s : string) : string :=
  match s with
  | EmptyString => EmptyString
  | String c s' => String (upper_char c) (upper s')
  end.

(** [\d] on ASCII text. *)
Definition isdigit (c : ascii) : bool :=
  let n := nat_of_ascii c in (48 <=? n)%nat && (n <=? 57)%nat.

(** Whitespace as [str.strip()] and [str.split()] see it: tab, line feed,
    vertical tab, form feed, carriage return, the four separators
    0x1c..0x1f and the space. *)
Definition isspace (c : ascii) : bool :=
  let n := nat_of_ascii c in
  ((9 <=? n)%nat && (n <=? 13)%nat) ||
  ((28 <=? n)%nat && (n <=? 31)%nat) ||
  (n =? 32)%nat.

(** [needle in hay]. *)
Fixpoint str_in (needle hay : string) : bool :=
  String.prefix needle hay ||
  match hay with
  | EmptyString => false
  | String _ hay' => str_in needle hay'
  end.

(** [any(kw in text for kw in kws)]. *)
Definition any_in (kws : list string) (text : string) : bool :=
  existsb (fun kw => str_in kw text) kws.

(** [sum(1 for kw in kws if kw in text)]. *)
Definition sum_1_for_in (kws : list string) (text : string) : nat :=
  list_sum (map (fun _ => 1) (filter (fun kw => str_in kw text) kws)).

(** [s.lstrip()], [s.rstrip()], [s.strip()]. *)
Fixpoint lstrip (s : string) : string :=
  match s with
  | EmptyString => EmptyString
  | String c s' => if isspace c then lstrip s' else s
  end.

Fixpoint rstrip (s : string) : string :=
  match s with
  | EmptyString => EmptyString
  | String c s' =>
      match rstrip s' with
      | EmptyString => if isspace c then EmptyString else String c EmptyString
      | r => String c r
      end
  end.

Definition strip (s : string) : string := rstrip (lstrip s).

(** [s.split()] with no separator: the maximal runs of non-whitespace
    characters, in order.  [cur] is the run being read. *)
Definition flush (cur : string) (rest : list string) : list string :=
  match cur with
  | EmptyString => rest
  | _ => cur :: rest
  end.

Fixpoint split_from (cur s : string) : list string :=
  match s with
  | EmptyString => flush cur []
  | String c s' =>
      if isspace c then flush cur (split_from EmptyString s')
      else split_from (cur ++ String c EmptyString) s'
  end.

Definition split (s : string) : list string := split_from EmptyString s.

(** [sep.join(parts)]. *)
Fixpoint join (sep : string) (parts : list string) : string :=
  match parts with
  | [] => EmptyString
  | [p] => p
  | p :: ps => p ++ sep ++ join sep ps
  end.

(** [re.sub('[...]', '', s)] for a character class given as a predicate. *)
Fixpoint remove_chars (bad : ascii -> bool) (s : string) : string :=
  match s with
  | EmptyString => EmptyString
  | String c s' =>
      if bad c then remove_chars bad s' else String c (remove_chars bad s')
  end.

(** The pattern [LIT\d{n}] tried at the start of [s]: the matched text. *)
Fixpoint take_digits (n : nat) (s : string) : option string :=
  match n with
  | O => Some EmptyString
  | S n' =>
      match s with
      | String c s' =>
          if isdigit c then
            match take_digits n' s' with
            | Some d => Some (String c d)
            | None => None
            end
          else None
      | EmptyString => None
      end
  end.

Fixpoint strip_prefix (lit s : string) : option string :=
  match lit, s with
  | EmptyString, _ => Some s
  | String a lit', String b s' =>
      if Ascii.eqb a b then strip_prefix lit' s' else None
  | String _ _, EmptyString => None
  end.

Definition match_here (lit : string) (n : nat) (s : string) : option string :=
  match strip_prefix lit s with
  | Some rest =>
      match take_digits n rest with
      | Some d => Some (lit ++ d)
      | None => None
      end
  | None => None
  end.

(** [re.search(LIT\d{n}, s)]: the leftmost match, [.group()] of it. *)
Fixpoint re_search (lit : string) (n : nat) (s : string) : option string :=
  match match_here lit n s with
  | Some m => Some m
  | None =>
      match s with
      | EmptyString => None
      | String _ s' => re_search lit n s'
      end
  end.

Definition nl : string := String (ascii_of_nat 10) EmptyString.

(** [s.split(sep)] for a one-character separator: empty pieces are kept. *)
Fixpoint split_on_from (sep : ascii) (cur s : string) : list string :=
  match s with
  | EmptyString => [cur]
  | String c s' =>
      if Ascii.eqb c sep then cur :: split_on_from sep EmptyString s'
      else split_on_from sep (cur ++ String c EmptyString) s'
  end.

Definition split_on (sep : ascii) (s : string) : list string :=
  split_on_from sep EmptyString s.

(** [s.split(sep, 1)] for a separator that occurs in [s]: the text before
    and after its first occurrence. *)
Fixpoint split_once (sep : ascii) (s : string) : string * string :=
  match s with
  | EmptyString => (EmptyString, EmptyString)
  | String c s' =>
      if Ascii.eqb c sep then (EmptyString, s')
      else let (a, b) := split_once sep s' in (String c a, b)
  end.

(** [re.match] of the anchored pattern [^LIT\d{n}$]: the pattern has to
    cover [s], except that [$] also matches just before a line feed that
    ends the string. *)
Definition re_match_anchored (lit : string) (n : nat) (s : string) : bool :=
  match match_here lit n s with
  | Some m => String.eqb s m || String.eqb s (m ++ nl)
  | None => false
  end.

(** [s[:n]]. *)
Fixpoint take (n : nat) (s : string) : string :=
  match n, s with
  | S n', String c s' => String c (take n' s')
  | _, _ => EmptyString
  end.

(** [s[n:]]. *)
Fixpoint drop (n : nat) (s : string) : string :=
  match n, s with
  | S n', String _ s' => drop n' s'
  | _, _ => s
  end.

(** [hay.split(needle, 1)[1]] for a non-empty [needle] that occurs in
    [hay]: the text after its first occurrence. *)
Fixpoint after_first (needle hay : string) : option string :=
  if String.prefix needle hay then Some (drop (String.length needle) hay)
  else
    match hay with
    | EmptyString => None
    | String _ hay' => after_first needle hay'
    end.

End PyStr.

(* ================================================================== *)
(** * utils/validators.py *)
(* ================================================================== *)

Module InputValidator.
Import PyStr.

Definition validate_invoice_number (invoice_no : string) : bool * string :=
  if String.eqb invoice_no "" then (false, "Invoice number is required.")
  else if negb (re_match_anchored "INV" 4 invoice_no)
  then (false, "Invoice number must be in format INV#### (e.g., INV1001).")
  else (true, "").

Definition validate_customer_id (customer_id : string) : bool * string :=
  if String.eqb customer_id "" then (false, "Customer ID is required.")
  else if negb (re_match_anchored "CUST" 3 customer_id)
  then (false, "Customer ID must be in format CUST### (e.g., CUST123).")
  else (true, "").

Definition validate_refund_reason (reason : string) : bool * string :=
  if (String.length reason =? 0)%nat || (String.length (strip reason) <? 10)%nat
  then (false, "Please provide a detailed reason (at least 10 characters).")
  else if (500 <? String.length reason)%nat
  then (false, "Reason is too long (maximum 500 characters).")
  else (true, "").

Definition validate_query_input (query : string) : bool * string :=
  if (String.length query =? 0)%nat || (String.length (strip query) <? 3)%nat
  then (false, "Please provide a more detailed question (at least 3 characters).")
  else if (1000 <? String.length query)%nat
  then (false, "Query is too long (maximum 1000 characters).")
  else (true, "").

(** The character class of the [re.sub] call: less-than, greater-than,
    double quote, single quote. *)
Definition harmful (c : ascii) : bool :=
  let n := nat_of_ascii c in
  (n =? 60)%nat || (n =? 62)%nat || (n =? 34)%nat || (n =? 39)%nat.

Definition sanitize_input (text : string) : string :=
  match text with
  | EmptyString => ""
  | _ =>
      let sanitized := join " " (split (strip text)) in
      let sanitized := remove_chars harmful sanitized in
      sanitized
  end.

Record TransactionInfo : Type := mkInfo {
  invoice_no : option string;
  customer_id : option string
}.

Definition extract_transaction_info (text : string) : TransactionInfo :=
  let text_upper := upper text in
  let invoice_match := re_search "INV" 4 text_upper in
  let customer_match := re_search "CUST" 3 text_upper in
  {| invoice_no := invoice_match; customer_id := customer_match |}.

Definition refund_keywords : list string :=
  ["refund"; "return"; "money back"; "cancel order";
   "invoice"; "inv"; "receipt"; "transaction"].

Definition faq_keywords : list string :=
  ["product"; "specification"; "specs"; "dimension";
   "feature"; "how to"; "compatible"; "warranty";
   "shipping"; "payment"; "policy"].

Definition partnership_keywords : list string :=
  ["partnership"; "business"; "wholesale"; "bulk";
   "distributor"; "reseller"; "collaborate"].

Definition refund_score (query : string) : nat :=
  sum_1_for_in refund_keywords (lower query).
Definition faq_score (query : string) : nat :=
  sum_1_for_in faq_keywords (lower query).
Definition partnership_score (query : string) : nat :=
  sum_1_for_in partnership_keywords (lower query).

Definition classify_query_intent (query : string) : string :=
  let refund_score := refund_score query in
  let faq_score := faq_score query in
  let partnership_score := partnership_score query in
  if (faq_score <? refund_score)%nat && (partnership_score <? refund_score)%nat
  then "refund"
  else if (faq_score <? partnership_score)%nat
          && (refund_score <? partnership_score)%nat
  then "partnership"
  else if (0 <? faq_score)%nat then "faq"
  else "other".

(** Python truthiness of an optional string ([None] and [""] are falsy). *)
Definition truthy_opt (o : option string) : bool :=
  match o with
  | Some (String _ _) => true
  | _ => false
  end.

Definition is_complete_refund_request (query : string) : bool :=
  let extracted := extract_transaction_info query in
  truthy_opt (invoice_no extracted) && truthy_opt (customer_id extracted).

End InputValidator.

(* ================================================================== *)
(** * Python values, dictionaries and exceptions *)
(* ================================================================== *)

Module Py.

(** A computation that may raise. *)
Inductive exn : Type := Exception (msg : string).

Inductive result (A : Type) : Type :=
| Ok (a : A)
| Raise (e : exn).
Arguments Ok {A} a.
Arguments Raise {A} e.

Definition bind {A B : Type} (m : result A) (k : A -> result B) : result B :=
  match m with
  | Ok a => k a
  | Raise e => Raise e
  end.

(** [try: body  except Exception as e: handler(e)]. *)
Definition try_except {A : Type} (body : result A) (handler : exn -> A) : A :=
  match body with
  | Ok a => a
  | Raise e => handler e
  end.

(** The values the agents put in their result dictionaries. *)
#[local] Unset Elimination Schemes.
Inductive value : Type :=
| VNone
| VBool (b : bool)
| VStr (s : string)
| VNum (q : Q)
| VList (l : list value)
| VDict (d : list (string * value)).
#[local] Set Elimination Schemes.

(** A [dict] with string keys, in insertion order. *)
Definition dict : Type := list (string * value).

Fixpoint lookup {V : Type} (d : list (string * V)) (k : string) : option V :=
  match d with
  | [] => None
  | (k', v) :: d' => if String.eqb k' k then Some v else lookup d' k
  end.

(** [d.get(k, default)] and [d.get(k)]. *)
Definition get_default {V : Type} (d : list (string * V)) (k : string) (default : V) : V :=
  match lookup d k with
  | Some v => v
  | None => default
  end.

Definition get (d : dict) (k : string) : value := get_default d k VNone.

(** [d[k] = v]: an existing key keeps its place. *)
Fixpoint set {V : Type} (d : list (string * V)) (k : string) (v : V) : list (string * V) :=
  match d with
  | [] => [(k, v)]
  | (k', v') :: d' =>
      if String.eqb k' k then (k, v) :: d' else (k', v') :: set d' k v
  end.

(** [del d[k]] for a key that is present. *)
Fixpoint del {V : Type} (d : list (string * V)) (k : string) : list (string * V) :=
  match d with
  | [] => []
  | (k', v') :: d' => if String.eqb k' k then d' else (k', v') :: del d' k
  end.

(** Truth value of a Python object. *)
Definition truthy (v : value) : bool :=
  match v with
  | VNone => false
  | VBool b => b
  | VStr s => negb (String.eqb s "")
  | VNum q => negb (Qeq_bool q 0)
  | VList l => match l with [] => false | _ => true end
  | VDict d => match d with [] => false | _ => true end
  end.

Definition of_option (o : option string) : value :=
  match o with
  | Some s => VStr s
  | None => VNone
  end.

(** [a > b] on floats. *)
Definition Qgtb (a b : Q) : bool := negb (Qle_bool a b).

(** [v > q] for a float literal [q]: numbers compare ([bool] is an [int]),
    anything else is a [TypeError]. *)
Definition gt_float (v : value) (q : Q) : result bool :=
  match v with
  | VNum x => Ok (Qgtb x q)
  | VBool b => Ok (Qgtb (if b then 1%Q else 0%Q) q)
  | _ => Raise (Exception "TypeError: '>' not supported")
  end.

(** [d[k]], a [KeyError] when the key is missing. *)
Definition getitem (d : dict) (k : string) : result value :=
  match lookup d k with
  | Some v => Ok v
  | None => Raise (Exception ("KeyError: " ++ k))
  end.

End Py.

Notation "x <- m ;; k" := (Py.bind m (fun x => k))
  (at level 61, m at next level, right associativity).

(* ================================================================== *)
(** * utils/response_schema.py *)
(* ================================================================== *)

Module ResponseSchema.
Import Py.

Record AgentResponse : Type := mkAgentResponse {
  response : string;
  resolved : bool;
  category : string;
  confidence : Q;
  needs_followup : bool;
  needs_more_info : bool;
  metadata : option dict
}.

(** The dataclass defaults: [confidence=0.5], both flags [False],
    [metadata=None]. *)
Definition default_confidence : Q := 0.5%Q.

Definition to_dict (r : AgentResponse) : dict :=
  [ ("response", VStr (response r));
    ("resolved", VBool (resolved r));
    ("category", VStr (category r));
    ("confidence", VNum (confidence r));
    ("needs_followup", VBool (needs_followup r));
    ("needs_more_info", VBool (needs_more_info r));
    ("metadata",
      VDict (match metadata r with Some m => m | None => [] end)) ].

End ResponseSchema.

(* ================================================================== *)
(** * agents/base_agent.py *)
(* ================================================================== *)

Module BaseAgent.
Import Py.

(** config.py *)
Definition MAX_CACHE_SIZE : nat := 100.

(** [self.cache]: key -> (time stamp, response), in insertion order. *)
Definition Entry : Type := (string * (Q * string))%type.
Definition Cache : Type := list Entry.

Definition stamp (e : Entry) : Q := fst (snd e).

(** One step of [min(..., key=lambda k: self.cache[k][0])]: the running
    minimum is replaced only by a strictly smaller time stamp, so the
    first of several equal ones is kept. *)
Definition older (best e : Entry) : Entry :=
  if Qgtb (stamp best) (stamp e) then e else best.

Definition oldest_key (first : Entry) (others : Cache) : string :=
  fst (fold_left older others first).

Definition _cache_response (cache : Cache) (cache_key response : string)
           (now : Q) : Cache :=
  let cache :=
    if (MAX_CACHE_SIZE <=? List.length cache)%nat then
      match cache with
      | first :: others => del cache (oldest_key first others)
      | [] => cache
      end
    else cache in
  set cache cache_key (now, response).

Definition confidence_map : list (string * Q) :=
  [("high", 0.8%Q); ("medium", 0.6%Q); ("low", 0.4%Q)].

Definition _normalize_confidence (confidence : value) : Q :=
  match confidence with
  | VStr s => get_default confidence_map (PyStr.lower s) 0.5%Q
  | VNum q => q
  | VBool b => if b then 1%Q else 0%Q
  | _ => 0.5%Q
  end.

Section Caching.
(** Outside this model: the float test
    [time.time() - cached_time < Config.CACHE_TTL], given the current time
    and the stored one; [hashlib.md5(text.encode()).hexdigest()], where the
    encoding may raise; and [self.client], the completion call, from the
    system and user messages to the content of the first choice. *)
Variable within_ttl : Q -> Q -> bool.
Variable md5_hexdigest : string -> result string.
Variable client : option (string -> string -> result string).

(** [kwargs] is empty at every call site, so [str(kwargs)] is ["{}"]. *)
Definition _generate_cache_key (prompt : string) : result string :=
  let cache_input := prompt ++ "_" ++ "{}" in
  md5_hexdigest cache_input.

Definition _get_cached_response (cache : Cache) (cache_key : string) (now : Q)
  : option string * Cache :=
  match lookup cache cache_key with
  | Some (cached_time, response) =>
      if within_ttl now cached_time then (Some response, cache)
      else (None, del cache cache_key)
  | None => (None, cache)
  end.

Definition _call_openai_api (system_prompt user_input : string) : string :=
  match client with
  | None => "Error: OpenAI API key not configured."
  | Some create =>
      try_except
        (content <- create system_prompt user_input ;;
         Ok (PyStr.strip content))
        (fun _ => "I apologize, but I'm experiencing technical difficulties. Please try again later.")
  end.

(** [now_lookup] and [now_store] are the two readings of [time.time()]. *)
Definition process_with_cache (cache : Cache) (user_input system_prompt : string)
           (now_lookup now_store : Q) : result string * Cache :=
  match _generate_cache_key (system_prompt ++ "_" ++ user_input) with
  | Raise e => (Raise e, cache)
  | Ok cache_key =>
      let (cached_response, cache) :=
        _get_cached_response cache cache_key now_lookup in
      match cached_response with
      | Some (String _ _ as response) => (Ok response, cache)
      | _ =>
          let response := _call_openai_api system_prompt user_input in
          (Ok response, _cache_response cache cache_key response now_store)
      end
  end.

End Caching.

End BaseAgent.

(* ================================================================== *)
(** * agents/triage_agent.py *)
(* ================================================================== *)

Module TriageAgent.
Import Py PyStr InputValidator ResponseSchema BaseAgent.

(** [process] returns either a plain dictionary or an [AgentResponse]. *)
Inductive Output : Type :=
| Plain (d : dict)
| Structured (r : AgentResponse).

Definition parse_line (result : list (string * string)) (line : string)
  : list (string * string) :=
  if str_in ":" line then
    let (key, value) := split_once ":"%char line in
    let key := lower (strip key) in
    let value := strip value in
    if String.eqb key "category" then set result "category" (lower value)
    else if String.eqb key "confidence" then set result "confidence" (lower value)
    else if String.eqb key "reasoning" then set result "reasoning" value
    else if String.eqb key "next action" then set result "next_action" value
    else result
  else result.

Definition _parse_ai_response (ai_response : string) : list (string * string) :=
  fold_left parse_line (split_on (ascii_of_nat 10) ai_response) [].

Definition valid_categories : list string :=
  ["refund"; "faq"; "partnership"; "other"].

(** The local [refund_keywords] of [_validate_classification]. *)
Definition override_keywords : list string :=
  ["refund"; "return"; "money back"; "cancel"; "invoice"].

Definition _validate_classification (ai_category rule_category user_input : string)
  : string :=
  if negb (existsb (String.eqb ai_category) valid_categories) then rule_category
  else
    if String.eqb rule_category "refund" && negb (String.eqb ai_category "refund")
    then
      if any_in override_keywords (lower user_input) then "refund"
      else ai_category
    else ai_category.

Definition info_dict (i : TransactionInfo) : dict :=
  [("invoice_no", of_option (invoice_no i));
   ("customer_id", of_option (customer_id i))].

Definition _build_response (category user_input : string)
           (parsed_result : list (string * string))
           (has_complete_refund_info : bool) : Output :=
  if String.eqb category "refund" then
    if has_complete_refund_info then
      Structured
        {| response := "I can help you with your refund request...";
           resolved := false;
           category := "refund";
           confidence :=
             _normalize_confidence
               (VStr (get_default parsed_result "confidence" "high"));
           needs_followup := true;
           needs_more_info := false;
           metadata :=
             Some [("extracted_info",
                    VDict (info_dict (extract_transaction_info user_input)))] |}
    else
      Plain
        [("category", VStr "refund");
         ("response", VStr "I'd be happy to help with your refund request. Please provide your Invoice Number (format: INV####) and Customer ID (format: CUST###) so I can look up your transaction.");
         ("confidence", VStr (get_default parsed_result "confidence" "medium"));
         ("needs_routing", VBool false);
         ("resolved", VBool false);
         ("needs_more_info", VBool true)]
  else if String.eqb category "faq" then
    Plain
      [("category", VStr "faq");
       ("response", VStr "I'll help you find the information you're looking for. Let me search our knowledge base for you.");
       ("confidence", VStr (get_default parsed_result "confidence" "high"));
       ("needs_routing", VBool true);
       ("resolved", VBool false)]
  else
    Plain
      [("category", VStr "other");
       ("response", VStr ("Thank you for contacting us! I'd be happy to help you. Could you please provide more specific details about what you need assistance with? For example:" ++ nl ++ "- Product questions or technical support" ++ nl ++ "- Refund or return requests" ++ nl ++ "- Account or order inquiries"));
       ("confidence", VStr (get_default parsed_result "confidence" "medium"));
       ("needs_routing", VBool false);
       ("resolved", VBool false);
       ("needs_clarification", VBool true)].

(** The dictionary returned by the [except] branch of [process]. *)
Definition error_response : dict :=
  [("category", VStr "other");
   ("response", VStr "I'm sorry, I'm having trouble processing your request. Please try again.");
   ("confidence", VStr "low");
   ("needs_routing", VBool false);
   ("resolved", VBool false)].

Section Process.
(** [self.client] is configured; [self.get_system_prompt()];
    [self.process_with_cache], whose fingerprinting and completion call
    are outside this model and may raise. *)
Variable client : bool.
Variable system_prompt : string.
Variable process_with_cache : string -> string -> result string.

Definition process_body (user_input : string) : result Output :=
  let (is_valid, error_msg) := validate_query_input user_input in
  if negb is_valid then
    Ok (Plain [("category", VStr "other");
               ("response", VStr error_msg);
               ("confidence", VStr "high");
               ("needs_routing", VBool false);
               ("resolved", VBool false)])
  else
    let sanitized_input := sanitize_input user_input in
    let rule_based_category := classify_query_intent sanitized_input in
    classified <-
      (if client then
         ai_response <- process_with_cache sanitized_input system_prompt ;;
         let parsed_result := _parse_ai_response ai_response in
         Ok (_validate_classification
               (get_default parsed_result "category" rule_based_category)
               rule_based_category sanitized_input,
             parsed_result)
       else
         Ok (rule_based_category,
             [("reasoning", "Rule-based classification (API not available)");
              ("confidence", "medium")])) ;;
    let (final_category, parsed_result) := classified in
    let has_complete_refund_info := is_complete_refund_request sanitized_input in
    Ok (_build_response final_category sanitized_input parsed_result
                        has_complete_refund_info).

Definition process (user_input : string) (context : option dict) : Output :=
  try_except (process_body user_input) (fun _ => Plain error_response).

End Process.

End TriageAgent.

(* ================================================================== *)
(** * agents/refund_agent.py *)
(* ================================================================== *)

Module RefundAgent.
Import Py PyStr InputValidator ResponseSchema.

Definition missing_fields_of (extracted_info : TransactionInfo) : list string :=
  (if negb (truthy_opt (invoice_no extracted_info))
   then ["Invoice Number (format: INV####)"] else [])
  ++ (if negb (truthy_opt (customer_id extracted_info))
      then ["Customer ID (format: CUST###)"] else [])%list.

Definition _request_transaction_info (extracted_info : TransactionInfo) : dict :=
  let missing_fields := missing_fields_of extracted_info in
  let response :=
    "To process your refund request, I need the following information:" ++ nl
    ++ join nl (map (fun field => "• " ++ field) missing_fields)
    ++ " and please tell us the reason of return." ++ nl ++ nl
    ++ "You can find these details in your order confirmation email or receipt." in
  to_dict {| response := response;
             resolved := false;
             category := "refund";
             confidence := default_confidence;
             needs_followup := false;
             needs_more_info := true;
             metadata := Some [("missing_fields", VList (map VStr missing_fields))] |}.

(** The response of the [except] branch of [process]. *)
Definition error_response : dict :=
  to_dict {| response := "I apologize, but I'm experiencing technical difficulties. Please contact our customer service team directly for refund assistance.";
             resolved := false;
             category := "refund";
             confidence := default_confidence;
             needs_followup := true;
             needs_more_info := false;
             metadata := None |}.

Section Process.
(** [self.db.verify_transaction]; f-string conversion of a value; the
    continuation for a verified transaction.  All three are outside
    this model; the first and the last may raise. *)
Variable verify_transaction : value -> value -> result (option dict).
Variable str_of : value -> string.
Variable _process_verified_refund : string -> dict -> dict -> result dict.

Definition _handle_transaction_not_found (invoice_no customer_id : value) : dict :=
  let response :=
    "I couldn't find a transaction matching:" ++ nl
    ++ "• Invoice Number: " ++ str_of invoice_no ++ nl
    ++ "• Customer ID: " ++ str_of customer_id ++ nl ++ nl
    ++ "Please double-check these details. Common issues:" ++ nl
    ++ "• Make sure the invoice number includes 'INV' (e.g., INV1001)" ++ nl
    ++ "• Verify the customer ID format (e.g., CUST123)" ++ nl
    ++ "• Check if you're using details from the correct order" ++ nl ++ nl
    ++ "If you're certain the details are correct, please contact our customer service team for further assistance." in
  to_dict {| response := response;
             resolved := false;
             category := "refund";
             confidence := default_confidence;
             needs_followup := true;
             needs_more_info := false;
             metadata := Some [("transaction_found", VBool false)] |}.

(** [d.get(k)] on a value that should be a dictionary. *)
Definition get_attr (v : value) (k : string) : result value :=
  match v with
  | VDict d => Ok (get d k)
  | _ => Raise (Exception "AttributeError: no attribute 'get'")
  end.

Definition process_body (user_input : string) (context : option dict)
  : result dict :=
  let context := match context with Some c => c | None => [] end in
  let extracted_info := extract_transaction_info user_input in
  let invoice_no := of_option (InputValidator.invoice_no extracted_info) in
  let customer_id := of_option (InputValidator.customer_id extracted_info) in
  ids <-
    (if negb (truthy invoice_no) && truthy (get context "extracted_info") then
       i <- get_attr (get context "extracted_info") "invoice_no" ;;
       c <- get_attr (get context "extracted_info") "customer_id" ;;
       Ok (i, c)
     else Ok (invoice_no, customer_id)) ;;
  let (invoice_no, customer_id) := ids in
  if negb (truthy invoice_no) || negb (truthy customer_id) then
    Ok (_request_transaction_info extracted_info)
  else
    transaction <- verify_transaction invoice_no customer_id ;;
    match transaction with
    | None | Some [] => Ok (_handle_transaction_not_found invoice_no customer_id)
    | Some transaction => _process_verified_refund user_input transaction context
    end.

Definition process (user_input : string) (context : option dict) : dict :=
  try_except (process_body user_input context) (fun _ => error_response).

End Process.

Definition reason_indicators : list string :=
  ["because"; "reason"; "due to"; "since"; "as"; "defective";
   "broken"; "not working"; "wrong"; "mistake"; "changed mind"].

(** The loop of [_extract_refund_reason] over the indicators. *)
Fixpoint reason_after (indicators : list string) (input_lower : string)
  : option string :=
  match indicators with
  | [] => None
  | indicator :: rest =>
      if str_in indicator input_lower then
        match after_first indicator input_lower with
        | Some tail =>
            let potential_reason := strip tail in
            if (10 <? String.length potential_reason)%nat
            then Some (take 500 potential_reason)
            else reason_after rest input_lower
        | None => reason_after rest input_lower
        end
      else reason_after rest input_lower
  end.

Definition _extract_refund_reason (user_input : string) : option string :=
  match reason_after reason_indicators (lower user_input) with
  | Some reason => Some reason
  | None =>
      if (20 <? String.length (strip user_input))%nat
      then Some (take 500 (strip user_input))
      else None
  end.

Section Verified.
(** Outside this model: [self.client] is configured; the system prompt;
    [self.process_with_cache]; the conversion of a value in an f-string;
    [_generate_standard_refund_response], which formats a float amount; and
    [self.db.verify_transaction]. *)
Variable client : bool.
Variable system_prompt : string.
Variable process_with_cache : string -> string -> result string.
Variable str_of : value -> string.
Variable _generate_standard_refund_response : dict -> string -> result string.
Variable verify_transaction : value -> value -> result (option dict).

Definition _request_refund_reason (transaction : dict) : result dict :=
  description <- getitem transaction "Description" ;;
  stock_code <- getitem transaction "StockCode" ;;
  invoice_date <- getitem transaction "InvoiceDate" ;;
  unit_price <- getitem transaction "UnitPrice" ;;
  quantity <- getitem transaction "Quantity" ;;
  let response :=
    "Great! I found your transaction:" ++ nl ++ nl
    ++ " **Product**: " ++ str_of description ++ nl
    ++ " **SKU ID**: " ++ str_of stock_code ++ nl
    ++ " **Purchase Date**: " ++ str_of invoice_date ++ nl
    ++ " **Amount**: $" ++ str_of unit_price ++ " x " ++ str_of quantity
    ++ nl ++ nl
    ++ "To complete your refund request, please tell me the reason for the return. For example:" ++ nl
    ++ "• Product defective or damaged" ++ nl
    ++ "• Wrong item received" ++ nl
    ++ "• Changed mind about purchase" ++ nl
    ++ "• Product doesn't meet expectations" ++ nl
    ++ "• Other reason (please specify)" in
  Ok (to_dict {| response := response;
                 resolved := false;
                 category := "refund";
                 confidence := default_confidence;
                 needs_followup := false;
                 needs_more_info := true;
                 metadata := Some [("transaction_verified", VBool true);
                                   ("awaiting_reason", VBool true)] |}).

(** [validate_refund_reason] is written for a string; a truthy value of
    another type fails on [reason.strip()]. *)
Definition reason_text (refund_reason : value) : result string :=
  match refund_reason with
  | VStr reason => Ok reason
  | _ => Raise (Exception "AttributeError: no attribute 'strip'")
  end.

Definition _process_verified_refund (user_input : string) (transaction context : dict)
  : result dict :=
  let refund_reason := _extract_refund_reason user_input in
  if negb (truthy_opt refund_reason) && negb (truthy (get context "refund_reason"))
  then _request_refund_reason transaction
  else
    let refund_reason :=
      if negb (truthy_opt refund_reason) then get context "refund_reason"
      else of_option refund_reason in
    reason <- reason_text refund_reason ;;
    let (is_valid_reason, reason_error) := validate_refund_reason reason in
    if negb is_valid_reason then
      Ok (to_dict {| response := "Please provide a more detailed refund reason. "
                                 ++ reason_error;
                     resolved := false;
                     category := "refund";
                     confidence := default_confidence;
                     needs_followup := false;
                     needs_more_info := true;
                     metadata := None |})
    else
      ai_response <-
        (if client then
           (* the unused [ai_prompt] reads these keys *)
           _ <- getitem transaction "InvoiceNo" ;;
           _ <- getitem transaction "Description" ;;
           _ <- getitem transaction "StockCode" ;;
           _ <- getitem transaction "Quantity" ;;
           _ <- getitem transaction "UnitPrice" ;;
           _ <- getitem transaction "InvoiceDate" ;;
           _ <- getitem transaction "CustomerID" ;;
           description <- getitem transaction "Description" ;;
           process_with_cache
             ("Refund request for " ++ str_of description ++ ". Reason: " ++ reason)
             (system_prompt ++ nl ++ nl ++ "Transaction Details: "
              ++ str_of (VDict transaction))
         else _generate_standard_refund_response transaction reason) ;;
      customer_id <- getitem transaction "CustomerID" ;;
      invoice_no <- getitem transaction "InvoiceNo" ;;
      stock_code <- getitem transaction "StockCode" ;;
      description <- getitem transaction "Description" ;;
      quantity <- getitem transaction "Quantity" ;;
      unit_price <- getitem transaction "UnitPrice" ;;
      let refund_data : dict :=
        [("customer_id", customer_id);
         ("invoice_no", invoice_no);
         ("stock_code", stock_code);
         ("product_description", description);
         ("quantity", quantity);
         ("unit_price", unit_price);
         ("refund_reason", VStr reason)] in
      Ok (to_dict {| response := ai_response;
                     resolved := true;
                     category := "refund";
                     confidence := 0.9%Q;
                     needs_followup := false;
                     needs_more_info := false;
                     metadata := Some [("refund_data", VDict refund_data);
                                       ("transaction_verified", VBool true)] |}).

(** [RefundAgent.process] with its own continuation. *)
Definition process_request (user_input : string) (context : option dict) : dict :=
  process verify_transaction str_of _process_verified_refund user_input context.

End Verified.

End RefundAgent.

(* ================================================================== *)
(** * agents/faq_agent.py *)
(* ================================================================== *)

Module FAQAgent.
Import Py PyStr ResponseSchema.

Definition resolution_indicators : list string :=
  ["specifications"; "policy"; "days"; "warranty"; "shipping";
   "payment"; "return"; "compatible"; "dimensions"; "price";
   "size"; "weight"; "material"; "color"; "model"; "version"].

Definition uncertainty_phrases : list string :=
  ["i don't have"; "not available"; "contact support";
   "check our website"; "i'm not sure"; "unable to find"].

Definition indicator_count (ai_response : string) : nat :=
  sum_1_for_in resolution_indicators (lower ai_response).

Definition _assess_resolution_quality {FAQ : Type} (user_input : string)
           (faq_results : list FAQ) (ai_response : string) : bool :=
  let response_lower := lower ai_response in
  let indicator_count := indicator_count ai_response in
  if (100 <? String.length ai_response)%nat && (2 <=? indicator_count)%nat
  then true
  else if any_in uncertainty_phrases response_lower then false
  else (0 <? List.length faq_results)%nat && (0 <? indicator_count)%nat.

(** A record of data/faq.json, with the fields create_mock_data.py writes. *)
Record FAQ : Type := mkFAQ {
  faq_id : Z;
  faq_category : string;
  question : string;
  answer : string;
  keywords : list string
}.

Definition _handle_no_faq_found (user_input : string) : dict :=
  let response :=
    "I don't have specific information about your question in our current FAQ database. "
    ++ nl ++ nl
    ++ "However, I'd be happy to help you in other ways:" ++ nl
    ++ "• Contact our customer support team for detailed assistance" ++ nl
    ++ "• Check our website's help section for additional resources" ++ nl
    ++ "• Let me know if you have other questions I might be able to answer"
    ++ nl ++ nl
    ++ "Is there anything else I can help you with today?" in
  to_dict {| response := response;
             resolved := false;
             category := "faq";
             confidence := default_confidence;
             needs_followup := true;
             needs_more_info := false;
             metadata := Some [("faq_found", VBool false);
                               ("suggested_action", VStr "contact_support")] |}.

(** [[faq['id'] for faq in faq_results]]. *)
Definition matched_faqs (faq_results : list FAQ) : value :=
  VList (map (fun faq => VNum (inject_Z (faq_id faq))) faq_results).

Definition related_line (faq : FAQ) : string :=
  "• " ++ question faq ++ ": " ++ take 100 (answer faq)
  ++ (if (100 <? String.length (answer faq))%nat then "..." else "") ++ nl.

(** [faq_results[0]] is an [IndexError] on an empty list. *)
Definition _generate_direct_response (user_input : string) (faq_results : list FAQ)
  : result dict :=
  match faq_results with
  | [] => Raise (Exception "IndexError: list index out of range")
  | best_match :: related =>
      let response :=
        "**" ++ question best_match ++ "**" ++ nl ++ nl ++ answer best_match in
      let response :=
        if (1 <? List.length faq_results)%nat then
          response ++ nl ++ nl ++ "**Related Information:**" ++ nl
          ++ String.concat "" (map related_line related)
        else response in
      let response :=
        response ++ nl ++ nl
        ++ "Is there anything else I can help you with regarding this topic?" in
      Ok (to_dict {| response := response;
                     resolved := true;
                     category := "faq";
                     confidence := 0.9%Q;
                     needs_followup := false;
                     needs_more_info := false;
                     metadata := Some [("faq_found", VBool true);
                                       ("matched_faqs", matched_faqs faq_results);
                                       ("source", VStr "direct_faq")] |})
  end.

(** [str(i)] for the numbering of the FAQ context. *)
Definition str_of_nat (i : nat) : string :=
  NilEmpty.string_of_uint (Nat.to_uint i).

Definition context_entry (numbered : nat * FAQ) : string :=
  let (i, faq) := numbered in
  str_of_nat i ++ ". Q: " ++ question faq ++ nl
  ++ "   A: " ++ answer faq ++ nl
  ++ "   Category: " ++ faq_category faq ++ nl ++ nl.

(** [enumerate(faq_results, 1)]. *)
Definition enumerate_from_1 (faq_results : list FAQ) : list (nat * FAQ) :=
  combine (seq 1 (List.length faq_results)) faq_results.

Definition error_response : dict :=
  to_dict {| response := "I apologize, but I'm having trouble accessing our FAQ database right now. Please try again later or contact our customer support team for assistance.";
             resolved := false;
             category := "faq";
             confidence := default_confidence;
             needs_followup := true;
             needs_more_info := false;
             metadata := None |}.

Section Process.
(** Outside this model: [self.client] is configured; the system prompt;
    [self.process_with_cache]; and [self.db.search_faq(query, top_k)].
    The calls of [_log_faq_interaction] are left out: the function catches
    its own failures and returns nothing, so no answer depends on it. *)
Variable client : bool.
Variable system_prompt : string.
Variable process_with_cache : string -> string -> result string.
Variable search_faq : string -> nat -> result (list FAQ).

Definition _generate_ai_response (user_input : string) (faq_results : list FAQ)
  : result dict :=
  let attempt :=
    let faq_context :=
      "RELEVANT FAQ INFORMATION:" ++ nl ++ nl
      ++ String.concat "" (map context_entry (enumerate_from_1 faq_results)) in
    let enhanced_prompt := system_prompt ++ nl ++ nl ++ faq_context in
    ai_response <- process_with_cache user_input enhanced_prompt ;;
    let resolved :=
      _assess_resolution_quality user_input faq_results ai_response in
    Ok (to_dict {| response := ai_response;
                   resolved := resolved;
                   category := "faq";
                   confidence := 0.8%Q;
                   needs_followup := negb resolved;
                   needs_more_info := false;
                   metadata := Some [("faq_found", VBool true);
                                     ("matched_faqs", matched_faqs faq_results);
                                     ("source", VStr "ai_enhanced")] |}) in
  match attempt with
  | Ok answer => Ok answer
  | Raise _ => _generate_direct_response user_input faq_results
  end.

Definition process_body (user_input : string) (context : option dict)
  : result dict :=
  faq_results <- search_faq user_input 3 ;;
  match faq_results with
  | [] => Ok (_handle_no_faq_found user_input)
  | _ =>
      if client && (0 <? List.length faq_results)%nat
      then _generate_ai_response user_input faq_results
      else _generate_direct_response user_input faq_results
  end.

Definition process (user_input : string) (context : option dict) : dict :=
  try_except (process_body user_input context) (fun _ => error_response).

End Process.

End FAQAgent.

(* ================================================================== *)
(** * utils/database.py *)
(* ================================================================== *)

Module DatabaseManager.
Import Py PyStr FAQAgent.

Section Search.
(** Outside this model: [difflib.SequenceMatcher(None, a, b).ratio()].  The
    records are those of [get_faq_data()]. *)
Variable ratio : string -> string -> Q.

(** [word in words]. *)
Definition word_in (word : string) (words : list string) : bool :=
  existsb (String.eqb word) words.

(** The score that the loop body of [search_faq] gives to one record. *)
Definition record_score (query : string) (record : FAQ) : nat :=
  let query_lower := lower query in
  let query_words := split query_lower in
  let exact_keywords :=
    list_sum (map (fun keyword =>
                     if str_in (lower keyword) query_lower then 3 else 0)
                  (keywords record)) in
  let fuzzy_keywords :=
    list_sum
      (map (fun keyword =>
              list_sum
                (map (fun query_word =>
                        let similarity := ratio (lower keyword) query_word in
                        if Qgtb similarity 0.8%Q then 2
                        else if Qgtb similarity 0.6%Q then 1
                        else 0)
                     query_words))
           (keywords record)) in
  let question_words := split (lower (question record)) in
  let answer_words := split (lower (answer record)) in
  let content :=
    list_sum
      (map (fun query_word =>
              (if word_in query_word question_words then 2 else 0)
              + (if word_in query_word answer_words then 1 else 0)
              + list_sum
                  (map (fun word =>
                          if Qgtb (ratio word query_word) 0.8%Q then 1 else 0)
                       question_words))
           query_words) in
  exact_keywords + fuzzy_keywords + content.

(** [scored_items.sort(key=lambda x: x[0], reverse=True)]: a stable sort,
    descending; items of equal score keep their order. *)
Fixpoint insert_by_score (item : nat * FAQ) (sorted : list (nat * FAQ))
  : list (nat * FAQ) :=
  match sorted with
  | [] => [item]
  | next :: rest =>
      if (fst item <? fst next)%nat then next :: insert_by_score item rest
      else item :: next :: rest
  end.

Definition sort_by_score (items : list (nat * FAQ)) : list (nat * FAQ) :=
  fold_right insert_by_score [] items.

Definition search_faq (records : list FAQ) (query : string) (top_k : nat)
  : list FAQ :=
  let scored_items :=
    filter (fun item => (0 <? fst item)%nat)
           (map (fun record => (record_score query record, record)) records) in
  map snd (firstn top_k (sort_by_score scored_items)).

End Search.

End DatabaseManager.

(* ================================================================== *)
(** * app.py *)
(* ================================================================== *)

Module App.
Import Py PyStr BaseAgent.

Record RouteDecision : Type := mkRoute {
  route_to : string;
  confidence : value
}.

Definition refund_indicators : list string :=
  ["refund"; "return"; "money back"; "inv"; "invoice"].

Definition faq_indicators : list string :=
  ["how"; "what"; "policy"; "specification"; "dimension"].

Definition refund_strength (user_input : string) : nat :=
  sum_1_for_in refund_indicators (lower user_input).

Definition faq_strength (user_input : string) : nat :=
  sum_1_for_in faq_indicators (lower user_input).

(** [v == "s"]. *)
Definition is_str (v : value) (s : string) : bool :=
  match v with
  | VStr x => String.eqb x s
  | _ => false
  end.

(** [if isinstance(confidence, str): confidence = confidence_map.get(confidence, 0.5)]. *)
Definition numeric_confidence (confidence : value) : value :=
  match confidence with
  | VStr s => VNum (get_default confidence_map s 0.5%Q)
  | _ => confidence
  end.

Definition _determine_routing (triage_result : dict) (user_input : string)
           (context : dict) : result RouteDecision :=
  let category := get_default triage_result "category" (VStr "other") in
  let confidence := get_default triage_result "confidence" (VNum 0.5%Q) in
  let confidence := numeric_confidence confidence in
  let refund_strength := refund_strength user_input in
  let faq_strength := faq_strength user_input in
  is_refund <-
    (if is_str category "refund" then gt_float confidence 0.6%Q else Ok false) ;;
  if is_refund then Ok {| route_to := "refund"; confidence := confidence |}
  else
    is_faq <-
      (if is_str category "faq" then gt_float confidence 0.6%Q else Ok false) ;;
    if is_faq then Ok {| route_to := "faq"; confidence := confidence |}
    else if (faq_strength <? refund_strength)%nat && (0 <? refund_strength)%nat
    then Ok {| route_to := "refund"; confidence := VNum 0.7%Q |}
    else if (refund_strength <? faq_strength)%nat && (0 <? faq_strength)%nat
    then Ok {| route_to := "faq"; confidence := VNum 0.7%Q |}
    else Ok {| route_to := "triage"; confidence := confidence |}.

(** The part of [st.session_state] that a turn reads and writes. *)
Record SessionState : Type := mkSession {
  session_id : string;
  customer_info : value;
  current_context : value;
  awaiting_info : bool;
  required_fields : value
}.

Record Message : Type := mkMessage {
  role : string;
  content : value;
  metadata : dict
}.

(** The message returned by the [except] branch of [route_and_process]. *)
Definition error_message : Message :=
  {| role := "assistant";
     content := VStr "I apologize, but I encountered an error processing your request. Please try again or contact our support team.";
     metadata := [("category", VStr "error");
                  ("resolved", VBool false);
                  ("needs_followup", VBool true)] |}.

Section Turn.
(** The three agents and the refund log of the database. *)
Variable triage_process : string -> option dict -> TriageAgent.Output.
Variable refund_process : string -> option dict -> dict.
Variable faq_process : string -> option dict -> result dict.
Variable log_refund_request : string -> value -> result unit.

Definition route_body (st : SessionState) (user_input : string)
  : result Message * SessionState :=
  let context : dict :=
    [("session_id", VStr (session_id st));
     ("customer_info", customer_info st);
     ("previous_context", current_context st)] in
  let triage_result :=
    match triage_process user_input (Some context) with
    | TriageAgent.Structured r => ResponseSchema.to_dict r
    | TriageAgent.Plain d => d
    end in
  let category := get_default triage_result "category" (VStr "general") in
  let confidence := get_default triage_result "confidence" (VNum 0.5%Q) in
  let confidence := numeric_confidence confidence in
  let confidence :=
    match confidence with
    | VNum _ | VBool _ => confidence
    | _ => VNum 0.5%Q
    end in
  match _determine_routing triage_result user_input context with
  | Raise e => (Raise e, st)
  | Ok route_decision =>
      let '(handled, st) :=
        if String.eqb (route_to route_decision) "refund" then
          let result := refund_process user_input (Some context) in
          let st :=
            if truthy (get result "requires_verification") then
              {| session_id := session_id st;
                 customer_info := customer_info st;
                 current_context := current_context st;
                 awaiting_info := true;
                 required_fields := get_default result "required_fields" (VList []) |}
            else st in
          (if truthy (get result "refund_data") then
             _ <- log_refund_request (session_id st) (get result "refund_data") ;;
             Ok result
           else Ok result, st)
        else if String.eqb (route_to route_decision) "faq" then
          (faq_process user_input (Some context), st)
        else (Ok triage_result, st) in
      match handled with
      | Raise e => (Raise e, st)
      | Ok result =>
          ( Ok {| role := "assistant";
                  content := get_default result "response"
                               (VStr "I apologize, but I couldn't process your request.");
                  metadata :=
                    [("category", category);
                     ("confidence", confidence);
                     ("resolved", get_default result "resolved" (VBool true));
                     ("needs_followup",
                      get_default result "needs_followup" (VBool false))] |},
            {| session_id := session_id st;
               customer_info := customer_info st;
               current_context := get_default result "context" (VDict []);
               awaiting_info := awaiting_info st;
               required_fields := required_fields st |} )
      end
  end.

Definition route_and_process (st : SessionState) (user_input : string)
  : Message * SessionState :=
  let (outcome, st') := route_body st user_input in
  (try_except outcome (fun _ => error_message), st').

End Turn.

End App.

(* ================================================================== *)
(** * Reference notions used to state the properties *)
(* ================================================================== *)

Module Reference.
Import Py PyStr InputValidator BaseAgent FAQAgent App.
Local Open Scope nat_scope.

(** Number of positions of [text] at which [kw] starts. *)
Fixpoint occurrences (kw text : string) : nat :=
  (if String.prefix kw text then 1 else 0) +
  match text with
  | EmptyString => 0
  | String _ text' => occurrences kw text'
  end.

(** The score as a total number of occurrences: every occurrence of every
    keyword of the set adds 1. *)
Definition occurrence_total (kws : list string) (text : string) : nat :=
  list_sum (map (fun kw => occurrences kw text) kws).

(** The score as a number of keywords: a keyword adds 1 when it occurs at
    all. *)
Definition keywords_present (kws : list string) (text : string) : nat :=
  List.length (filter (fun kw => (1 <=? occurrences kw text)%nat) kws).

(** No character of [s] is in the class [bad]. *)
Fixpoint free_of (bad : ascii -> bool) (s : string) : bool :=
  match s with
  | EmptyString => true
  | String c s' => negb (bad c) && free_of bad s'
  end.

(** Every character of [s] is a digit. *)
Fixpoint all_digits (s : string) : bool :=
  match s with
  | EmptyString => true
  | String c s' => isdigit c && all_digits s'
  end.

(** The text has ASCII characters only ([str.isascii]).  On such a text
    [String.length] is [len], and [lower], [upper], [isdigit] and [isspace]
    are [str.lower], [str.upper], the class [\d] and the whitespace of
    [str.strip] and [str.split]. *)
Definition ascii_text (s : string) : bool :=
  free_of (fun c => 128 <=? nat_of_ascii c) s.

(** A call [_cache_response(cache_key, response)] made at time [now]. *)
Record Insertion : Type := mkInsertion {
  ins_key : string;
  ins_response : string;
  ins_time : Q
}.

(** The cache after a sequence of such calls. *)
Definition run_insertions (cache : BaseAgent.Cache) (calls : list Insertion)
  : BaseAgent.Cache :=
  fold_left
    (fun cache call =>
       BaseAgent._cache_response cache (ins_key call) (ins_response call)
                                 (ins_time call))
    calls cache.

(** Time stamps that strictly increase from one call to the next. *)
Fixpoint increasing (times : list Q) : bool :=
  match times with
  | [] => true
  | t :: later =>
      match later with
      | [] => true
      | t' :: _ => Py.Qgtb t' t && increasing later
      end
  end.

(** The scores as total numbers of occurrences. *)
Definition scores_count_occurrences : Prop :=
  forall query : string,
    refund_score query = occurrence_total refund_keywords (lower query)
    /\ faq_score query = occurrence_total faq_keywords (lower query)
    /\ partnership_score query
       = occurrence_total partnership_keywords (lower query).

(** No score is strictly above the two others. *)
Definition no_strict_winner (r f p : nat) : Prop :=
  ~ (f < r /\ p < r) /\ ~ (r < f /\ p < f) /\ ~ (r < p /\ f < p).

(** The strictly highest score wins, and everything else is [other]. *)
Definition ties_resolve_to_other : Prop :=
  forall query : string,
    let r := refund_score query in
    let f := faq_score query in
    let p := partnership_score query in
    (f < r /\ p < r -> classify_query_intent query = "refund")
    /\ (r < f /\ p < f -> classify_query_intent query = "faq")
    /\ (r < p /\ f < p -> classify_query_intent query = "partnership")
    /\ (no_strict_winner r f p -> classify_query_intent query = "other").



(** The category and the numeric confidence the router works with. *)
Definition category_of (triage_result : dict) : value :=
  get_default triage_result "category" (VStr "other").

Definition confidence_of (triage_result : dict) : value :=
  numeric_confidence (get_default triage_result "confidence" (VNum 0.5%Q)).

(** A word: not empty and without whitespace. *)
Definition word (w : string) : Prop :=
  w <> "" /\ free_of isspace w = true.

(** The whitespace normalisation of [sanitize_input]. *)
Definition normalize (s : string) : string := join " " (split (strip s)).

(** [sanitize_input] applied twice is [sanitize_input] applied once. *)
Definition sanitize_idempotent : Prop :=
  forall s : string, sanitize_input (sanitize_input s) = sanitize_input s.

(** Entries under different keys carry different time stamps. *)
Definition distinct_stamps (c : Cache) : Prop :=
  forall k1 k2 t1 t2 r1 r2,
    lookup c k1 = Some (t1, r1) -> lookup c k2 = Some (t2, r2) ->
    k1 <> k2 -> ~ (t1 == t2)%Q.

(** The optional eviction of [_cache_response]. *)
Definition evicted (c : Cache) : Cache :=
  if MAX_CACHE_SIZE <=? List.length c then
    match c with
    | first :: others => del c (oldest_key first others)
    | [] => c
    end
  else c.

(** Every stamp of the cache is earlier than [now]. *)
Definition all_before (c : Cache) (now : Q) : Prop :=
  forall k t r, lookup c k = Some (t, r) -> (t < now)%Q.

(** One hundred calls with keys [k0 .. k99] at times [0 .. 99]. *)
Definition hundred_calls : list Insertion :=
  map (fun i => mkInsertion (String (ascii_of_nat i) "k") "answer"
                            (inject_Z (Z.of_nat i)))
      (seq 0 100).

(** A context that carries one identifier from an earlier turn. *)
Definition carried_customer : dict :=
  [("extracted_info",
    VDict [("invoice_no", VNone); ("customer_id", VStr "CUST123")])].

(** A context that carries the complete pair of an earlier turn. *)
Definition carried_pair : dict :=
  [("extracted_info",
    VDict [("invoice_no", VStr "INV1001"); ("customer_id", VStr "CUST123")])].

(** The answer is the request for the missing identifiers. *)
Definition asks_for_identifiers (answer : dict) : Prop :=
  get answer "needs_more_info" = VBool true
  /\ exists fields,
       get answer "metadata" = VDict [("missing_fields", VList fields)].

(** The identifier that the context carries under [extracted_info]. *)
Definition context_identifier (context : dict) (field : string) : value :=
  match get context "extracted_info" with
  | VDict info => get info field
  | _ => VNone
  end.

(** An identifier is available in the message or in the context. *)
Definition available (from_message : option string) (from_context : value)
  : bool :=
  truthy_opt from_message || truthy from_context.

(** Identifiers of the message and of the context taken together: the
    handler does not ask when each identifier is available in one of the
    two. *)
Definition identifiers_are_combined : Prop :=
  forall (verify_transaction : value -> value -> result (option dict))
         (str_of : value -> string)
         (_process_verified_refund : string -> dict -> dict -> result dict)
         (user_input : string) (context : dict),
    let info := extract_transaction_info user_input in
    available (invoice_no info) (context_identifier context "invoice_no")
    = true ->
    available (customer_id info) (context_identifier context "customer_id")
    = true ->
    ~ asks_for_identifiers
        (RefundAgent.process verify_transaction str_of
                             _process_verified_refund user_input (Some context)).

(** What [RefundAgent.process] does once it holds both identifiers: the
    lookup, then the not-found answer or the continuation. *)
Definition looked_up
           (verify_transaction : value -> value -> result (option dict))
           (str_of : value -> string)
           (_process_verified_refund : string -> dict -> dict -> result dict)
           (user_input : string) (context : dict)
           (invoice_no customer_id : value) : dict :=
  try_except
    (transaction <- verify_transaction invoice_no customer_id ;;
     match transaction with
     | None | Some [] =>
         Ok (RefundAgent._handle_transaction_not_found
               str_of invoice_no customer_id)
     | Some transaction =>
         _process_verified_refund user_input transaction context
     end)
    (fun _ => RefundAgent.error_response).

(** A completion call that fails for every request. *)
Definition failing_completion (e : exn) : string -> string -> result string :=
  fun _ _ => Raise e.

(** The triage result as [route_and_process] reads it: an [AgentResponse]
    is turned into its dictionary. *)
Definition output_dict (o : TriageAgent.Output) : dict :=
  match o with
  | TriageAgent.Structured r => ResponseSchema.to_dict r
  | TriageAgent.Plain d => d
  end.

(** The line feed as a character class. *)
Definition is_line_feed (c : ascii) : bool := Ascii.eqb c (ascii_of_nat 10).

(** A reply in the format the triage prompt asks for. *)
Definition formatted_reply (category confidence reasoning next_action : string)
  : string :=
  "Category: " ++ category ++ nl
  ++ "Confidence: " ++ confidence ++ nl
  ++ "Reasoning: " ++ reasoning ++ nl
  ++ "Next Action: " ++ next_action.

(** The route chosen from the indicator words alone. *)
Definition route_by_strength (user_input : string) (fallback : value)
  : RouteDecision :=
  if (faq_strength user_input <? refund_strength user_input)
     && (0 <? refund_strength user_input)
  then mkRoute "refund" (VNum 0.7%Q)
  else if (refund_strength user_input <? faq_strength user_input)
          && (0 <? faq_strength user_input)
  then mkRoute "faq" (VNum 0.7%Q)
  else mkRoute "triage" fallback.

(** What a completed refund looks like. *)
Definition completed (transaction : dict) (r : ResponseSchema.AgentResponse) : Prop :=
  exists reason data,
    validate_refund_reason reason = (true, "")
    /\ ResponseSchema.confidence r = 0.9%Q
    /\ ResponseSchema.metadata r = Some [("refund_data", VDict data);
                          ("transaction_verified", VBool true)]
    /\ lookup data "refund_reason" = Some (VStr reason)
    /\ lookup data "invoice_no" = lookup transaction "InvoiceNo"
    /\ lookup data "customer_id" = lookup transaction "CustomerID".

(** A row of data/transactions.csv as [verify_transaction] returns it. *)
Definition sample_transaction : dict :=
  [("InvoiceNo", VStr "INV1001");
   ("StockCode", VStr "PRD001");
   ("Description", VStr "Wireless Bluetooth Headphones");
   ("Quantity", VNum 1%Q);
   ("UnitPrice", VNum 79.99%Q);
   ("InvoiceDate", VStr "2024-01-15");
   ("CustomerID", VStr "CUST123")].

(** Descending order of the scored items of the FAQ search. *)
Definition descending (a b : nat * FAQAgent.FAQ) : Prop := fst b <= fst a.

(** Two records for the examples of the search. *)
Definition two_records : list FAQAgent.FAQ :=
  [FAQAgent.mkFAQ 1 "returns" "What is the return policy?" "30 days."
                  ["return"; "policy"];
   FAQAgent.mkFAQ 2 "shipping" "Do you ship internationally?" "Yes."
                  ["shipping"]].

End Reference.

(* ================================================================== *)
(** * Sanity checks of the embedding on concrete inputs *)
(* ================================================================== *)

Example lower_ex : PyStr.lower "Refund INV1001!" = "refund inv1001!".
Proof. reflexivity. Qed.

Example split_ex : PyStr.split "  a  bc d " = ["a"; "bc"; "d"].
Proof. reflexivity. Qed.

Example strip_ex : PyStr.strip "  a  bc d  " = "a  bc d".
Proof. reflexivity. Qed.

Example sanitize_ex : InputValidator.sanitize_input "  a  <bc> d  " = "a bc d".
Proof. reflexivity. Qed.

Example extract_ex :
  InputValidator.extract_transaction_info "refund for inv1001 cust123"
  = InputValidator.mkInfo (Some "INV1001") (Some "CUST123").
Proof. reflexivity. Qed.

Example classify_ex :
  InputValidator.classify_query_intent "I want my money back, here is the invoice"
  = "refund".
Proof. reflexivity. Qed.

Example parse_ex :
  TriageAgent._parse_ai_response
    ("Category: FAQ" ++ PyStr.nl ++ "Confidence: High" ++ PyStr.nl ++ "noise")
  = [("category", "faq"); ("confidence", "high")].
Proof. reflexivity. Qed.

(* ================================================================== *)
(** * Facts about strings *)
(* ================================================================== *)

Module StrFacts.

Lemma append_assoc (a b c : string) : (a ++ b) ++ c = a ++ b ++ c.
Proof. induction a as [|x a IH]; simpl; [reflexivity | now rewrite IH]. Qed.

Lemma append_nil_r (a : string) : a ++ "" = a.
Proof. induction a as [|x a IH]; simpl; [reflexivity | now rewrite IH]. Qed.

Lemma append_snoc (a : string) (c : ascii) (b : string) :
  (a ++ String c "") ++ b = a ++ String c b.
Proof. now rewrite append_assoc. Qed.

End StrFacts.

(* ================================================================== *)
(** * Facts about float comparisons *)
(* ================================================================== *)

Module NumFacts.
Import Py.

Lemma Qgtb_lt (a b : Q) : Qgtb a b = true <-> (b < a)%Q.
Proof.
  unfold Qgtb. rewrite negb_true_iff. split.
  - intro H. apply Qnot_le_lt. intro Hle.
    apply Qle_bool_iff in Hle. congruence.
  - intro H. destruct (Qle_bool a b) eqn:E; [|reflexivity].
    apply Qle_bool_iff in E. exfalso. exact (Qlt_not_le _ _ H E).
Qed.

Lemma Qgtb_not_lt (a b : Q) : Qgtb a b = false <-> ~ (b < a)%Q.
Proof.
  rewrite <- Qgtb_lt. destruct (Qgtb a b); split; intro H;
    try reflexivity; try discriminate; try (intro; discriminate).
  exfalso. now apply H.
Qed.

End NumFacts.

(* ================================================================== *)
(** * Properties of the rule-based classifier *)
(* ================================================================== *)

Module ClassifierProps.
Import PyStr InputValidator Reference.
Local Open Scope nat_scope.

Lemma str_in_occurrences (kw text : string) :
  str_in kw text = (1 <=? occurrences kw text)%nat.
Proof.
  induction text as [|c text IH]; cbn [str_in occurrences].
  - destruct (String.prefix kw ""); reflexivity.
  - destruct (String.prefix kw (String c text)); cbn [orb Nat.add].
    + reflexivity.
    + exact IH.
Qed.

Lemma list_sum_ones {A : Type} (l : list A) :
  list_sum (map (fun _ => 1) l) = List.length l.
Proof. induction l as [|a l IH]; simpl; [reflexivity | now rewrite IH]. Qed.

Lemma sum_1_for_in_present (kws : list string) (text : string) :
  sum_1_for_in kws text = keywords_present kws text.
Proof.
  unfold sum_1_for_in, keywords_present. rewrite list_sum_ones.
  f_equal. apply filter_ext. intro kw. apply str_in_occurrences.
Qed.

Lemma sum_1_for_in_le_length (kws : list string) (text : string) :
  sum_1_for_in kws text <= List.length kws.
Proof.
  unfold sum_1_for_in. rewrite list_sum_ones. apply filter_length_le.
Qed.

(** C3, as stated, fails: in "refund refund" the keyword "refund" occurs
    twice and no other refund keyword occurs, yet the refund score is 1. *)
Lemma score_is_not_occurrence_total :
  refund_score "refund refund" = 1
  /\ occurrence_total refund_keywords (lower "refund refund") = 2
  /\ ~ scores_count_occurrences.
Proof.
  split; [reflexivity | split; [reflexivity |]].
  intro H. destruct (H "refund refund") as [Hr _].
  vm_compute in Hr. discriminate Hr.
Qed.

(** C3, amended: each of the three scores of [classify_query_intent] is
    the number of keywords of its set that occur at least once in the
    lower-cased text; a keyword that occurs several times still adds 1,
    so a score never exceeds the size of its keyword set (8, 11, 7). *)
Theorem score_counts_keywords_present (query : string) :
  refund_score query = keywords_present refund_keywords (lower query)
  /\ faq_score query = keywords_present faq_keywords (lower query)
  /\ partnership_score query
     = keywords_present partnership_keywords (lower query)
  /\ refund_score query <= 8
  /\ faq_score query <= 11
  /\ partnership_score query <= 7.
Proof.
  unfold refund_score, faq_score, partnership_score.
  repeat split; try apply sum_1_for_in_present.
  - apply (sum_1_for_in_le_length refund_keywords).
  - apply (sum_1_for_in_le_length faq_keywords).
  - apply (sum_1_for_in_le_length partnership_keywords).
Qed.

(** C2, as stated, fails: "refund product" scores 1 for refund, 1 for faq
    and 0 for partnership, two maximal scores, and is classified [faq]. *)
Lemma tie_classified_as_faq :
  refund_score "refund product" = 1
  /\ faq_score "refund product" = 1
  /\ partnership_score "refund product" = 0
  /\ classify_query_intent "refund product" = "faq"
  /\ ~ ties_resolve_to_other.
Proof.
  repeat (split; [reflexivity |]).
  intro H. destruct (H "refund product") as (_ & _ & _ & Hother).
  assert (Hc : classify_query_intent "refund product" = "other").
  { apply Hother. vm_compute. repeat split; intros [H1 H2]; lia. }
  vm_compute in Hc. discriminate Hc.
Qed.

Lemma classify_cases (query : string) :
  let r := refund_score query in
  let f := faq_score query in
  let p := partnership_score query in
  classify_query_intent query =
    if (f <? r) && (p <? r) then "refund"
    else if (f <? p) && (r <? p) then "partnership"
    else if (0 <? f) then "faq" else "other".
Proof. reflexivity. Qed.

(** C2, amended: [classify_query_intent] returns the category whose score
    is strictly highest; when no score is strictly highest it returns
    [faq] if the faq score is positive and [other] otherwise (so all-zero
    scores give [other]). *)
Theorem classify_strict_winner_else_faq (query : string) :
  let r := refund_score query in
  let f := faq_score query in
  let p := partnership_score query in
  (f < r /\ p < r -> classify_query_intent query = "refund")
  /\ (r < f /\ p < f -> classify_query_intent query = "faq")
  /\ (r < p /\ f < p -> classify_query_intent query = "partnership")
  /\ (no_strict_winner r f p -> 0 < f -> classify_query_intent query = "faq")
  /\ (no_strict_winner r f p -> f = 0 -> classify_query_intent query = "other")
  /\ (r = 0 -> f = 0 -> p = 0 -> classify_query_intent query = "other").
Proof.
  intros r f p. rewrite classify_cases. fold r f p.
  unfold no_strict_winner.
  destruct (Nat.ltb_spec f r), (Nat.ltb_spec p r), (Nat.ltb_spec f p),
    (Nat.ltb_spec r p), (Nat.ltb_spec 0 f); simpl;
    repeat split; intros; try reflexivity; exfalso; lia.
Qed.

Lemma classify_strict_winner_else_faq_witness :
  classify_query_intent "I want a refund" = "refund"
  /\ classify_query_intent "what is the shipping policy" = "faq"
  /\ classify_query_intent "wholesale partnership" = "partnership"
  /\ classify_query_intent "refund product" = "faq"
  /\ classify_query_intent "refund bulk" = "other"
  /\ classify_query_intent "hello" = "other".
Proof.
  pose proof (classify_strict_winner_else_faq "I want a refund") as (H1 & _).
  pose proof (classify_strict_winner_else_faq "what is the shipping policy")
    as (_ & H2 & _).
  pose proof (classify_strict_winner_else_faq "wholesale partnership")
    as (_ & _ & H3 & _).
  pose proof (classify_strict_winner_else_faq "refund product")
    as (_ & _ & _ & H4 & _).
  pose proof (classify_strict_winner_else_faq "refund bulk")
    as (_ & _ & _ & _ & H5 & _).
  pose proof (classify_strict_winner_else_faq "hello")
    as (_ & _ & _ & _ & _ & H6).
  split; [apply H1; vm_compute; lia |].
  split; [apply H2; vm_compute; lia |].
  split; [apply H3; vm_compute; lia |].
  split; [apply H4; vm_compute; [repeat split; intros [? ?]; lia | lia] |].
  split; [apply H5; vm_compute; [repeat split; intros [? ?]; lia | reflexivity] |].
  apply H6; reflexivity.
Defined.

End ClassifierProps.

(* ================================================================== *)
(** * Properties of the reconciliation step *)
(* ================================================================== *)

Module ReconcilerProps.
Import PyStr InputValidator TriageAgent.

Lemma any_in_exists (kws : list string) (text : string) :
  any_in kws text = true <->
  exists kw, In kw kws /\ str_in kw text = true.
Proof. unfold any_in. apply existsb_exists. Qed.

Lemma validate_refund_rule (ai_category user_input : string) :
  any_in override_keywords (lower user_input) = true ->
  _validate_classification ai_category "refund" user_input = "refund".
Proof.
  intro Hkw. unfold _validate_classification. rewrite Hkw.
  destruct (existsb (String.eqb ai_category) valid_categories);
    [| reflexivity].
  destruct (String.eqb_spec ai_category "refund") as [-> | _]; reflexivity.
Qed.

(** C1: when the rule-based category of a text is [refund] and the
    lower-cased text contains one of the override keywords, the
    reconciliation returns [refund] whatever category string the AI
    proposed, valid or not. *)
Theorem refund_override_is_forced (text ai_category : string) :
  classify_query_intent text = "refund" ->
  (exists kw, In kw override_keywords /\ str_in kw (lower text) = true) ->
  _validate_classification ai_category (classify_query_intent text) text
  = "refund".
Proof.
  intros Hrule Hkw. rewrite Hrule.
  apply validate_refund_rule, any_in_exists, Hkw.
Qed.

Lemma refund_override_is_forced_witness :
  _validate_classification "faq"
    (classify_query_intent "Please REFUND my order") "Please REFUND my order"
  = "refund"
  /\ _validate_classification "no such category"
    (classify_query_intent "Please REFUND my order") "Please REFUND my order"
  = "refund".
Proof.
  split; apply refund_override_is_forced;
    try reflexivity; exists "refund"; split;
    [left; reflexivity | reflexivity | left; reflexivity | reflexivity].
Defined.

End ReconcilerProps.

(* ================================================================== *)
(** * Properties of the FAQ resolution heuristic *)
(* ================================================================== *)

Module ResolutionProps.
Import PyStr FAQAgent Reference.
Local Open Scope nat_scope.




End ResolutionProps.

(* ================================================================== *)
(** * Properties of the router *)
(* ================================================================== *)

Module RouterProps.
Import Py PyStr App NumFacts Reference.
Local Open Scope nat_scope.

Lemma is_str_eq (v : value) (s : string) : is_str v s = true <-> v = VStr s.
Proof.
  destruct v; simpl; split; intro H; try discriminate.
  - apply String.eqb_eq in H. now subst.
  - injection H as ->. apply String.eqb_refl.
Qed.

Lemma category_step (c : value) (s : string) (q : Q) :
  is_str c s && Qgtb q 0.6%Q = true <-> c = VStr s /\ (0.6 < q)%Q.
Proof. now rewrite andb_true_iff, is_str_eq, Qgtb_lt. Qed.

Lemma strength_step (a b : nat) :
  (a <? b) && (0 <? b) = true <-> a < b /\ 0 < b.
Proof. now rewrite andb_true_iff, !Nat.ltb_lt. Qed.

Lemma routing_cases (triage_result : dict) (user_input : string)
      (context : dict) (q : Q) :
  confidence_of triage_result = VNum q ->
  _determine_routing triage_result user_input context =
  Ok (if is_str (category_of triage_result) "refund" && Qgtb q 0.6%Q
      then mkRoute "refund" (VNum q)
      else if is_str (category_of triage_result) "faq" && Qgtb q 0.6%Q
      then mkRoute "faq" (VNum q)
      else if (faq_strength user_input <? refund_strength user_input)
              && (0 <? refund_strength user_input)
      then mkRoute "refund" (VNum 0.7%Q)
      else if (refund_strength user_input <? faq_strength user_input)
              && (0 <? faq_strength user_input)
      then mkRoute "faq" (VNum 0.7%Q)
      else mkRoute "triage" (VNum q)).
Proof.
  unfold confidence_of, category_of, _determine_routing. intros ->.
  cbv zeta. unfold gt_float.
  destruct (is_str _ "refund"), (is_str _ "faq"), (Qgtb q 0.6%Q);
    cbn [bind andb]; try reflexivity;
    destruct (_ && _); try reflexivity; destruct (_ && _); reflexivity.
Qed.

(** C5: [_determine_routing] follows the five steps in order, the first
    that applies deciding: refund above 0.6 goes to refund; else faq above
    0.6 goes to faq, both at the given confidence; else a larger, positive
    refund strength goes to refund at 0.7; else a larger, positive faq
    strength goes to faq at 0.7; else triage at the given confidence.
    With category [other], confidence 0.5 and the text "refund return"
    the strengths are 2 and 0 and the result is refund at 0.7. *)
Theorem determine_routing_decision_order :
  (forall (triage_result : dict) (user_input : string) (context : dict) (q : Q),
      confidence_of triage_result = VNum q ->
      let category := category_of triage_result in
      let rs := refund_strength user_input in
      let fs := faq_strength user_input in
      let step1 := category = VStr "refund" /\ (0.6 < q)%Q in
      let step2 := category = VStr "faq" /\ (0.6 < q)%Q in
      let step3 := fs < rs /\ 0 < rs in
      let step4 := rs < fs /\ 0 < fs in
      let routed := _determine_routing triage_result user_input context in
      (step1 -> routed = Ok (mkRoute "refund" (VNum q)))
      /\ (~ step1 -> step2 -> routed = Ok (mkRoute "faq" (VNum q)))
      /\ (~ step1 -> ~ step2 -> step3 ->
          routed = Ok (mkRoute "refund" (VNum 0.7%Q)))
      /\ (~ step1 -> ~ step2 -> ~ step3 -> step4 ->
          routed = Ok (mkRoute "faq" (VNum 0.7%Q)))
      /\ (~ step1 -> ~ step2 -> ~ step3 -> ~ step4 ->
          routed = Ok (mkRoute "triage" (VNum q))))
  /\ (forall context : dict,
        refund_strength "refund return" = 2
        /\ faq_strength "refund return" = 0
        /\ _determine_routing
             [("category", VStr "other"); ("confidence", VNum 0.5%Q)]
             "refund return" context
           = Ok (mkRoute "refund" (VNum 0.7%Q))).
Proof.
  split; [| intro context; repeat split; reflexivity].
  intros triage_result user_input context q Hq.
  cbv zeta. rewrite (routing_cases _ _ _ _ Hq).
  destruct (is_str (category_of triage_result) "refund" && Qgtb q 0.6%Q)
    eqn:E1;
    destruct (is_str (category_of triage_result) "faq" && Qgtb q 0.6%Q)
      eqn:E2;
    destruct ((faq_strength user_input <? refund_strength user_input)
              && (0 <? refund_strength user_input)) eqn:E3;
    destruct ((refund_strength user_input <? faq_strength user_input)
              && (0 <? faq_strength user_input)) eqn:E4;
    rewrite ?category_step, ?strength_step in *;
    rewrite <- ?not_true_iff_false in *;
    rewrite ?category_step, ?strength_step in *;
    repeat split; intros; try reflexivity; tauto.
Qed.

Lemma determine_routing_decision_order_witness :
  _determine_routing [("category", VStr "refund"); ("confidence", VStr "high")]
    "hello" []
  = Ok (mkRoute "refund" (VNum 0.8%Q))
  /\ _determine_routing [("category", VStr "other"); ("confidence", VStr "medium")]
    "what is your policy" []
  = Ok (mkRoute "faq" (VNum 0.7%Q))
  /\ _determine_routing [("category", VStr "refund"); ("confidence", VStr "medium")]
    "hello" []
  = Ok (mkRoute "triage" (VNum 0.6%Q)).
Proof.
  assert (Hno : forall (c : value) (q : Q),
             ~ (0.6 < q)%Q -> ~ (c = VStr "refund" /\ (0.6 < q)%Q)
                              /\ ~ (c = VStr "faq" /\ (0.6 < q)%Q)).
  { intros c q Hq. split; intros [_ H]; exact (Hq H). }
  split; [| split].
  - apply (proj1 determine_routing_decision_order
             [("category", VStr "refund"); ("confidence", VStr "high")]
             "hello" [] 0.8%Q eq_refl).
    split; reflexivity.
  - apply (proj1 determine_routing_decision_order
             [("category", VStr "other"); ("confidence", VStr "medium")]
             "what is your policy" [] 0.6%Q eq_refl).
    + apply Hno. discriminate.
    + apply Hno. discriminate.
    + vm_compute. lia.
    + vm_compute. lia.
  - apply (proj1 determine_routing_decision_order
             [("category", VStr "refund"); ("confidence", VStr "medium")]
             "hello" [] 0.6%Q eq_refl).
    + apply Hno. discriminate.
    + apply Hno. discriminate.
    + vm_compute. lia.
    + vm_compute. lia.
Defined.

End RouterProps.

(* ================================================================== *)
(** * Properties of the entity extractor *)
(* ================================================================== *)

Module ExtractorProps.
Import PyStr InputValidator Reference StrFacts.
Local Open Scope nat_scope.

Lemma strip_prefix_sound (lit s rest : string) :
  strip_prefix lit s = Some rest -> s = lit ++ rest.
Proof.
  revert s. induction lit as [|a lit IH]; intros s H; simpl in *.
  - now injection H as ->.
  - destruct s as [|b s]; [discriminate|].
    destruct (Ascii.eqb_spec a b) as [-> | _]; [|discriminate].
    now rewrite (IH _ H).
Qed.

Lemma strip_prefix_complete (lit rest : string) :
  strip_prefix lit (lit ++ rest) = Some rest.
Proof.
  induction lit as [|a lit IH]; simpl.
  - reflexivity.
  - now rewrite Ascii.eqb_refl.
Qed.

Lemma take_digits_sound (n : nat) (s d : string) :
  take_digits n s = Some d ->
  String.length d = n /\ all_digits d = true /\ exists post, s = d ++ post.
Proof.
  revert s d. induction n as [|n IH]; intros s d H; simpl in H.
  - injection H as <-. repeat split. now exists s.
  - destruct s as [|c s]; [discriminate|].
    destruct (isdigit c) eqn:Ec; [|discriminate].
    destruct (take_digits n s) as [d'|] eqn:Ed; [|discriminate].
    injection H as <-. destruct (IH _ _ Ed) as (Hl & Hd & post & ->).
    simpl. rewrite Hl, Ec, Hd. repeat split. now exists post.
Qed.

Lemma take_digits_complete (d post : string) :
  all_digits d = true -> take_digits (String.length d) (d ++ post) = Some d.
Proof.
  induction d as [|c d IH]; simpl; intro H.
  - reflexivity.
  - apply andb_true_iff in H as [Hc Hd]. now rewrite Hc, (IH Hd).
Qed.

Lemma match_here_sound (lit : string) (n : nat) (s m : string) :
  match_here lit n s = Some m ->
  exists d post, s = m ++ post /\ m = lit ++ d
                 /\ String.length d = n /\ all_digits d = true.
Proof.
  unfold match_here. intro H.
  destruct (strip_prefix lit s) as [rest|] eqn:Ep; [|discriminate].
  destruct (take_digits n rest) as [d|] eqn:Ed; [|discriminate].
  injection H as <-. apply strip_prefix_sound in Ep.
  destruct (take_digits_sound _ _ _ Ed) as (Hl & Hd & post & ->).
  exists d, post. subst s. now rewrite append_assoc.
Qed.

Lemma match_here_complete (lit d post : string) :
  all_digits d = true ->
  match_here lit (String.length d) (lit ++ d ++ post) = Some (lit ++ d).
Proof.
  intro Hd. unfold match_here.
  now rewrite strip_prefix_complete, take_digits_complete.
Qed.

(** What [re_search] finds is an occurrence of the pattern, and the
    leftmost one. *)
Lemma re_search_sound (lit : string) (n : nat) (s m : string) :
  re_search lit n s = Some m ->
  exists pre d post,
    s = pre ++ m ++ post /\ m = lit ++ d
    /\ String.length d = n /\ all_digits d = true
    /\ forall pre' d' post',
         all_digits d' = true -> String.length d' = n ->
         s = pre' ++ lit ++ d' ++ post' ->
         String.length pre <= String.length pre'.
Proof.
  induction s as [|c s IH]; intro H; simpl in H.
  - destruct (match_here lit n "") as [m'|] eqn:Em; [|discriminate].
    injection H as ->.
    destruct (match_here_sound _ _ _ _ Em) as (d & post & Hs & Hm & Hl & Hd).
    exists "", d, post. repeat split; try assumption. intros. simpl. lia.
  - destruct (match_here lit n (String c s)) as [m'|] eqn:Em.
    + injection H as ->.
      destruct (match_here_sound _ _ _ _ Em) as (d & post & Hs & Hm & Hl & Hd).
      exists "", d, post. repeat split; try assumption. intros. simpl. lia.
    + destruct (IH H) as (pre & d & post & Hs & Hm & Hl & Hd & Hleft).
      exists (String c pre), d, post. simpl. rewrite <- Hs.
      repeat split; try assumption.
      intros pre' d' post' Hd' Hl' Hs'.
      destruct pre' as [|c' pre']; simpl in Hs'.
      * rewrite Hs', <- Hl', match_here_complete in Em by assumption.
        discriminate.
      * injection Hs' as _ Hs'. simpl.
        apply le_n_S. exact (Hleft _ _ _ Hd' Hl' Hs').
Qed.





End ExtractorProps.

(* ================================================================== *)
(** * Properties of the input normaliser *)
(* ================================================================== *)

Module SanitizerProps.
Import PyStr InputValidator Reference StrFacts.

Lemma free_of_app (bad : ascii -> bool) (a b : string) :
  free_of bad (a ++ b) = free_of bad a && free_of bad b.
Proof.
  induction a as [|c a IH]; simpl; [reflexivity|].
  now rewrite IH, andb_assoc.
Qed.

Lemma free_of_remove_chars (bad : ascii -> bool) (s : string) :
  free_of bad (remove_chars bad s) = true.
Proof.
  induction s as [|c s IH]; simpl; [reflexivity|].
  destruct (bad c) eqn:E; simpl; [exact IH | now rewrite E, IH].
Qed.

Lemma remove_chars_free (bad : ascii -> bool) (s : string) :
  free_of bad s = true -> remove_chars bad s = s.
Proof.
  induction s as [|c s IH]; simpl; [reflexivity|].
  intro H. apply andb_true_iff in H as [Hc Hs].
  apply negb_true_iff in Hc. now rewrite Hc, (IH Hs).
Qed.

(** Stripping does not change the words of a text. *)
Lemma split_from_rstrip (cur s : string) :
  split_from cur (rstrip s) = split_from cur s.
Proof.
  revert cur. induction s as [|c s IH]; intro cur; [reflexivity|].
  cbn [rstrip]. destruct (rstrip s) as [|c' r] eqn:Er.
  - destruct (isspace c) eqn:Ec.
    + cbn [split_from]. rewrite Ec, <- IH. reflexivity.
    + cbn [split_from]. rewrite Ec, <- IH. reflexivity.
  - cbn [split_from]. destruct (isspace c); now rewrite <- IH.
Qed.

Lemma split_lstrip (s : string) : split (lstrip s) = split s.
Proof.
  unfold split. induction s as [|c s IH]; [reflexivity|].
  cbn [lstrip]. destruct (isspace c) eqn:Ec; [|reflexivity].
  cbn [split_from]. now rewrite Ec.
Qed.

Lemma split_strip (s : string) : split (strip s) = split s.
Proof.
  unfold strip, split at 1. rewrite split_from_rstrip. apply split_lstrip.
Qed.

Lemma flush_words (cur : string) (rest : list string) :
  free_of isspace cur = true -> Forall word rest -> Forall word (flush cur rest).
Proof.
  intros Hc Hr. destruct cur as [|c cur]; [exact Hr|].
  constructor; [split; [discriminate | exact Hc] | exact Hr].
Qed.

Lemma split_from_words (cur s : string) :
  free_of isspace cur = true -> Forall word (split_from cur s).
Proof.
  revert cur. induction s as [|c s IH]; intros cur Hc; cbn [split_from].
  - now apply flush_words.
  - destruct (isspace c) eqn:Ec.
    + apply flush_words; [exact Hc | now apply IH].
    + apply IH. rewrite free_of_app, Hc. simpl. now rewrite Ec.
Qed.

Lemma split_from_word (cur w s : string) :
  free_of isspace w = true -> split_from cur (w ++ s) = split_from (cur ++ w) s.
Proof.
  revert cur. induction w as [|c w IH]; intros cur Hw; simpl in *.
  - now rewrite append_nil_r.
  - apply andb_true_iff in Hw as [Hc Hw]. apply negb_true_iff in Hc.
    now rewrite Hc, (IH _ Hw), append_snoc.
Qed.

(** Splitting a text joined from words gives the words back. *)
Lemma split_join (ws : list string) :
  Forall word ws -> split (join " " ws) = ws.
Proof.
  unfold split. induction 1 as [|w ws [Hne Hw] Hws IH]; [reflexivity|].
  destruct ws as [|w2 ws].
  - cbn [join]. rewrite <- (append_nil_r w) at 1.
    rewrite (split_from_word _ _ _ Hw). simpl.
    destruct w; [contradiction | reflexivity].
  - change (join " " (w :: w2 :: ws)) with (w ++ " " ++ join " " (w2 :: ws)).
    rewrite (split_from_word _ _ _ Hw). cbn [append split_from].
    change (isspace " ") with true. cbv iota. rewrite IH.
    destruct w; [contradiction | reflexivity].
Qed.

Lemma split_from_free (bad : ascii -> bool) (cur s : string) :
  free_of bad cur = true -> free_of bad s = true ->
  Forall (fun w => free_of bad w = true) (split_from cur s).
Proof.
  revert cur. induction s as [|c s IH]; intros cur Hc Hs; cbn [split_from].
  - destruct cur; simpl; [constructor | constructor; [exact Hc | constructor]].
  - simpl in Hs. apply andb_true_iff in Hs as [Hb Hs].
    destruct (isspace c).
    + assert (Hrest := IH "" eq_refl Hs).
      destruct cur; simpl; [exact Hrest | constructor; assumption].
    + apply IH; [| exact Hs]. rewrite free_of_app, Hc. simpl. now rewrite Hb.
Qed.

Lemma join_free (bad : ascii -> bool) (sep : string) (ws : list string) :
  free_of bad sep = true ->
  Forall (fun w => free_of bad w = true) ws ->
  free_of bad (join sep ws) = true.
Proof.
  intro Hsep. induction 1 as [|w ws Hw Hws IH]; [reflexivity|].
  destruct ws as [|w2 ws]; [exact Hw|].
  change (join sep (w :: w2 :: ws)) with (w ++ sep ++ join sep (w2 :: ws)).
  now rewrite !free_of_app, Hw, Hsep, IH.
Qed.

Lemma sanitize_unfold (s : string) :
  sanitize_input s = remove_chars harmful (normalize s).
Proof. destruct s; reflexivity. Qed.

Lemma normalize_idempotent (s : string) : normalize (normalize s) = normalize s.
Proof.
  unfold normalize. rewrite !split_strip. f_equal.
  apply split_join. apply split_from_words. reflexivity.
Qed.

Lemma normalize_free (s : string) :
  free_of harmful s = true -> free_of harmful (normalize s) = true.
Proof.
  intro H. unfold normalize. rewrite split_strip.
  apply join_free; [reflexivity|]. now apply split_from_free.
Qed.

Lemma sanitize_free_idempotent (s : string) :
  free_of harmful s = true ->
  sanitize_input (sanitize_input s) = sanitize_input s.
Proof.
  intro H. rewrite !sanitize_unfold.
  rewrite (remove_chars_free _ (normalize s)) by now apply normalize_free.
  rewrite normalize_idempotent.
  apply remove_chars_free. now apply normalize_free.
Qed.

(** C10, as stated, fails: removing the character between two spaces
    leaves them side by side, and a second application collapses them. *)
Lemma sanitize_twice_differs :
  sanitize_input "a < b" = "a  b"
  /\ sanitize_input (sanitize_input "a < b") = "a b"
  /\ ~ sanitize_idempotent.
Proof.
  split; [reflexivity | split; [reflexivity |]].
  intro H. specialize (H "a < b"). vm_compute in H. discriminate H.
Qed.

(** C10, amended: one application of [sanitize_input] yields a string with
    none of the four removed characters; on every input that has none of
    these characters [sanitize_input] is idempotent; and on every input a
    third application changes nothing after the second. *)
Theorem sanitize_idempotent_without_removed_chars (s : string) :
  free_of harmful (sanitize_input s) = true
  /\ (free_of harmful s = true ->
      sanitize_input (sanitize_input s) = sanitize_input s)
  /\ sanitize_input (sanitize_input (sanitize_input s))
     = sanitize_input (sanitize_input s).
Proof.
  assert (Hfree : free_of harmful (sanitize_input s) = true).
  { rewrite sanitize_unfold. apply free_of_remove_chars. }
  split; [exact Hfree | split].
  - apply sanitize_free_idempotent.
  - now apply sanitize_free_idempotent.
Qed.

Lemma sanitize_idempotent_without_removed_chars_witness :
  sanitize_input (sanitize_input "  where   is my  order ")
  = sanitize_input "  where   is my  order ".
Proof.
  apply (proj1 (proj2 (sanitize_idempotent_without_removed_chars
                         "  where   is my  order "))).
  reflexivity.
Defined.

End SanitizerProps.

(* ================================================================== *)
(** * Properties of the response cache *)
(* ================================================================== *)

Module CacheProps.
Import Py BaseAgent Reference NumFacts.
Local Open Scope nat_scope.

Section Dict.
Context {V : Type}.
Implicit Types (d : list (string * V)) (k : string) (v : V).

Lemma lookup_set_same d k v : lookup (set d k v) k = Some v.
Proof.
  induction d as [|[k' v'] d IH]; simpl.
  - now rewrite String.eqb_refl.
  - destruct (String.eqb_spec k' k) as [-> | Hne]; simpl.
    + now rewrite String.eqb_refl.
    + apply String.eqb_neq in Hne. now rewrite Hne.
Qed.

Lemma lookup_set_other d k v k0 :
  k0 <> k -> lookup (set d k v) k0 = lookup d k0.
Proof.
  intro Hne. induction d as [|[k' v'] d IH]; simpl.
  - apply not_eq_sym, String.eqb_neq in Hne. now rewrite Hne.
  - destruct (String.eqb_spec k' k) as [-> | Hk]; simpl.
    + apply not_eq_sym, String.eqb_neq in Hne. now rewrite Hne.
    + now rewrite IH.
Qed.

Lemma lookup_none_notin d k : lookup d k = None <-> ~ In k (map fst d).
Proof.
  induction d as [|[k' v'] d IH]; simpl.
  - tauto.
  - destruct (String.eqb_spec k' k) as [-> | Hk].
    + split; [discriminate | intro H; exfalso; apply H; now left].
    + rewrite IH. tauto.
Qed.

Lemma lookup_del_same d k :
  NoDup (map fst d) -> lookup (del d k) k = None.
Proof.
  induction d as [|[k' v'] d IH]; simpl; intro Hnd.
  - reflexivity.
  - inversion Hnd as [|? ? Hnotin Hnd']; subst.
    destruct (String.eqb_spec k' k) as [-> | Hk]; simpl.
    + now apply lookup_none_notin.
    + apply String.eqb_neq in Hk. rewrite Hk. now apply IH.
Qed.

Lemma lookup_del_other d k k0 :
  k0 <> k -> lookup (del d k) k0 = lookup d k0.
Proof.
  intro Hne. induction d as [|[k' v'] d IH]; simpl.
  - reflexivity.
  - destruct (String.eqb_spec k' k) as [-> | Hk]; simpl.
    + apply not_eq_sym, String.eqb_neq in Hne. now rewrite Hne.
    + now rewrite IH.
Qed.

Lemma In_lookup d k v :
  NoDup (map fst d) -> In (k, v) d -> lookup d k = Some v.
Proof.
  induction d as [|[k' v'] d IH]; simpl; intros Hnd Hin; [contradiction|].
  inversion Hnd as [|? ? Hnotin Hnd']; subst.
  destruct Hin as [Heq | Hin].
  - injection Heq as -> ->. now rewrite String.eqb_refl.
  - destruct (String.eqb_spec k' k) as [-> | Hk].
    + exfalso. apply Hnotin. now apply (in_map fst) in Hin.
    + now apply IH.
Qed.

Lemma lookup_In d k v : lookup d k = Some v -> In (k, v) d.
Proof.
  induction d as [|[k' v'] d IH]; simpl; [discriminate|].
  destruct (String.eqb_spec k' k) as [-> | Hk].
  - intro H. injection H as ->. now left.
  - intro H. right. now apply IH.
Qed.

Lemma keys_del_incl d k k0 : In k0 (map fst (del d k)) -> In k0 (map fst d).
Proof.
  induction d as [|[k' v'] d IH]; simpl; [tauto|].
  destruct (String.eqb k' k); simpl; [tauto|]. intros [H | H]; auto.
Qed.

Lemma NoDup_del d k : NoDup (map fst d) -> NoDup (map fst (del d k)).
Proof.
  induction d as [|[k' v'] d IH]; simpl; intro Hnd; [constructor|].
  inversion Hnd as [|? ? Hnotin Hnd']; subst.
  destruct (String.eqb k' k); simpl; [assumption|].
  constructor; [| now apply IH].
  intro H. apply Hnotin. exact (keys_del_incl _ _ _ H).
Qed.

Lemma keys_set d k v k0 :
  In k0 (map fst (set d k v)) -> k0 = k \/ In k0 (map fst d).
Proof.
  induction d as [|[k' v'] d IH]; simpl.
  - intros [H | []]. now left.
  - destruct (String.eqb_spec k' k) as [-> | Hk]; simpl.
    + intros [H | H]; auto.
    + intros [H | H]; auto. destruct (IH H); auto.
Qed.

Lemma NoDup_set d k v : NoDup (map fst d) -> NoDup (map fst (set d k v)).
Proof.
  induction d as [|[k' v'] d IH]; simpl; intro Hnd.
  - constructor; [intros [] | constructor].
  - inversion Hnd as [|? ? Hnotin Hnd']; subst.
    destruct (String.eqb_spec k' k) as [-> | Hk]; simpl.
    + now constructor.
    + constructor; [| now apply IH].
      intro H. destruct (keys_set _ _ _ _ H) as [-> | H']; auto.
Qed.

End Dict.

(** The running minimum of [min] is an entry of the cache and no entry is
    older. *)
Lemma older_le (best e : Entry) :
  (stamp (older best e) <= stamp best)%Q /\ (stamp (older best e) <= stamp e)%Q.
Proof.
  unfold older. destruct (Qgtb (stamp best) (stamp e)) eqn:E.
  - apply Qgtb_lt in E. split; lra.
  - apply Qgtb_not_lt in E. split; lra.
Qed.

Lemma fold_older_in (c : Cache) (e : Entry) : In (fold_left older c e) (e :: c).
Proof.
  revert e. induction c as [|e2 c IH]; intro e; simpl.
  - now left.
  - destruct (IH (older e e2)) as [H | H].
    + rewrite <- H. unfold older. destruct (Qgtb _ _); auto.
    + auto.
Qed.

Lemma fold_older_le_seed (c : Cache) (e : Entry) :
  (stamp (fold_left older c e) <= stamp e)%Q.
Proof.
  revert e. induction c as [|e2 c IH]; intro e; simpl.
  - lra.
  - specialize (IH (older e e2)). destruct (older_le e e2). lra.
Qed.

Lemma fold_older_le (c : Cache) (e e' : Entry) :
  In e' (e :: c) -> (stamp (fold_left older c e) <= stamp e')%Q.
Proof.
  intros [<- | Hin]; [apply fold_older_le_seed|].
  revert e. induction c as [|e2 c IH]; intro e; [contradiction|].
  simpl. destruct Hin as [<- | Hin].
  - pose proof (fold_older_le_seed c (older e e2)).
    destruct (older_le e e2). lra.
  - now apply IH.
Qed.

(** A full cache with distinct stamps loses exactly its oldest entry. *)
Lemma cache_response_evicts_oldest (c : Cache) (key response : string) (now : Q) :
  NoDup (map fst c) -> distinct_stamps c ->
  MAX_CACHE_SIZE <= List.length c ->
  exists k_old t_old r_old,
    lookup c k_old = Some (t_old, r_old)
    /\ (forall k t r, lookup c k = Some (t, r) -> k <> k_old -> (t_old < t)%Q)
    /\ (forall k, k <> key ->
          lookup (_cache_response c key response now) k
          = if String.eqb k k_old then None else lookup c k)
    /\ lookup (_cache_response c key response now) key = Some (now, response).
Proof.
  intros Hnd Hdist Hfull. unfold _cache_response.
  apply Nat.leb_le in Hfull. rewrite Hfull.
  destruct c as [|first others]; [discriminate|].
  unfold oldest_key.
  pose proof (fold_older_in others first) as Hin.
  pose proof (fold_older_le others first) as Hle.
  destruct (fold_left older others first) as [k_old [t_old r_old]] eqn:Eold.
  cbn [fst]. exists k_old, t_old, r_old.
  assert (Hold : lookup (first :: others) k_old = Some (t_old, r_old))
    by now apply In_lookup.
  split; [exact Hold | split; [| split]].
  - intros k t r Hk Hne.
    assert (Hle' := Hle (k, (t, r)) (lookup_In _ _ _ Hk)).
    unfold stamp in Hle'. cbn [fst snd] in Hle'.
    assert (Hneq := Hdist _ _ _ _ _ _ Hk Hold Hne).
    destruct (Qlt_le_dec t_old t) as [Hlt | Hge]; [exact Hlt|].
    exfalso. apply Hneq. lra.
  - intros k Hne. rewrite lookup_set_other by exact Hne.
    destruct (String.eqb_spec k k_old) as [-> | Hk].
    + now apply lookup_del_same.
    + now apply lookup_del_other.
  - apply lookup_set_same.
Qed.

Lemma lookup_del_some {V : Type} (d : list (string * V)) (k k0 : string) (v : V) :
  NoDup (map fst d) -> lookup (del d k) k0 = Some v -> lookup d k0 = Some v.
Proof.
  intros Hnd H. destruct (String.eqb_spec k0 k) as [-> | Hne].
  - rewrite lookup_del_same in H by assumption. discriminate.
  - now rewrite lookup_del_other in H.
Qed.

Lemma cache_response_unfold (c : Cache) (key response : string) (now : Q) :
  _cache_response c key response now = set (evicted c) key (now, response).
Proof. reflexivity. Qed.

Lemma evicted_sub (c : Cache) :
  NoDup (map fst c) ->
  NoDup (map fst (evicted c))
  /\ forall k v, lookup (evicted c) k = Some v -> lookup c k = Some v.
Proof.
  intro Hnd. unfold evicted.
  destruct (MAX_CACHE_SIZE <=? List.length c); [| now split].
  destruct c as [|first others]; [now split|].
  split; [now apply NoDup_del |].
  intros k v. now apply lookup_del_some.
Qed.

Lemma cache_response_entries (c : Cache) (key response : string) (now : Q) :
  NoDup (map fst c) ->
  forall k t r,
    lookup (_cache_response c key response now) k = Some (t, r) ->
    (k = key /\ t = now /\ r = response) \/ lookup c k = Some (t, r).
Proof.
  intros Hnd k t r. rewrite cache_response_unfold.
  destruct (String.eqb_spec k key) as [-> | Hne].
  - rewrite lookup_set_same. intro H. injection H as <- <-. now left.
  - rewrite lookup_set_other by exact Hne. intro H. right.
    now apply (proj2 (evicted_sub c Hnd)).
Qed.

Lemma cache_response_distinct (c : Cache) (key response : string) (now : Q) :
  NoDup (map fst c) -> distinct_stamps c -> all_before c now ->
  NoDup (map fst (_cache_response c key response now))
  /\ distinct_stamps (_cache_response c key response now).
Proof.
  intros Hnd Hdist Hbefore. split.
  - rewrite cache_response_unfold. apply NoDup_set.
    now apply (proj1 (evicted_sub c Hnd)).
  - intros k1 k2 t1 t2 r1 r2 H1 H2 Hne Heq.
    apply (cache_response_entries _ _ _ _ Hnd) in H1, H2.
    destruct H1 as [(-> & -> & ->) | H1], H2 as [(-> & -> & ->) | H2].
    + now apply Hne.
    + apply Hbefore in H2. lra.
    + apply Hbefore in H1. lra.
    + exact (Hdist _ _ _ _ _ _ H1 H2 Hne Heq).
Qed.

Lemma increasing_cons (t : Q) (ts : list Q) :
  increasing (t :: ts) = true ->
  increasing ts = true /\ Forall (fun x => (t < x)%Q) ts.
Proof.
  revert t. induction ts as [|t' ts IH]; intros t H.
  - split; [reflexivity | constructor].
  - change (increasing (t :: t' :: ts))
      with (Qgtb t' t && increasing (t' :: ts)) in H.
    apply andb_true_iff in H as [Hlt Hinc].
    apply Qgtb_lt in Hlt. split; [exact Hinc|].
    constructor; [exact Hlt|].
    destruct (IH _ Hinc) as [_ Hall].
    eapply Forall_impl; [| exact Hall]. intros x Hx. cbv beta in Hx. lra.
Qed.

Lemma increasing_app_last (ts : list Q) (t : Q) :
  increasing (ts ++ [t])%list = true ->
  increasing ts = true /\ Forall (fun x => (x < t)%Q) ts.
Proof.
  induction ts as [|a ts IH]; intro H.
  - split; [reflexivity | constructor].
  - change ((a :: ts) ++ [t])%list with (a :: (ts ++ [t]))%list in H.
    destruct (increasing_cons _ _ H) as [Hinc Hall].
    destruct (IH Hinc) as [Hts Hlast].
    split.
    + destruct ts as [|b ts]; [reflexivity|].
      change (increasing (a :: b :: ts))
        with (Qgtb b a && increasing (b :: ts)).
      rewrite Hts, andb_true_r.
      apply Qgtb_lt. now inversion Hall.
    + constructor; [| exact Hlast].
      apply Forall_app in Hall as [_ Hall]. now inversion Hall.
Qed.

(** Invariant of a run of insertions with increasing time stamps: keys are
    unique, stamps are distinct, and every entry is an entry of the initial
    cache or was written by one of the calls. *)
Lemma run_insertions_invariant (calls : list Insertion) :
  forall c : Cache,
    NoDup (map fst c) -> distinct_stamps c ->
    increasing (map ins_time calls) = true ->
    Forall (fun call => all_before c (ins_time call)) calls ->
    NoDup (map fst (run_insertions c calls))
    /\ distinct_stamps (run_insertions c calls)
    /\ forall k t r,
         lookup (run_insertions c calls) k = Some (t, r) ->
         lookup c k = Some (t, r) \/ In (mkInsertion k r t) calls.
Proof.
  induction calls as [|call calls IH]; intros c Hnd Hdist Hinc Hbefore.
  - simpl. repeat split; auto.
  - inversion Hbefore as [|? ? Hcall Hrest]; subst.
    cbn [map] in Hinc. destruct (increasing_cons _ _ Hinc) as [Hinc' Hlater].
    destruct (cache_response_distinct c (ins_key call) (ins_response call)
                (ins_time call) Hnd Hdist Hcall) as [Hnd1 Hdist1].
    assert (Hbefore1 :
              Forall (fun call' =>
                        all_before
                          (_cache_response c (ins_key call) (ins_response call)
                                           (ins_time call))
                          (ins_time call')) calls).
    { rewrite Forall_forall in Hrest, Hlater |- *.
      intros call' Hin k t r Hk.
      apply (cache_response_entries _ _ _ _ Hnd) in Hk.
      destruct Hk as [(_ & -> & _) | Hk].
      - apply Hlater. now apply in_map.
      - exact (Hrest _ Hin _ _ _ Hk). }
    destruct (IH _ Hnd1 Hdist1 Hinc' Hbefore1) as (Hnd2 & Hdist2 & Hent).
    cbn [run_insertions fold_left] in *.
    split; [exact Hnd2 | split; [exact Hdist2 |]].
    intros k t r Hk. destruct (Hent _ _ _ Hk) as [Hk1 | Hin].
    + apply (cache_response_entries _ _ _ _ Hnd) in Hk1.
      destruct Hk1 as [(-> & -> & ->) | Hk1]; [| now left].
      right. left. now destruct call.
    + right. now right.
Qed.

(** C9: after any sequence of [_cache_response] calls with strictly
    increasing time stamps, a further call on a cache that holds at least
    [MAX_CACHE_SIZE] entries removes exactly one earlier entry, the one
    whose insertion is the earliest among the entries present (every other
    entry present was inserted strictly later and is kept unchanged), and
    stores the new entry; reads play no part in the choice. *)
Theorem eviction_removes_oldest_inserted
        (calls : list Insertion) (key response : string) (now : Q) :
  increasing (map ins_time calls ++ [now])%list = true ->
  let cache := run_insertions [] calls in
  MAX_CACHE_SIZE <= List.length cache ->
  exists k_old r_old t_old,
    In (mkInsertion k_old r_old t_old) calls
    /\ lookup cache k_old = Some (t_old, r_old)
    /\ (forall k t r,
          lookup cache k = Some (t, r) -> k <> k_old ->
          (t_old < t)%Q /\ In (mkInsertion k r t) calls)
    /\ (forall k, k <> key ->
          lookup (_cache_response cache key response now) k
          = if String.eqb k k_old then None else lookup cache k)
    /\ lookup (_cache_response cache key response now) key
       = Some (now, response).
Proof.
  intros Hinc cache Hfull.
  destruct (increasing_app_last _ _ Hinc) as [Hinc' _].
  assert (Hempty : Forall (fun call => all_before [] (ins_time call)) calls).
  { apply Forall_forall. intros call _ k t r Hk. discriminate Hk. }
  assert (Hdist0 : distinct_stamps []).
  { intros k1 k2 t1 t2 r1 r2 Hk. discriminate Hk. }
  destruct (run_insertions_invariant calls [] (NoDup_nil _) Hdist0 Hinc' Hempty)
    as (Hnd & Hdist & Hent).
  fold cache in Hnd, Hdist, Hent.
  destruct (cache_response_evicts_oldest cache key response now Hnd Hdist Hfull)
    as (k_old & t_old & r_old & Hold & Hmin & Hrest & Hnew).
  exists k_old, r_old, t_old.
  split; [| split; [exact Hold | split; [| split; assumption]]].
  - destruct (Hent _ _ _ Hold) as [H | H]; [discriminate H | exact H].
  - intros k t r Hk Hne. split; [exact (Hmin _ _ _ Hk Hne)|].
    destruct (Hent _ _ _ Hk) as [H | H]; [discriminate H | exact H].
Qed.

Lemma eviction_removes_oldest_inserted_witness :
  exists k_old r_old t_old,
    In (mkInsertion k_old r_old t_old) hundred_calls
    /\ lookup (run_insertions [] hundred_calls) k_old = Some (t_old, r_old)
    /\ (forall k t r,
          lookup (run_insertions [] hundred_calls) k = Some (t, r) ->
          k <> k_old ->
          (t_old < t)%Q /\ In (mkInsertion k r t) hundred_calls)
    /\ (forall k, k <> "new" ->
          lookup (_cache_response (run_insertions [] hundred_calls)
                                  "new" "fresh" 100%Q) k
          = if String.eqb k k_old then None
            else lookup (run_insertions [] hundred_calls) k)
    /\ lookup (_cache_response (run_insertions [] hundred_calls)
                               "new" "fresh" 100%Q) "new"
       = Some (100%Q, "fresh").
Proof.
  apply (eviction_removes_oldest_inserted hundred_calls "new" "fresh" 100%Q).
  - vm_compute. reflexivity.
  - apply Nat.leb_le. vm_compute. reflexivity.
Defined.

End CacheProps.

(* ================================================================== *)
(** * Properties of the refund handler *)
(* ================================================================== *)

Module RefundProps.
Import Py PyStr InputValidator ResponseSchema RefundAgent Reference.

Section Handler.
Variable verify_transaction : value -> value -> result (option dict).
Variable str_of : value -> string.
Variable _process_verified_refund : string -> dict -> dict -> result dict.

Let process := process verify_transaction str_of _process_verified_refund.
Let process_body :=
  process_body verify_transaction str_of _process_verified_refund.

(** When the current message carries an invoice identifier the context is
    not read: a missing customer identifier leads to the request for
    identifiers whatever the context holds. *)
Lemma invoice_without_customer_asks (user_input : string) (context : option dict)
      (inv : string) :
  extract_transaction_info user_input = mkInfo (Some inv) None ->
  inv <> "" ->
  process user_input context
  = _request_transaction_info (mkInfo (Some inv) None).
Proof.
  intros Hex Hne. unfold process, RefundAgent.process, RefundAgent.process_body.
  rewrite Hex. cbn [invoice_no customer_id of_option truthy].
  apply String.eqb_neq in Hne. rewrite Hne.
  cbn [negb andb bind truthy orb]. rewrite Hne. reflexivity.
Qed.

(** A failure of the transaction lookup is caught by [process]. *)
Lemma lookup_failure_is_caught (user_input : string) (context : option dict)
      (e : exn) :
  process_body user_input context = Raise e ->
  process user_input context = error_response
  /\ get (process user_input context) "resolved" = VBool false
  /\ get (process user_input context) "needs_followup" = VBool true.
Proof.
  intro H. unfold process, RefundAgent.process. fold process_body.
  rewrite H. repeat split.
Qed.

End Handler.

(** An identifier found by [extract_transaction_info] is not empty. *)
Lemma found_identifiers_are_truthy (user_input : string) :
  (forall inv, invoice_no (extract_transaction_info user_input) = Some inv ->
               String.eqb inv "" = false)
  /\ (forall cust,
        customer_id (extract_transaction_info user_input) = Some cust ->
        String.eqb cust "" = false).
Proof.
  unfold extract_transaction_info. cbn [invoice_no customer_id].
  split; intros m H;
    destruct (ExtractorProps.re_search_sound _ _ _ _ H)
      as (_ & d & _ & _ & -> & _);
    reflexivity.
Qed.

(** C8, as stated, fails: with the invoice number in the current message
    and a context that carries the complete pair of an earlier turn, both
    identifiers are available when message and context are taken together,
    yet [process] does not read the context: it makes no lookup and asks
    for the customer identifier. *)
Lemma message_invoice_hides_context_customer :
  extract_transaction_info "I want a refund for INV1001"
  = mkInfo (Some "INV1001") None
  /\ context_identifier carried_pair "customer_id" = VStr "CUST123"
  /\ (forall verify_transaction str_of _process_verified_refund,
        RefundAgent.process verify_transaction str_of _process_verified_refund
                            "I want a refund for INV1001" (Some carried_pair)
        = _request_transaction_info (mkInfo (Some "INV1001") None))
  /\ get (_request_transaction_info (mkInfo (Some "INV1001") None)) "metadata"
     = VDict [("missing_fields", VList [VStr "Customer ID (format: CUST###)"])]
  /\ ~ identifiers_are_combined.
Proof.
  split; [reflexivity | split; [reflexivity | split; [| split]]].
  - intros. reflexivity.
  - reflexivity.
  - intro H.
    apply (H (fun _ _ => Ok None) (fun _ => "") (fun _ _ _ => Ok [])
             "I want a refund for INV1001" carried_pair);
      [reflexivity | reflexivity |].
    split; [reflexivity |]. eexists. reflexivity.
Qed.

(** C8, amended: [process] takes both identifiers from one place.  When
    the current message has an invoice number the context is not read: a
    message without customer identifier gets the request for identifiers,
    a message with both goes to the lookup with its own pair.  When the
    message has no invoice number and the context carries nothing under
    [extracted_info], the request is returned.  When the message has no
    invoice number and the context carries a dictionary there, both
    identifiers are those of the dictionary (a customer identifier of the
    message is dropped): the lookup is made with them when both are
    present, and the request is returned otherwise.  A carried value that
    is not a dictionary ends in the apology of the handler. *)
Theorem identifiers_come_from_one_source
        (verify_transaction : value -> value -> result (option dict))
        (str_of : value -> string)
        (_process_verified_refund : string -> dict -> dict -> result dict)
        (user_input : string) (context : option dict) :
  let info := extract_transaction_info user_input in
  let held := match context with Some c => c | None => [] end in
  let answer :=
    RefundAgent.process verify_transaction str_of _process_verified_refund
                        user_input context in
  let lookup_with :=
    looked_up verify_transaction str_of _process_verified_refund
              user_input held in
  (forall inv, invoice_no info = Some inv ->
     (customer_id info = None -> answer = _request_transaction_info info)
     /\ (forall cust, customer_id info = Some cust ->
                      answer = lookup_with (VStr inv) (VStr cust)))
  /\ (invoice_no info = None ->
      truthy (get held "extracted_info") = false ->
      answer = _request_transaction_info info)
  /\ (invoice_no info = None ->
      forall entry carried,
        get held "extracted_info" = VDict (entry :: carried) ->
        let i := get (entry :: carried) "invoice_no" in
        let c := get (entry :: carried) "customer_id" in
        answer = if truthy i && truthy c then lookup_with i c
                 else _request_transaction_info info)
  /\ (invoice_no info = None ->
      truthy (get held "extracted_info") = true ->
      (forall carried, get held "extracted_info" <> VDict carried) ->
      answer = error_response).
Proof.
  cbv zeta.
  destruct (found_identifiers_are_truthy user_input) as [Hinv Hcust].
  unfold RefundAgent.process, RefundAgent.process_body, looked_up.
  split; [| split; [| split]].
  - intros inv Hi. specialize (Hinv inv Hi). rewrite Hi.
    cbn [of_option truthy negb andb bind]. rewrite Hinv.
    cbn [negb andb bind]. split.
    + intros Hc. rewrite Hc.
      repeat (progress (cbn [of_option truthy negb orb]; rewrite ?Hinv)).
      reflexivity.
    + intros cust Hc. specialize (Hcust cust Hc). rewrite Hc.
      repeat (progress (cbn [of_option truthy negb orb];
                        rewrite ?Hinv, ?Hcust)).
      reflexivity.
  - intros Hi Hno. rewrite Hi. cbn [of_option truthy negb andb].
    rewrite Hno. cbn [bind truthy negb orb]. reflexivity.
  - intros Hi entry carried Hctx. rewrite Hi.
    cbn [of_option truthy negb andb]. rewrite Hctx.
    cbn [truthy get_attr bind].
    destruct (truthy (get (entry :: carried) "invoice_no"));
      [| reflexivity].
    destruct (truthy (get (entry :: carried) "customer_id")); reflexivity.
  - intros Hi Htrue Hnot. rewrite Hi. cbn [of_option truthy negb andb].
    rewrite Htrue.
    destruct (get _ "extracted_info") as [| b | t | q | l | d];
      try reflexivity.
    exfalso. exact (Hnot d eq_refl).
Qed.

Lemma identifiers_come_from_one_source_witness :
  RefundAgent.process (fun _ _ => Ok None) (fun _ => "?") (fun _ _ _ => Ok [])
                      "refund please, I am CUST999" (Some carried_pair)
  = looked_up (fun _ _ => Ok None) (fun _ => "?") (fun _ _ _ => Ok [])
              "refund please, I am CUST999" carried_pair
              (VStr "INV1001") (VStr "CUST123")
  /\ RefundAgent.process (fun _ _ => Ok None) (fun _ => "?")
                         (fun _ _ _ => Ok [])
                         "I want a refund for INV1001" (Some carried_pair)
     = _request_transaction_info
         (extract_transaction_info "I want a refund for INV1001").
Proof.
  split.
  - apply (proj1 (proj2 (proj2 (identifiers_come_from_one_source
                                  (fun _ _ => Ok None) (fun _ => "?")
                                  (fun _ _ _ => Ok [])
                                  "refund please, I am CUST999"
                                  (Some carried_pair))))
                 eq_refl
                 ("invoice_no", VStr "INV1001")
                 [("customer_id", VStr "CUST123")] eq_refl).
  - apply (proj1 (proj1 (identifiers_come_from_one_source
                           (fun _ _ => Ok None) (fun _ => "?")
                           (fun _ _ _ => Ok [])
                           "I want a refund for INV1001"
                           (Some carried_pair))
                        "INV1001" eq_refl)
                 eq_refl).
Defined.

End RefundProps.

(* ================================================================== *)
(** * Properties of the handler boundaries *)
(* ================================================================== *)

Module BoundaryProps.
Import Py PyStr InputValidator ResponseSchema Reference.

(** A failure inside [TriageAgent.process] is caught. *)
Lemma triage_failure_is_caught (client : bool) (system_prompt : string)
      (process_with_cache : string -> string -> result string)
      (user_input : string) (context : option dict) (e : exn) :
  TriageAgent.process_body client system_prompt process_with_cache user_input
  = Raise e ->
  TriageAgent.process client system_prompt process_with_cache user_input context
  = TriageAgent.Plain TriageAgent.error_response.
Proof. intro H. unfold TriageAgent.process. now rewrite H. Qed.

(** A failure inside [route_and_process] is caught. *)
Lemma turn_failure_is_caught
      (triage_process : string -> option dict -> TriageAgent.Output)
      (refund_process : string -> option dict -> dict)
      (faq_process : string -> option dict -> result dict)
      (log_refund_request : string -> value -> result unit)
      (st st' : App.SessionState) (user_input : string) (e : exn) :
  App.route_body triage_process refund_process faq_process log_refund_request
                 st user_input = (Raise e, st') ->
  let message :=
    fst (App.route_and_process triage_process refund_process faq_process
                               log_refund_request st user_input) in
  message = App.error_message
  /\ get (App.metadata message) "resolved" = VBool false
  /\ get (App.metadata message) "needs_followup" = VBool true.
Proof.
  intro H. cbv zeta. unfold App.route_and_process. rewrite H.
  repeat split.
Qed.

(** C7, evaluated on the code: when the completion call of the triage agent
    raises on the input "hello there", [TriageAgent.process] catches the
    failure and returns its apology with [resolved = False], but the
    returned dictionary has no [needs_followup] entry; the turn then falls
    back to the triage answer and its outcome carries
    [needs_followup = False]. *)
Theorem triage_failure_lacks_followup
        (e : exn) (system_prompt : string) (context : option dict)
        (refund_process : string -> option dict -> dict)
        (faq_process : string -> option dict -> result dict)
        (log_refund_request : string -> value -> result unit)
        (st : App.SessionState) :
  let triage_process :=
    TriageAgent.process true system_prompt (failing_completion e) in
  let message :=
    fst (App.route_and_process triage_process refund_process faq_process
                               log_refund_request st "hello there") in
  TriageAgent.process_body true system_prompt (failing_completion e) "hello there"
  = Raise e
  /\ triage_process "hello there" context
     = TriageAgent.Plain TriageAgent.error_response
  /\ get TriageAgent.error_response "resolved" = VBool false
  /\ lookup TriageAgent.error_response "needs_followup" = None
  /\ App.content message
     = VStr "I'm sorry, I'm having trouble processing your request. Please try again."
  /\ get (App.metadata message) "resolved" = VBool false
  /\ get (App.metadata message) "needs_followup" = VBool false.
Proof. cbv zeta. repeat split. Qed.

End BoundaryProps.

(* ================================================================== *)
(** * Properties of the format validators *)
(* ================================================================== *)

Module ValidatorProps.
Import PyStr InputValidator Reference StrFacts ExtractorProps.
Local Open Scope nat_scope.

(** The strings the anchored pattern accepts. *)
Lemma re_match_anchored_iff (lit : string) (n : nat) (s : string) :
  re_match_anchored lit n s = true <->
  exists d, String.length d = n /\ all_digits d = true
            /\ (s = lit ++ d \/ s = lit ++ d ++ nl).
Proof.
  unfold re_match_anchored. split.
  - destruct (match_here lit n s) as [m|] eqn:Em; [|discriminate].
    destruct (match_here_sound _ _ _ _ Em) as (d & post & _ & Hm & Hl & Hd).
    intro H. exists d. repeat split; try assumption.
    apply orb_true_iff in H as [H | H]; apply String.eqb_eq in H; subst m.
    + now left.
    + right. now rewrite H, append_assoc.
  - intros (d & Hl & Hd & [-> | ->]).
    + rewrite <- (append_nil_r d) at 1. subst n.
      rewrite match_here_complete by assumption.
      now rewrite String.eqb_refl.
    + subst n. rewrite match_here_complete by assumption.
      rewrite <- append_assoc, String.eqb_refl. apply orb_true_r.
Qed.

Lemma validate_invoice_number_ok (s : string) :
  validate_invoice_number s = (true, "") <->
  re_match_anchored "INV" 4 s = true.
Proof.
  unfold validate_invoice_number.
  destruct (String.eqb_spec s "") as [-> | _]; [split; discriminate|].
  destruct (re_match_anchored "INV" 4 s); simpl; split;
    (reflexivity || discriminate).
Qed.

Lemma validate_customer_id_ok (s : string) :
  validate_customer_id s = (true, "") <->
  re_match_anchored "CUST" 3 s = true.
Proof.
  unfold validate_customer_id.
  destruct (String.eqb_spec s "") as [-> | _]; [split; discriminate|].
  destruct (re_match_anchored "CUST" 3 s); simpl; split;
    (reflexivity || discriminate).
Qed.

Lemma re_search_is_anchored_match (lit : string) (n : nat) (text m : string) :
  re_search lit n text = Some m -> re_match_anchored lit n m = true.
Proof.
  intro H. apply re_match_anchored_iff.
  destruct (re_search_sound _ _ _ _ H) as (_ & d & _ & _ & Hm & Hl & Hd & _).
  exists d. auto.
Qed.

(** X1: every identifier that [extract_transaction_info] returns passes the
    validator of its kind. *)
Theorem extracted_identifiers_are_valid (text : string) :
  (forall m, invoice_no (extract_transaction_info text) = Some m ->
             validate_invoice_number m = (true, ""))
  /\ (forall m, customer_id (extract_transaction_info text) = Some m ->
                validate_customer_id m = (true, "")).
Proof.
  unfold extract_transaction_info. cbn [invoice_no customer_id]. split.
  - intros m H. apply validate_invoice_number_ok.
    exact (re_search_is_anchored_match _ _ _ _ H).
  - intros m H. apply validate_customer_id_ok.
    exact (re_search_is_anchored_match _ _ _ _ H).
Qed.

Lemma extracted_identifiers_are_valid_witness :
  validate_invoice_number "INV1001" = (true, "")
  /\ validate_customer_id "CUST123" = (true, "").
Proof.
  destruct (extracted_identifiers_are_valid "refund inv10019 for cust1234")
    as [Hi Hc].
  split; [apply Hi | apply Hc]; reflexivity.
Defined.

(** X2: of the ASCII strings, [validate_invoice_number] accepts exactly
    [INV] followed by four digits, optionally followed by one final line
    feed, and [validate_customer_id] exactly [CUST] followed by three
    digits, optionally followed by one final line feed; the "required"
    message is returned exactly for the empty string. *)
Theorem validators_accept_exact_format (s : string) :
  ascii_text s = true ->
  (validate_invoice_number s = (true, "") <->
   exists d, String.length d = 4 /\ all_digits d = true
             /\ (s = "INV" ++ d \/ s = "INV" ++ d ++ nl))
  /\ (validate_customer_id s = (true, "") <->
      exists d, String.length d = 3 /\ all_digits d = true
                /\ (s = "CUST" ++ d \/ s = "CUST" ++ d ++ nl))
  /\ (validate_invoice_number s = (false, "Invoice number is required.")
      <-> s = "")
  /\ (validate_customer_id s = (false, "Customer ID is required.")
      <-> s = "").
Proof.
  intros _. split; [| split; [| split]].
  - rewrite validate_invoice_number_ok. apply re_match_anchored_iff.
  - rewrite validate_customer_id_ok. apply re_match_anchored_iff.
  - unfold validate_invoice_number.
    destruct (String.eqb_spec s "") as [-> | Hne]; [tauto|].
    destruct (re_match_anchored "INV" 4 s); simpl; split;
      intro H; try discriminate; contradiction.
  - unfold validate_customer_id.
    destruct (String.eqb_spec s "") as [-> | Hne]; [tauto|].
    destruct (re_match_anchored "CUST" 3 s); simpl; split;
      intro H; try discriminate; contradiction.
Qed.

Lemma validators_accept_exact_format_witness :
  validate_invoice_number ("INV1001" ++ nl) = (true, "")
  /\ (exists d, String.length d = 3 /\ all_digits d = true
                /\ ("CUST123" = "CUST" ++ d \/ "CUST123" = "CUST" ++ d ++ nl))
  /\ validate_invoice_number "" = (false, "Invoice number is required.").
Proof.
  split; [| split].
  - apply (proj1 (validators_accept_exact_format ("INV1001" ++ nl) eq_refl)).
    exists "1001". repeat split. now right.
  - apply (proj1 (proj2 (validators_accept_exact_format "CUST123" eq_refl))).
    reflexivity.
  - apply (proj1 (proj2 (proj2 (validators_accept_exact_format "" eq_refl)))).
    reflexivity.
Defined.

Lemma upper_lower_char (c : ascii) : upper_char (lower_char c) = upper_char c.
Proof. destruct c as [[] [] [] [] [] [] [] []]; reflexivity. Qed.

Lemma upper_upper_char (c : ascii) : upper_char (upper_char c) = upper_char c.
Proof. destruct c as [[] [] [] [] [] [] [] []]; reflexivity. Qed.

Lemma upper_lower (s : string) : upper (lower s) = upper s.
Proof.
  induction s as [|c s IH]; simpl; [reflexivity|].
  now rewrite upper_lower_char, IH.
Qed.

Lemma upper_upper (s : string) : upper (upper s) = upper s.
Proof.
  induction s as [|c s IH]; simpl; [reflexivity|].
  now rewrite upper_upper_char, IH.
Qed.

Lemma upper_digit_char (c : ascii) : isdigit c = true -> upper_char c = c.
Proof.
  destruct c as [[] [] [] [] [] [] [] []]; intro H;
    (reflexivity || discriminate H).
Qed.

Lemma upper_digits (d : string) : all_digits d = true -> upper d = d.
Proof.
  induction d as [|c d IH]; simpl; intro H; [reflexivity|].
  apply andb_true_iff in H as [Hc Hd].
  now rewrite (upper_digit_char _ Hc), (IH Hd).
Qed.

(** X3: on ASCII text, extraction does not depend on the case of the
    text, and what it returns is in upper case. *)
Theorem extraction_ignores_case (text : string) :
  ascii_text text = true ->
  extract_transaction_info (lower text) = extract_transaction_info text
  /\ extract_transaction_info (upper text) = extract_transaction_info text
  /\ (forall m, invoice_no (extract_transaction_info text) = Some m ->
                upper m = m)
  /\ (forall m, customer_id (extract_transaction_info text) = Some m ->
                upper m = m).
Proof.
  intros _.
  unfold extract_transaction_info. rewrite upper_lower, upper_upper.
  cbn [invoice_no customer_id].
  repeat split; intros m H;
    destruct (re_search_sound _ _ _ _ H) as (_ & d & _ & _ & -> & _ & Hd & _);
    simpl; now rewrite (upper_digits _ Hd).
Qed.

Lemma extraction_ignores_case_witness :
  upper "INV1001" = "INV1001".
Proof.
  apply (proj1 (proj2 (proj2 (extraction_ignores_case "Refund Inv1001"
                                                      eq_refl)))).
  reflexivity.
Defined.

End ValidatorProps.

(* ================================================================== *)
(** * Properties of the triage agent *)
(* ================================================================== *)

Module TriageProps.
Import Py PyStr InputValidator ResponseSchema TriageAgent Reference StrFacts.
Import SanitizerProps.
Local Open Scope nat_scope.

Lemma classify_is_valid (query : string) :
  In (classify_query_intent query) valid_categories.
Proof.
  unfold classify_query_intent, valid_categories.
  destruct (_ && _); [simpl; auto|].
  destruct (_ && _); [simpl; auto|].
  destruct (_ <? _); simpl; auto.
Qed.

Lemma validate_keeps_valid (ai_category rule_category user_input : string) :
  In rule_category valid_categories ->
  In (_validate_classification ai_category rule_category user_input)
     valid_categories.
Proof.
  intro Hrule. unfold _validate_classification.
  destruct (existsb (String.eqb ai_category) valid_categories) eqn:Eai;
    cbn [negb]; [| exact Hrule].
  assert (Hai : In ai_category valid_categories).
  { apply existsb_exists in Eai as (c & Hc & Heq).
    apply String.eqb_eq in Heq. now subst. }
  destruct (_ && _); [| exact Hai].
  destruct (any_in _ _); [simpl; auto | exact Hai].
Qed.

(** X4: whatever the AI proposes, the reconciled category of a text is one
    of the four valid categories. *)
Theorem reconciled_category_is_valid (ai_category text : string) :
  In (_validate_classification ai_category (classify_query_intent text) text)
     ["refund"; "faq"; "partnership"; "other"].
Proof. apply validate_keeps_valid, classify_is_valid. Qed.

Lemma build_response_shape (category user_input : string)
      (parsed_result : list (string * string)) (complete : bool) :
  let d := output_dict (_build_response category user_input parsed_result
                                        complete) in
  get d "resolved" = VBool false
  /\ (get d "category" = VStr "refund" \/ get d "category" = VStr "faq"
      \/ get d "category" = VStr "other").
Proof.
  unfold _build_response.
  destruct (String.eqb category "refund").
  - destruct complete; cbv zeta; split; auto.
  - destruct (String.eqb category "faq"); cbv zeta; split; auto.
Qed.

(** X5: every answer of [TriageAgent.process], for every input and every
    behaviour of the completion call (failures included), is unresolved and
    carries one of the categories [refund], [faq], [other]; [partnership]
    is never reported. *)
Theorem triage_answer_is_unresolved
        (client : bool) (system_prompt : string)
        (process_with_cache : string -> string -> result string)
        (user_input : string) (context : option dict) :
  let d := output_dict (process client system_prompt process_with_cache
                                user_input context) in
  get d "resolved" = VBool false
  /\ (get d "category" = VStr "refund" \/ get d "category" = VStr "faq"
      \/ get d "category" = VStr "other")
  /\ get d "category" <> VStr "partnership".
Proof.
  cbv zeta.
  assert (H : get (output_dict (process client system_prompt process_with_cache
                                        user_input context)) "resolved"
              = VBool false
              /\ (get (output_dict (process client system_prompt
                                            process_with_cache user_input
                                            context)) "category" = VStr "refund"
                  \/ get (output_dict (process client system_prompt
                                               process_with_cache user_input
                                               context)) "category" = VStr "faq"
                  \/ get (output_dict (process client system_prompt
                                               process_with_cache user_input
                                               context)) "category"
                     = VStr "other")).
  { unfold process, process_body.
    destruct (validate_query_input user_input) as [is_valid error_msg].
    destruct is_valid; cbn [negb]; [| split; auto].
    destruct client.
    - destruct (process_with_cache _ _) as [ai_response | e]; cbn [bind try_except].
      + apply build_response_shape.
      + split; auto.
    - cbn [bind try_except]. apply build_response_shape. }
  destruct H as [Hr Hc]. split; [exact Hr | split; [exact Hc |]].
  destruct Hc as [-> | [-> | ->]]; discriminate.
Qed.

(** X6: an ASCII input that is shorter than 3 characters once trimmed, or
    longer than 1000 characters, is answered with the validation message
    under category [other]; the completion call is not consulted. *)
Theorem invalid_input_is_not_classified
        (client : bool) (system_prompt : string)
        (process_with_cache : string -> string -> result string)
        (user_input : string) (context : option dict) :
  ascii_text user_input = true ->
  String.length (strip user_input) < 3 \/ 1000 < String.length user_input ->
  exists message,
    validate_query_input user_input = (false, message)
    /\ process client system_prompt process_with_cache user_input context
       = Plain [("category", VStr "other");
                ("response", VStr message);
                ("confidence", VStr "high");
                ("needs_routing", VBool false);
                ("resolved", VBool false)].
Proof.
  intros _ Hbad.
  assert (Hv : exists message, validate_query_input user_input = (false, message)).
  { unfold validate_query_input.
    destruct ((String.length user_input =? 0)
              || (String.length (strip user_input) <? 3)) eqn:E1;
      [eexists; reflexivity|].
    destruct (1000 <? String.length user_input) eqn:E2;
      [eexists; reflexivity|].
    exfalso. apply orb_false_iff in E1 as [_ E1].
    apply Nat.ltb_ge in E1, E2. lia. }
  destruct Hv as [message Hv]. exists message. split; [exact Hv|].
  unfold process, process_body. now rewrite Hv.
Qed.

Lemma invalid_input_is_not_classified_witness :
  exists message,
    validate_query_input "  hi  " = (false, message)
    /\ process true "prompt" (fun _ _ => Ok "Category: refund") "  hi  " None
       = Plain [("category", VStr "other");
                ("response", VStr message);
                ("confidence", VStr "high");
                ("needs_routing", VBool false);
                ("resolved", VBool false)].
Proof.
  apply invalid_input_is_not_classified; [reflexivity |].
  left. vm_compute. lia.
Defined.

Lemma split_on_from_line (cur w rest : string) :
  free_of is_line_feed w = true ->
  split_on_from (ascii_of_nat 10) cur (w ++ nl ++ rest)
  = (cur ++ w) :: split_on (ascii_of_nat 10) rest.
Proof.
  revert cur. induction w as [|c w IH]; intros cur Hw.
  - simpl. now rewrite append_nil_r.
  - cbn [free_of] in Hw. apply andb_true_iff in Hw as [Hc Hw].
    apply negb_true_iff in Hc. unfold is_line_feed in Hc.
    cbn [append split_on_from]. rewrite Hc, (IH _ Hw). now rewrite append_snoc.
Qed.

Lemma split_on_from_last (cur w : string) :
  free_of is_line_feed w = true ->
  split_on_from (ascii_of_nat 10) cur w = [cur ++ w].
Proof.
  revert cur. induction w as [|c w IH]; intros cur Hw.
  - simpl. now rewrite append_nil_r.
  - cbn [free_of] in Hw. apply andb_true_iff in Hw as [Hc Hw].
    apply negb_true_iff in Hc. unfold is_line_feed in Hc.
    cbn [split_on_from]. rewrite Hc, (IH _ Hw). now rewrite append_snoc.
Qed.

(** X7: a reply written in the format of the triage prompt is read back
    field by field: category and confidence trimmed and lower-cased,
    reasoning and next action trimmed. *)
Theorem parse_reads_formatted_reply
        (category confidence reasoning next_action : string) :
  free_of is_line_feed category = true ->
  free_of is_line_feed confidence = true ->
  free_of is_line_feed reasoning = true ->
  free_of is_line_feed next_action = true ->
  _parse_ai_response
    (formatted_reply category confidence reasoning next_action)
  = [("category", lower (strip category));
     ("confidence", lower (strip confidence));
     ("reasoning", strip reasoning);
     ("next_action", strip next_action)].
Proof.
  intros Hc Hf Hr Ha. unfold _parse_ai_response, formatted_reply, split_on.
  rewrite <- !append_assoc.
  rewrite !append_assoc.
  rewrite <- (append_assoc "Category: " category).
  rewrite split_on_from_line
    by (rewrite free_of_app, Hc; reflexivity).
  unfold split_on.
  rewrite <- (append_assoc "Confidence: " confidence).
  rewrite split_on_from_line
    by (rewrite free_of_app, Hf; reflexivity).
  unfold split_on.
  rewrite <- (append_assoc "Reasoning: " reasoning).
  rewrite split_on_from_line
    by (rewrite free_of_app, Hr; reflexivity).
  unfold split_on.
  rewrite split_on_from_last
    by (rewrite free_of_app, Ha; reflexivity).
  reflexivity.
Qed.

Lemma parse_reads_formatted_reply_witness :
  _parse_ai_response
    (formatted_reply "  Refund" "HIGH " "asks for money back" "route to refunds")
  = [("category", "refund");
     ("confidence", "high");
     ("reasoning", "asks for money back");
     ("next_action", "route to refunds")].
Proof.
  apply (parse_reads_formatted_reply
           "  Refund" "HIGH " "asks for money back" "route to refunds");
    reflexivity.
Defined.

End TriageProps.

(* ================================================================== *)
(** * Properties of triage and routing together *)
(* ================================================================== *)

Module TriageRoutingProps.
Import Py PyStr InputValidator BaseAgent App Reference RouterProps.
Local Open Scope nat_scope.

Lemma build_response_confidence (category user_input : string)
      (parsed_result : list (string * string)) (complete : bool) :
  exists q,
    confidence_of (output_dict (TriageAgent._build_response
                                  category user_input parsed_result complete))
    = VNum q.
Proof.
  unfold TriageAgent._build_response.
  destruct (String.eqb category "refund").
  - destruct complete; eexists; reflexivity.
  - destruct (String.eqb category "faq"); eexists; reflexivity.
Qed.

Lemma triage_confidence_is_numeric
      (client : bool) (system_prompt : string)
      (process_with_cache : string -> string -> result string)
      (user_input : string) (context : option dict) :
  exists q,
    confidence_of (output_dict (TriageAgent.process
                                  client system_prompt process_with_cache
                                  user_input context))
    = VNum q.
Proof.
  unfold TriageAgent.process, TriageAgent.process_body.
  destruct (validate_query_input user_input) as [is_valid error_msg].
  destruct is_valid; cbn [negb]; [| eexists; reflexivity].
  destruct client.
  - destruct (process_with_cache _ _) as [ai_response | e];
      cbn [bind try_except].
    + apply build_response_confidence.
    + eexists; reflexivity.
  - cbn [bind try_except]. apply build_response_confidence.
Qed.

(** X8: the router never fails on an answer of the triage agent, and the
    target it returns is [refund], [faq] or [triage]. *)
Theorem routing_of_triage_answer_is_defined
        (client : bool) (system_prompt : string)
        (process_with_cache : string -> string -> result string)
        (user_input : string) (context : option dict) (routing_context : dict) :
  exists decision,
    _determine_routing
      (output_dict (TriageAgent.process client system_prompt process_with_cache
                                        user_input context))
      user_input routing_context
    = Ok decision
    /\ (route_to decision = "refund" \/ route_to decision = "faq"
        \/ route_to decision = "triage").
Proof.
  destruct (triage_confidence_is_numeric client system_prompt process_with_cache
              user_input context) as [q Hq].
  rewrite (routing_cases _ _ _ _ Hq). eexists. split; [reflexivity|].
  destruct (_ && _); [now left|].
  destruct (_ && _); [now (right; left)|].
  destruct (_ && _); [now left|].
  destruct (_ && _); [now (right; left) | now (right; right)].
Qed.

Lemma rule_only_build_response (category text user_input : string)
      (complete : bool) (routing_context : dict) :
  _determine_routing
    (output_dict
       (TriageAgent._build_response
          category text
          [("reasoning", "Rule-based classification (API not available)");
           ("confidence", "medium")] complete))
    user_input routing_context
  = Ok (route_by_strength user_input (VNum 0.6%Q)).
Proof.
  unfold TriageAgent._build_response.
  destruct (String.eqb category "refund").
  - destruct complete;
      (erewrite routing_cases by reflexivity); reflexivity.
  - destruct (String.eqb category "faq");
      (erewrite routing_cases by reflexivity); reflexivity.
Qed.

(** X9: when no completion client is configured, the category found by
    the triage agent never selects the handler: the route is the one the
    indicator words of the router give, with the triage fallback at
    confidence 0.6 (0.8 for an input that fails validation). *)
Theorem rule_only_route_ignores_category
        (system_prompt : string)
        (process_with_cache : string -> string -> result string)
        (user_input : string) (context : option dict) (routing_context : dict) :
  exists q,
    (q = 0.6%Q \/ q = 0.8%Q)
    /\ _determine_routing
         (output_dict (TriageAgent.process false system_prompt
                                           process_with_cache user_input context))
         user_input routing_context
       = Ok (route_by_strength user_input (VNum q)).
Proof.
  unfold TriageAgent.process, TriageAgent.process_body.
  destruct (validate_query_input user_input) as [is_valid error_msg].
  destruct is_valid; cbn [negb bind try_except].
  - exists 0.6%Q. split; [now left|]. apply rule_only_build_response.
  - exists 0.8%Q. split; [now right|].
    (erewrite routing_cases by reflexivity); reflexivity.
Qed.

End TriageRoutingProps.

(* ================================================================== *)
(** * Properties of cached completion calls *)
(* ================================================================== *)

Module CachingProps.
Import Py BaseAgent Reference CacheProps.
Local Open Scope nat_scope.

Lemma length_set {V : Type} (d : list (string * V)) (k : string) (v : V) :
  List.length (set d k v) <= S (List.length d).
Proof.
  induction d as [|[k' v'] d IH]; simpl; [lia|].
  destruct (String.eqb k' k); simpl; lia.
Qed.

Lemma length_del {V : Type} (d : list (string * V)) (k : string) :
  In k (map fst d) -> S (List.length (del d k)) = List.length d.
Proof.
  induction d as [|[k' v'] d IH]; simpl; [contradiction|].
  destruct (String.eqb_spec k' k) as [-> | Hne]; [reflexivity|].
  intros [H | H]; [contradiction|]. simpl. now rewrite IH.
Qed.

Lemma length_del_le {V : Type} (d : list (string * V)) (k : string) :
  List.length (del d k) <= List.length d.
Proof.
  induction d as [|[k' v'] d IH]; simpl; [lia|].
  destruct (String.eqb k' k); simpl; lia.
Qed.

Lemma cache_response_bounded (c : Cache) (key response : string) (now : Q) :
  List.length c <= MAX_CACHE_SIZE ->
  List.length (_cache_response c key response now) <= MAX_CACHE_SIZE.
Proof.
  intro Hc. unfold _cache_response.
  destruct (Nat.leb_spec MAX_CACHE_SIZE (List.length c)) as [Hfull | Hroom].
  - destruct c as [|first others];
      [unfold MAX_CACHE_SIZE in Hfull; simpl in Hfull; lia|].
    pose proof (length_set (del (first :: others) (oldest_key first others))
                           key (now, response)) as Hset.
    assert (Hin : In (oldest_key first others) (map fst (first :: others))).
    { unfold oldest_key. apply in_map, fold_older_in. }
    pose proof (length_del _ _ Hin) as Hdel. cbv beta iota zeta.
    apply (Nat.le_trans _ _ _ Hset). rewrite Hdel. exact Hc.
  - pose proof (length_set c key (now, response)) as Hset.
    cbv beta iota zeta. apply (Nat.le_trans _ _ _ Hset). exact Hroom.
Qed.

(** X10: the cache never holds more than [MAX_CACHE_SIZE] entries, whatever
    keys, responses and time stamps are stored in whatever order. *)
Theorem cache_size_is_bounded (calls : list Insertion) :
  List.length (run_insertions [] calls) <= MAX_CACHE_SIZE.
Proof.
  assert (H : forall c, List.length c <= MAX_CACHE_SIZE ->
                        List.length (run_insertions c calls) <= MAX_CACHE_SIZE).
  { induction calls as [|call calls IH]; intros c Hc; [exact Hc|].
    cbn [run_insertions fold_left]. apply IH.
    now apply cache_response_bounded. }
  apply H. unfold MAX_CACHE_SIZE. simpl. lia.
Qed.

Section Caching.
Variable within_ttl : Q -> Q -> bool.
Variable md5_hexdigest : string -> result string.

(** X11: an entry stored by [_cache_response] is returned by
    [_get_cached_response] as long as the freshness test passes, and the
    cache is left as it is; once the test fails the lookup returns nothing,
    removes that entry and leaves every other entry in place. *)
Theorem stored_response_is_found_until_expiry
        (c : Cache) (key response : string) (stored now : Q) :
  NoDup (map fst c) ->
  let cache := _cache_response c key response stored in
  (within_ttl now stored = true ->
   _get_cached_response within_ttl cache key now = (Some response, cache))
  /\ (within_ttl now stored = false ->
      fst (_get_cached_response within_ttl cache key now) = None
      /\ lookup (snd (_get_cached_response within_ttl cache key now)) key = None
      /\ forall other, other <> key ->
           lookup (snd (_get_cached_response within_ttl cache key now)) other
           = lookup cache other).
Proof.
  intros Hnd cache.
  assert (Hnd' : NoDup (map fst cache)).
  { unfold cache. rewrite cache_response_unfold. apply NoDup_set.
    now apply (proj1 (evicted_sub c Hnd)). }
  assert (Hk : lookup cache key = Some (stored, response)).
  { unfold cache. rewrite cache_response_unfold. apply lookup_set_same. }
  unfold _get_cached_response. rewrite Hk. split; intros ->.
  - reflexivity.
  - cbn [fst snd]. split; [reflexivity | split].
    + now apply lookup_del_same.
    + intros other Hne. now apply lookup_del_other.
Qed.

Lemma fresh_entry_is_served
      (client : option (string -> string -> result string))
      (cache : Cache) (user_input system_prompt key response : string)
      (stored now_lookup now_store : Q) :
  _generate_cache_key md5_hexdigest (system_prompt ++ "_" ++ user_input)
  = Ok key ->
  lookup cache key = Some (stored, response) ->
  within_ttl now_lookup stored = true ->
  response <> "" ->
  process_with_cache within_ttl md5_hexdigest client cache user_input
                     system_prompt now_lookup now_store
  = (Ok response, cache).
Proof.
  intros Hkey Hin Hfresh Hne. unfold process_with_cache, _get_cached_response.
  rewrite Hkey, Hin, Hfresh. destruct response; [contradiction | reflexivity].
Qed.

(** X12: a request whose fingerprint has a fresh, non-empty entry in the
    cache is answered with that entry, whatever the completion client is:
    the client is not called and the cache is unchanged. *)
Theorem cache_hit_skips_completion
        (client other_client : option (string -> string -> result string))
        (cache : Cache) (user_input system_prompt key response : string)
        (stored now_lookup now_store : Q) :
  _generate_cache_key md5_hexdigest (system_prompt ++ "_" ++ user_input)
  = Ok key ->
  lookup cache key = Some (stored, response) ->
  within_ttl now_lookup stored = true ->
  response <> "" ->
  process_with_cache within_ttl md5_hexdigest client cache user_input
                     system_prompt now_lookup now_store
  = (Ok response, cache)
  /\ process_with_cache within_ttl md5_hexdigest other_client cache user_input
                        system_prompt now_lookup now_store
     = process_with_cache within_ttl md5_hexdigest client cache user_input
                          system_prompt now_lookup now_store.
Proof.
  intros Hkey Hin Hfresh Hne.
  rewrite !(fresh_entry_is_served _ _ _ _ _ _ _ _ _ Hkey Hin Hfresh Hne).
  split; reflexivity.
Qed.

(** X13: a request with nothing cached goes to the completion call and its
    answer is stored; while that entry is fresh, the same request is
    answered from the cache by any agent state, without a second call.
    This holds for the apology that [_call_openai_api] returns when the
    call has failed as for any other non-empty answer. *)
Theorem repeated_request_is_served_from_cache
        (client other_client : option (string -> string -> result string))
        (cache : Cache) (user_input system_prompt key : string)
        (t1 t2 t3 t4 : Q) :
  _generate_cache_key md5_hexdigest (system_prompt ++ "_" ++ user_input)
  = Ok key ->
  lookup cache key = None ->
  let answer := _call_openai_api client system_prompt user_input in
  let first := process_with_cache within_ttl md5_hexdigest client cache
                                  user_input system_prompt t1 t2 in
  first = (Ok answer, _cache_response cache key answer t2)
  /\ (answer <> "" -> within_ttl t3 t2 = true ->
      process_with_cache within_ttl md5_hexdigest other_client (snd first)
                         user_input system_prompt t3 t4
      = first).
Proof.
  intros Hkey Hmiss answer first.
  assert (Hfirst : first = (Ok answer, _cache_response cache key answer t2)).
  { unfold first, process_with_cache, _get_cached_response.
    now rewrite Hkey, Hmiss. }
  split; [exact Hfirst|]. intros Hne Hfresh. rewrite Hfirst. cbn [snd].
  apply fresh_entry_is_served with (key := key) (stored := t2);
    try assumption.
  rewrite cache_response_unfold. apply lookup_set_same.
Qed.

(** X14: an empty answer in the cache is never served: the request goes
    to the completion call again and the new answer replaces the entry. *)
Theorem empty_cached_answer_is_not_served
        (client : option (string -> string -> result string))
        (cache : Cache) (user_input system_prompt key : string)
        (stored now_lookup now_store : Q) :
  _generate_cache_key md5_hexdigest (system_prompt ++ "_" ++ user_input)
  = Ok key ->
  lookup cache key = Some (stored, "") ->
  within_ttl now_lookup stored = true ->
  let answer := _call_openai_api client system_prompt user_input in
  process_with_cache within_ttl md5_hexdigest client cache user_input
                     system_prompt now_lookup now_store
  = (Ok answer, _cache_response cache key answer now_store).
Proof.
  intros Hkey Hin Hfresh answer.
  unfold process_with_cache, _get_cached_response.
  now rewrite Hkey, Hin, Hfresh.
Qed.

End Caching.

Lemma stored_response_is_found_until_expiry_witness :
  _get_cached_response
    (fun now t => Qle_bool now (t + 300)%Q)
    (_cache_response [] "k" "answer" 10%Q) "k" 20%Q
  = (Some "answer", _cache_response [] "k" "answer" 10%Q).
Proof.
  apply (proj1 (stored_response_is_found_until_expiry
                  (fun now t => Qle_bool now (t + 300)%Q)
                  [] "k" "answer" 10%Q 20%Q (NoDup_nil _))).
  reflexivity.
Defined.

Lemma cache_hit_skips_completion_witness :
  process_with_cache
    (fun now t => Qle_bool now (t + 300)%Q) (fun text => Ok text)
    (Some (fun _ _ => Ok "fresh answer"))
    [("sys_hello_{}", (10%Q, "cached answer"))] "hello" "sys" 20%Q 21%Q
  = (Ok "cached answer", [("sys_hello_{}", (10%Q, "cached answer"))]).
Proof.
  apply (proj1 (cache_hit_skips_completion
                  (fun now t => Qle_bool now (t + 300)%Q) (fun text => Ok text)
                  (Some (fun _ _ => Ok "fresh answer")) None
                  [("sys_hello_{}", (10%Q, "cached answer"))]
                  "hello" "sys" "sys_hello_{}" "cached answer" 10%Q 20%Q 21%Q
                  eq_refl eq_refl eq_refl
                  ltac:(discriminate))).
Defined.

Lemma repeated_request_is_served_from_cache_witness :
  process_with_cache
    (fun now t => Qle_bool now (t + 300)%Q) (fun text => Ok text)
    (Some (fun _ _ => Ok "the real answer"))
    [("sys_hello_{}",
      (11%Q,
       "I apologize, but I'm experiencing technical difficulties. Please try again later."))]
    "hello" "sys" 20%Q 21%Q
  = (Ok "I apologize, but I'm experiencing technical difficulties. Please try again later.",
     [("sys_hello_{}",
       (11%Q,
        "I apologize, but I'm experiencing technical difficulties. Please try again later."))]).
Proof.
  apply (proj2 (repeated_request_is_served_from_cache
                  (fun now t => Qle_bool now (t + 300)%Q) (fun text => Ok text)
                  (Some (fun _ _ => Raise (Exception "timeout")))
                  (Some (fun _ _ => Ok "the real answer"))
                  [] "hello" "sys" "sys_hello_{}" 10%Q 11%Q 20%Q 21%Q
                  eq_refl eq_refl)).
  - discriminate.
  - reflexivity.
Defined.

Lemma empty_cached_answer_is_not_served_witness :
  process_with_cache
    (fun now t => Qle_bool now (t + 300)%Q) (fun text => Ok text)
    (Some (fun _ _ => Ok "  a new answer "))
    [("sys_hello_{}", (10%Q, ""))] "hello" "sys" 20%Q 21%Q
  = (Ok "a new answer", [("sys_hello_{}", (21%Q, "a new answer"))]).
Proof.
  apply (empty_cached_answer_is_not_served
           (fun now t => Qle_bool now (t + 300)%Q) (fun text => Ok text)
           (Some (fun _ _ => Ok "  a new answer "))
           [("sys_hello_{}", (10%Q, ""))] "hello" "sys" "sys_hello_{}"
           10%Q 20%Q 21%Q); reflexivity.
Defined.

End CachingProps.

(* ================================================================== *)
(** * Properties of the refund flow *)
(* ================================================================== *)

Module RefundFlowProps.
Import Py PyStr InputValidator ResponseSchema RefundAgent Reference StrFacts.
Local Open Scope nat_scope.

Lemma length_take (n : nat) (s : string) :
  String.length (take n s) = Nat.min n (String.length s).
Proof.
  revert s. induction n as [|n IH]; intro s; [reflexivity|].
  destruct s as [|c s]; [reflexivity|]. simpl. now rewrite IH.
Qed.

Lemma take_all (n : nat) (s : string) : String.length s <= n -> take n s = s.
Proof.
  revert s. induction n as [|n IH]; intros s H.
  - destruct s; [reflexivity | simpl in H; lia].
  - destruct s as [|c s]; [reflexivity|]. simpl in *. rewrite IH; [reflexivity | lia].
Qed.

Lemma some_inj {A : Type} (a b : A) : Some a = Some b -> a = b.
Proof. intro H. now injection H. Qed.

Lemma reason_after_length (indicators : list string) (input_lower reason : string) :
  reason_after indicators input_lower = Some reason ->
  10 < String.length reason <= 500.
Proof.
  induction indicators as [|indicator rest IH]; cbn [reason_after];
    [discriminate|].
  destruct (str_in indicator input_lower); [| exact IH].
  destruct (after_first indicator input_lower) as [tail|]; [| exact IH].
  destruct (Nat.ltb_spec 10 (String.length (strip tail))) as [Hlong | _];
    [| exact IH].
  intro H. apply some_inj in H. subst reason. rewrite length_take. lia.
Qed.

(** X15: in an ASCII message, a reason that [_extract_refund_reason] finds
    has more than 10 and at most 500 characters, so
    [validate_refund_reason] never answers "too long" for it; and nothing
    is found only when the trimmed message has at most 20 characters. *)
Theorem extracted_reason_length (user_input : string) :
  ascii_text user_input = true ->
  (forall reason,
      _extract_refund_reason user_input = Some reason ->
      10 < String.length reason <= 500
      /\ validate_refund_reason reason
         <> (false, "Reason is too long (maximum 500 characters)."))
  /\ (_extract_refund_reason user_input = None ->
      String.length (strip user_input) <= 20).
Proof.
  intros _. unfold _extract_refund_reason. split.
  - intros reason H.
    assert (Hlen : 10 < String.length reason <= 500).
    { destruct (reason_after reason_indicators (lower user_input)) as [r|] eqn:Er.
      - apply some_inj in H. subst r. exact (reason_after_length _ _ _ Er).
      - destruct (Nat.ltb_spec 20 (String.length (strip user_input)));
          [| discriminate].
        apply some_inj in H. subst reason. rewrite length_take. lia. }
    split; [exact Hlen|]. unfold validate_refund_reason.
    destruct (_ || _); [discriminate|].
    destruct (Nat.ltb_spec 500 (String.length reason)); [lia | discriminate].
  - destruct (reason_after reason_indicators (lower user_input)); [discriminate|].
    destruct (Nat.ltb_spec 20 (String.length (strip user_input)));
      [discriminate | intros _; lia].
Qed.

Lemma extracted_reason_length_witness :
  10 < String.length "it arrived broken" <= 500
  /\ String.length (strip "  too short ") <= 20.
Proof.
  split.
  - apply (proj1 (extracted_reason_length "because it arrived broken"
                                          eq_refl)).
    reflexivity.
  - apply (proj2 (extracted_reason_length "  too short " eq_refl)).
    reflexivity.
Defined.

Section Verified.
Variable client : bool.
Variable system_prompt : string.
Variable process_with_cache : string -> string -> result string.
Variable str_of : value -> string.
Variable standard_response : dict -> string -> result string.
Variable verify_transaction : value -> value -> result (option dict).

Let continuation :=
  _process_verified_refund client system_prompt process_with_cache str_of
                           standard_response.
Let request :=
  process_request client system_prompt process_with_cache str_of
                  standard_response verify_transaction.

Ltac step_bind :=
  match goal with
  | H : bind ?m _ = Ok _ |- _ =>
      let E := fresh "E" in
      destruct m eqn:E; cbn [bind] in H; [| discriminate H]
  end.

Lemma getitem_lookup (d : dict) (k : string) (v : value) :
  getitem d k = Ok v -> lookup d k = Some v.
Proof. unfold getitem. destruct (lookup d k); intro H; now inversion H. Qed.

Lemma continuation_shape (user_input : string) (transaction context d : dict) :
  continuation user_input transaction context = Ok d ->
  exists r, d = to_dict r /\ category r = "refund"
            /\ (resolved r = true -> completed transaction r).
Proof.
  unfold continuation, _process_verified_refund, _request_refund_reason.
  destruct (_ && _).
  - intro H. repeat step_bind. injection H as <-.
    eexists. split; [reflexivity | split; [reflexivity | discriminate]].
  - intro H. step_bind.
    destruct (validate_refund_reason a) as [is_valid reason_error] eqn:Ev.
    destruct is_valid; cbn [negb] in H.
    + step_bind.
      repeat step_bind. injection H as <-.
      eexists. split; [reflexivity | split; [reflexivity |]].
      assert (Hmsg : reason_error = "").
      { unfold validate_refund_reason in Ev.
        destruct (_ || _); [discriminate|].
        destruct (_ <? _)%nat; [discriminate|]. now injection Ev. }
      subst reason_error.
      intros _. exists a. eexists.
      split; [exact Ev|]. do 3 (split; [reflexivity|]).
      match goal with
      | H1 : getitem transaction "CustomerID" = Ok _,
        H2 : getitem transaction "InvoiceNo" = Ok _ |- _ =>
          apply getitem_lookup in H1, H2; rewrite H1, H2
      end.
      split; reflexivity.
    + injection H as <-.
      eexists. split; [reflexivity | split; [reflexivity | discriminate]].
Qed.

(** The four ways a refund request ends. *)
Lemma request_cases (user_input : string) (context : option dict) :
  request user_input context = error_response
  \/ request user_input context
     = _request_transaction_info (extract_transaction_info user_input)
  \/ (exists invoice_no customer_id,
         request user_input context
         = _handle_transaction_not_found str_of invoice_no customer_id)
  \/ (exists invoice_no customer_id transaction d,
         verify_transaction invoice_no customer_id = Ok (Some transaction)
         /\ continuation user_input transaction
                         (match context with Some c => c | None => [] end)
            = Ok d
         /\ request user_input context = d).
Proof.
  unfold request, process_request, process, process_body.
  fold continuation.
  match goal with
  | |- context [bind ?m _] => destruct m as [[invoice_no customer_id] | e]
  end; cbn [bind try_except]; [| now left].
  destruct (_ || _); cbn [try_except]; [right; now left|].
  destruct (verify_transaction invoice_no customer_id) as [[transaction|] | e]
    eqn:Ev; cbn [bind try_except]; [| | now left].
  - destruct transaction as [|entry transaction].
    + right; right; left. now exists invoice_no, customer_id.
    + destruct (continuation user_input (entry :: transaction) _) as [d | e]
        eqn:Ec; cbn [try_except]; [| now left].
      right; right; right.
      exists invoice_no, customer_id, (entry :: transaction), d. auto.
  - right; right; left. now exists invoice_no, customer_id.
Qed.

(** X16: the refund handler reports [resolved = True] only for a
    transaction that the lookup has returned and a reason that
    [validate_refund_reason] accepts; the answer then has confidence 0.9
    and its metadata hold the refund record with that reason and the
    invoice number and customer identifier of the transaction. *)
Theorem resolved_refund_is_verified (user_input : string) (context : option dict) :
  get (request user_input context) "resolved" = VBool true ->
  exists invoice_no customer_id transaction r,
    verify_transaction invoice_no customer_id = Ok (Some transaction)
    /\ request user_input context = to_dict r
    /\ completed transaction r.
Proof.
  intro Hres.
  destruct (request_cases user_input context)
    as [H | [H | [(i & c & H) | (i & c & t & d & Hv & Hc & H)]]];
    rewrite H in Hres; try discriminate Hres.
  destruct (continuation_shape _ _ _ _ Hc) as (r & -> & _ & Hdone).
  exists i, c, t, r. split; [exact Hv | split; [exact H |]].
  apply Hdone. cbn in Hres. now injection Hres.
Qed.

Lemma request_is_agent_response (user_input : string) (context : option dict) :
  exists r, request user_input context = to_dict r /\ category r = "refund".
Proof.
  destruct (request_cases user_input context)
    as [H | [H | [(i & c & H) | (i & c & t & d & Hv & Hc & H)]]].
  - rewrite H. eexists. split; reflexivity.
  - rewrite H. eexists. split; reflexivity.
  - rewrite H. eexists. split; reflexivity.
  - destruct (continuation_shape _ _ _ _ Hc) as (r & -> & Hcat & _).
    rewrite H. now exists r.
Qed.

(** X17: every answer of the refund handler is the dictionary of an
    [AgentResponse] of category [refund]; it has no top-level entry
    [refund_data], [requires_verification], [required_fields] or
    [context]. *)
Theorem refund_answer_is_agent_response (user_input : string)
        (context : option dict) :
  exists r,
    request user_input context = to_dict r
    /\ category r = "refund"
    /\ lookup (request user_input context) "refund_data" = None
    /\ lookup (request user_input context) "requires_verification" = None
    /\ lookup (request user_input context) "required_fields" = None
    /\ lookup (request user_input context) "context" = None.
Proof.
  destruct (request_is_agent_response user_input context) as (r & Hr & Hcat).
  exists r. rewrite Hr. repeat split; assumption.
Qed.

End Verified.

Lemma resolved_refund_is_verified_witness :
  exists invoice_no customer_id transaction r,
    (fun _ _ : value => Ok (Some sample_transaction)) invoice_no customer_id
    = Ok (Some transaction)
    /\ process_request false "prompt" (fun _ _ => Ok "") (fun _ => "")
                       (fun _ _ => Ok "Your refund is on its way.")
                       (fun _ _ => Ok (Some sample_transaction))
                       "refund INV1001 CUST123 because it arrived broken" None
       = to_dict r
    /\ completed transaction r.
Proof.
  apply (resolved_refund_is_verified
           false "prompt" (fun _ _ => Ok "") (fun _ => "")
           (fun _ _ => Ok "Your refund is on its way.")
           (fun _ _ => Ok (Some sample_transaction))
           "refund INV1001 CUST123 because it arrived broken" None).
  reflexivity.
Defined.

End RefundFlowProps.

(* ================================================================== *)
(** * Properties of the FAQ handler *)
(* ================================================================== *)

Module FAQProps.
Import Py PyStr ResponseSchema FAQAgent Reference.
Local Open Scope nat_scope.

Section Handler.
Variable client : bool.
Variable system_prompt : string.
Variable process_with_cache : string -> string -> result string.
Variable search_faq : string -> nat -> result (list FAQ).

Let process := process client system_prompt process_with_cache search_faq.

Lemma direct_response_shape (user_input : string) (faq_results : list FAQ)
      (d : dict) :
  _generate_direct_response user_input faq_results = Ok d ->
  exists r, d = to_dict r /\ category r = "faq"
            /\ resolved r = true /\ needs_followup r = false
            /\ confidence r = 0.9%Q.
Proof.
  unfold _generate_direct_response.
  destruct faq_results as [|best related]; [discriminate|].
  intro H. injection H as <-. eexists. repeat split.
Qed.

Lemma ai_response_shape (user_input : string) (faq_results : list FAQ)
      (d : dict) :
  _generate_ai_response system_prompt process_with_cache user_input faq_results
  = Ok d ->
  exists r, d = to_dict r /\ category r = "faq"
            /\ needs_followup r = negb (resolved r).
Proof.
  unfold _generate_ai_response.
  destruct (process_with_cache _ _) as [ai_response | e]; cbn [bind].
  - intro H. injection H as <-. eexists. repeat split.
  - intro H. destruct (direct_response_shape _ _ _ H)
      as (r & -> & Hc & Hr & Hf & _).
    exists r. rewrite Hr, Hf. auto.
Qed.

Lemma process_is_agent_response (user_input : string) (context : option dict) :
  exists r, process user_input context = to_dict r
            /\ category r = "faq"
            /\ needs_followup r = negb (resolved r).
Proof.
  unfold process, FAQAgent.process, process_body.
  destruct (search_faq user_input 3) as [faq_results | e];
    cbn [bind try_except]; [| eexists; repeat split].
  destruct faq_results as [|best related];
    [cbn [try_except]; eexists; repeat split |].
  destruct (client && _).
  - destruct (_generate_ai_response _ _ _ _) as [d | e] eqn:E;
      cbn [try_except]; [| eexists; repeat split].
    exact (ai_response_shape _ _ _ E).
  - destruct (_generate_direct_response _ _) as [d | e] eqn:E;
      cbn [try_except]; [| eexists; repeat split].
    destruct (direct_response_shape _ _ _ E) as (r & -> & Hc & Hr & Hf & _).
    exists r. rewrite Hr, Hf. auto.
Qed.

(** X18: every answer of the FAQ handler, whatever the search and the
    completion call return or raise, is the dictionary of an
    [AgentResponse] of category [faq] in which [needs_followup] is the
    negation of [resolved]; it has no top-level [context] entry. *)
Theorem faq_followup_mirrors_resolution (user_input : string)
        (context : option dict) :
  exists r,
    process user_input context = to_dict r
    /\ category r = "faq"
    /\ needs_followup r = negb (resolved r)
    /\ lookup (process user_input context) "context" = None.
Proof.
  destruct (process_is_agent_response user_input context) as (r & Hr & Hc & Hf).
  exists r. rewrite Hr. auto.
Qed.

(** X19: when the search finds records and no completion is available
    (no client, or the completion call raises), the answer is assembled
    from the records: it starts with the question and answer of the best
    match, is marked resolved and has confidence 0.9.  When the search
    finds nothing the fixed decline is returned, and when the search
    raises the apology; both are unresolved. *)
Theorem faq_answer_without_completion (user_input : string)
        (context : option dict) :
  (forall best related,
      search_faq user_input 3 = Ok (best :: related) ->
      client = false
      \/ (forall text prompt, exists e, process_with_cache text prompt = Raise e) ->
      exists r rest,
        process user_input context = to_dict r
        /\ resolved r = true /\ confidence r = 0.9%Q
        /\ response r
           = "**" ++ question best ++ "**" ++ nl ++ nl ++ answer best ++ rest)
  /\ (search_faq user_input 3 = Ok [] ->
      process user_input context = _handle_no_faq_found user_input
      /\ get (process user_input context) "resolved" = VBool false)
  /\ (forall e, search_faq user_input 3 = Raise e ->
      process user_input context = error_response
      /\ get (process user_input context) "resolved" = VBool false).
Proof.
  unfold process, FAQAgent.process, process_body. split; [| split].
  - intros best related Hs Hno. rewrite Hs. cbn [bind].
    assert (Hdirect :
              exists r rest,
                _generate_direct_response user_input (best :: related)
                = Ok (to_dict r)
                /\ resolved r = true /\ confidence r = 0.9%Q
                /\ response r
                   = "**" ++ question best ++ "**" ++ nl ++ nl
                     ++ answer best ++ rest).
    { unfold _generate_direct_response.
      destruct (1 <? List.length (best :: related)).
      - eexists. eexists. split; [reflexivity|].
        cbn [resolved confidence response]. repeat split.
        rewrite !StrFacts.append_assoc. reflexivity.
      - eexists. eexists. split; [reflexivity|].
        cbn [resolved confidence response]. repeat split.
        rewrite !StrFacts.append_assoc. reflexivity. }
    destruct Hdirect as (r & rest & Hd & Hr & Hc & Hresp).
    exists r, rest.
    destruct Hno as [-> | Hraise].
    + cbn [andb]. rewrite Hd. auto.
    + destruct (client && _); [| rewrite Hd; auto].
      unfold _generate_ai_response.
      match goal with
      | |- context [process_with_cache ?a ?b] =>
          destruct (Hraise a b) as [e ->]
      end.
      cbn [bind]. rewrite Hd. auto.
  - intro Hs. rewrite Hs. split; reflexivity.
  - intros e Hs. rewrite Hs. split; reflexivity.
Qed.

End Handler.

Lemma faq_answer_without_completion_witness :
  exists r rest,
    process true "prompt" (fun _ _ => Raise (Exception "timeout"))
            (fun _ _ => Ok [mkFAQ 1 "returns" "What is the return policy?"
                                  "30 days." ["return"]])
            "return policy?" None
    = to_dict r
    /\ resolved r = true /\ confidence r = 0.9%Q
    /\ response r
       = "**" ++ "What is the return policy?" ++ "**" ++ nl ++ nl
         ++ "30 days." ++ rest.
Proof.
  apply (proj1 (faq_answer_without_completion
                  true "prompt" (fun _ _ => Raise (Exception "timeout"))
                  (fun _ _ => Ok [mkFAQ 1 "returns" "What is the return policy?"
                                        "30 days." ["return"]])
                  "return policy?" None)
               (mkFAQ 1 "returns" "What is the return policy?" "30 days."
                      ["return"]) [] eq_refl).
  right. intros text prompt. now exists (Exception "timeout").
Defined.

End FAQProps.

(* ================================================================== *)
(** * Properties of a whole turn *)
(* ================================================================== *)

Module TurnProps.
Import Py PyStr InputValidator ResponseSchema App Reference.
Import RouterProps TriageRoutingProps.
Local Open Scope nat_scope.

Lemma build_response_no_context (category user_input : string)
      (parsed_result : list (string * string)) (complete : bool) :
  lookup (output_dict (TriageAgent._build_response category user_input
                                                   parsed_result complete))
         "context" = None.
Proof.
  unfold TriageAgent._build_response.
  destruct (String.eqb category "refund").
  - destruct complete; reflexivity.
  - destruct (String.eqb category "faq"); reflexivity.
Qed.

Lemma triage_answer_no_context
      (client : bool) (system_prompt : string)
      (process_with_cache : string -> string -> result string)
      (user_input : string) (context : option dict) :
  lookup (output_dict (TriageAgent.process client system_prompt
                                           process_with_cache user_input context))
         "context" = None.
Proof.
  unfold TriageAgent.process, TriageAgent.process_body.
  destruct (validate_query_input user_input) as [is_valid error_msg].
  destruct is_valid; cbn [negb]; [| reflexivity].
  destruct client.
  - destruct (process_with_cache _ _) as [ai_response | e];
      cbn [bind try_except]; [apply build_response_no_context | reflexivity].
  - cbn [bind try_except]. apply build_response_no_context.
Qed.

Lemma get_missing (d : dict) (k : string) : lookup d k = None -> get d k = VNone.
Proof. unfold get, get_default. now intros ->. Qed.

Lemma get_default_missing (d : dict) (k : string) (v : value) :
  lookup d k = None -> get_default d k v = v.
Proof. unfold get_default. now intros ->. Qed.

(** A turn in which no answer has a [context], [refund_data] or
    [requires_verification] entry. *)
Lemma plain_turn
      (triage_process : string -> option dict -> TriageAgent.Output)
      (refund_process : string -> option dict -> dict)
      (faq_process : string -> option dict -> result dict)
      (st : SessionState) (user_input : string) (q : Q) (answer : dict) :
  let context : dict := [("session_id", VStr (session_id st));
                         ("customer_info", customer_info st);
                         ("previous_context", current_context st)] in
  let triage_result := output_dict (triage_process user_input (Some context)) in
  confidence_of triage_result = VNum q ->
  lookup triage_result "context" = None ->
  lookup (refund_process user_input (Some context)) "context" = None ->
  lookup (refund_process user_input (Some context)) "refund_data" = None ->
  lookup (refund_process user_input (Some context)) "requires_verification"
  = None ->
  faq_process user_input (Some context) = Ok answer ->
  lookup answer "context" = None ->
  exists message,
    (forall log_refund_request,
        route_and_process triage_process refund_process faq_process
                          log_refund_request st user_input
        = (message,
           mkSession (session_id st) (customer_info st) (VDict [])
                     (awaiting_info st) (required_fields st)))
    /\ role message = "assistant".
Proof.
  intros context triage_result Hq Hctx Hrc Hrd Hrv Hf Hfc.
  unfold route_and_process, route_body. cbv zeta. fold context.
  subst triage_result. unfold output_dict in Hq, Hctx.
  rewrite (routing_cases _ user_input context q Hq).
  destruct (_ && _);
    [| destruct (_ && _);
       [| destruct (_ && _); [| destruct (_ && _)]]];
    cbn [route_to String.eqb Ascii.eqb Bool.eqb];
    rewrite ?(get_missing _ _ Hrv), ?(get_missing _ _ Hrd), ?Hf;
    cbn [truthy bind try_except];
    rewrite ?(get_default_missing _ _ _ Hrc), ?(get_default_missing _ _ _ Hfc),
      ?(get_default_missing _ _ _ Hctx);
    eexists; (split; [intro log |]); reflexivity.
Qed.

Section Agents.
(** The collaborators of the three agents. *)
Variable triage_client : bool.
Variable triage_prompt : string.
Variable triage_completion : string -> string -> result string.
Variable refund_client : bool.
Variable refund_prompt : string.
Variable refund_completion : string -> string -> result string.
Variable str_of : value -> string.
Variable standard_response : dict -> string -> result string.
Variable verify_transaction : value -> value -> result (option dict).
Variable faq_client : bool.
Variable faq_prompt : string.
Variable faq_completion : string -> string -> result string.
Variable search_faq : string -> nat -> result (list FAQAgent.FAQ).

(** X20: with the three agents of the repository, [route_and_process]
    returns an assistant message and leaves the session state as it was
    except that [current_context] becomes the empty dictionary, since no
    answer carries a [context] entry; [awaiting_info] and
    [required_fields] are never set; and [log_refund_request] is never
    called, the outcome being the same for every behaviour of it. *)
Theorem turn_hands_nothing_over (st : SessionState) (user_input : string) :
  exists message,
    (forall log_refund_request : string -> value -> result unit,
        route_and_process
          (TriageAgent.process triage_client triage_prompt triage_completion)
          (RefundAgent.process_request
             refund_client refund_prompt refund_completion str_of
             standard_response verify_transaction)
          (fun text context =>
             Ok (FAQAgent.process faq_client faq_prompt faq_completion
                                  search_faq text context))
          log_refund_request st user_input
        = (message,
           mkSession (session_id st) (customer_info st) (VDict [])
                     (awaiting_info st) (required_fields st)))
    /\ role message = "assistant".
Proof.
  set (context := [("session_id", VStr (session_id st));
                   ("customer_info", customer_info st);
                   ("previous_context", current_context st)] : dict).
  destruct (triage_confidence_is_numeric
              triage_client triage_prompt triage_completion user_input
              (Some context)) as [q Hq].
  destruct (RefundFlowProps.request_is_agent_response
              refund_client refund_prompt refund_completion str_of
              standard_response verify_transaction user_input (Some context))
    as (r & Hr & _).
  destruct (FAQProps.process_is_agent_response
              faq_client faq_prompt faq_completion search_faq user_input
              (Some context)) as (f & Hf & _).
  eapply plain_turn with (q := q).
  - exact Hq.
  - apply triage_answer_no_context.
  - fold context. now rewrite Hr.
  - fold context. now rewrite Hr.
  - fold context. now rewrite Hr.
  - reflexivity.
  - fold context. now rewrite Hf.
Qed.

End Agents.

End TurnProps.

(* ================================================================== *)
(** * Properties of the identifiers on their way to the lookup *)
(* ================================================================== *)

Module IdentifierProps.
Import Py PyStr InputValidator ResponseSchema Reference.
Import ExtractorProps ValidatorProps.
Local Open Scope nat_scope.

Lemma re_search_nonempty (lit : string) (n : nat) (text m : string) :
  lit <> "" -> re_search lit n text = Some m -> String.eqb m "" = false.
Proof.
  intros Hlit H.
  destruct (re_search_sound _ _ _ _ H) as (_ & d & _ & _ & -> & _).
  destruct lit; [contradiction | reflexivity].
Qed.

Lemma extracted_nonempty (text inv cust : string) :
  extract_transaction_info text = mkInfo (Some inv) (Some cust) ->
  String.eqb inv "" = false /\ String.eqb cust "" = false.
Proof.
  unfold extract_transaction_info. intro H. injection H as Hi Hc. split.
  - apply (re_search_nonempty "INV" 4 (upper text)); [discriminate | exact Hi].
  - apply (re_search_nonempty "CUST" 3 (upper text)); [discriminate | exact Hc].
Qed.

Section Refund.
Variable verify_transaction : value -> value -> result (option dict).
Variable str_of : value -> string.
Variable _process_verified_refund : string -> dict -> dict -> result dict.

Let process :=
  RefundAgent.process verify_transaction str_of _process_verified_refund.

(** X21: when the message carries both identifiers, the lookup is made with
    exactly these two, whatever the context holds: a lookup without result
    gives the not-found answer for them, a failing lookup the apology of
    the handler, and a found transaction goes to the reason step. *)
Theorem message_identifiers_decide_lookup
        (user_input : string) (context : option dict) (inv cust : string) :
  extract_transaction_info user_input = mkInfo (Some inv) (Some cust) ->
  (verify_transaction (VStr inv) (VStr cust) = Ok None ->
   process user_input context
   = RefundAgent._handle_transaction_not_found str_of (VStr inv) (VStr cust))
  /\ (forall e, verify_transaction (VStr inv) (VStr cust) = Raise e ->
                process user_input context = RefundAgent.error_response)
  /\ (forall entry transaction,
         verify_transaction (VStr inv) (VStr cust)
         = Ok (Some (entry :: transaction)) ->
         process user_input context
         = try_except
             (_process_verified_refund
                user_input (entry :: transaction)
                (match context with Some c => c | None => [] end))
             (fun _ => RefundAgent.error_response)).
Proof.
  intro Hex. destruct (extracted_nonempty _ _ _ Hex) as [Hi Hc].
  unfold process, RefundAgent.process, RefundAgent.process_body.
  rewrite Hex.
  repeat (progress (cbn [invoice_no customer_id of_option truthy
                         negb andb orb bind];
                    rewrite ?Hi, ?Hc)).
  split; [| split].
  - intros ->. reflexivity.
  - intros e ->. reflexivity.
  - intros entry transaction ->. reflexivity.
Qed.

(** X22: when the message carries no invoice number and the context holds
    an [extracted_info] dictionary with two non-empty identifiers, the
    lookup is made with the pair of the context; a customer identifier in
    the message plays no part. *)
Theorem context_identifiers_resume_lookup
        (user_input : string) (context info : dict) (inv cust : string) :
  invoice_no (extract_transaction_info user_input) = None ->
  lookup context "extracted_info" = Some (VDict info) ->
  lookup info "invoice_no" = Some (VStr inv) ->
  lookup info "customer_id" = Some (VStr cust) ->
  inv <> "" -> cust <> "" ->
  (verify_transaction (VStr inv) (VStr cust) = Ok None ->
   process user_input (Some context)
   = RefundAgent._handle_transaction_not_found str_of (VStr inv) (VStr cust))
  /\ (forall entry transaction,
         verify_transaction (VStr inv) (VStr cust)
         = Ok (Some (entry :: transaction)) ->
         process user_input (Some context)
         = try_except
             (_process_verified_refund user_input (entry :: transaction) context)
             (fun _ => RefundAgent.error_response)).
Proof.
  intros Hno Hctx Hinv Hcust Hi Hc.
  apply String.eqb_neq in Hi, Hc.
  assert (Hinfo : info <> []) by (intros ->; discriminate Hinv).
  unfold process, RefundAgent.process, RefundAgent.process_body.
  rewrite Hno. cbn [of_option truthy negb andb].
  unfold get at 1. unfold get_default. rewrite Hctx.
  cbn [truthy]. destruct info as [|entry info]; [contradiction|].
  unfold get, get_default. rewrite Hctx.
  cbn [RefundAgent.get_attr bind].
  unfold get, get_default. rewrite Hinv, Hcust.
  repeat (progress (cbn [bind truthy negb orb]; rewrite ?Hi, ?Hc)).
  split.
  - intros ->. reflexivity.
  - intros e t ->. reflexivity.
Qed.

End Refund.

Lemma message_identifiers_decide_lookup_witness :
  RefundAgent.process (fun _ _ => Ok None) (fun _ => "?") (fun _ _ _ => Ok [])
                      "refund inv1001 cust123" (Some carried_customer)
  = RefundAgent._handle_transaction_not_found
      (fun _ => "?") (VStr "INV1001") (VStr "CUST123").
Proof.
  apply (proj1 (message_identifiers_decide_lookup
                  (fun _ _ => Ok None) (fun _ => "?") (fun _ _ _ => Ok [])
                  "refund inv1001 cust123" (Some carried_customer)
                  "INV1001" "CUST123" eq_refl)).
  reflexivity.
Defined.

Lemma context_identifiers_resume_lookup_witness :
  RefundAgent.process (fun _ _ => Ok None) (fun _ => "?") (fun _ _ _ => Ok [])
                      "because it arrived broken, I am CUST999"
                      (Some [("extracted_info",
                              VDict [("invoice_no", VStr "INV1001");
                                     ("customer_id", VStr "CUST123")])])
  = RefundAgent._handle_transaction_not_found
      (fun _ => "?") (VStr "INV1001") (VStr "CUST123").
Proof.
  apply (proj1 (context_identifiers_resume_lookup
                  (fun _ _ => Ok None) (fun _ => "?") (fun _ _ _ => Ok [])
                  "because it arrived broken, I am CUST999"
                  [("extracted_info",
                    VDict [("invoice_no", VStr "INV1001");
                           ("customer_id", VStr "CUST123")])]
                  [("invoice_no", VStr "INV1001");
                   ("customer_id", VStr "CUST123")]
                  "INV1001" "CUST123"
                  eq_refl eq_refl eq_refl eq_refl
                  ltac:(discriminate) ltac:(discriminate))).
  reflexivity.
Defined.

Lemma build_response_structured (final_category user_input : string)
      (parsed_result : list (string * string)) (complete : bool)
      (r : AgentResponse) :
  TriageAgent._build_response final_category user_input parsed_result complete
  = TriageAgent.Structured r ->
  complete = true
  /\ category r = "refund" /\ resolved r = false /\ needs_followup r = true
  /\ metadata r
     = Some [("extracted_info",
              VDict (TriageAgent.info_dict (extract_transaction_info user_input)))].
Proof.
  unfold TriageAgent._build_response.
  destruct (String.eqb final_category "refund").
  - destruct complete; [| discriminate].
    intro H. injection H as <-. repeat split.
  - destruct (String.eqb final_category "faq"); discriminate.
Qed.

(** X23: whenever the triage agent answers with an [AgentResponse] rather
    than a plain dictionary, the answer is an unresolved refund answer
    that asks for follow-up, and its metadata carry an invoice number and
    a customer identifier, both accepted by the format validators. *)
Theorem structured_answer_carries_identifiers
        (client : bool) (system_prompt : string)
        (process_with_cache : string -> string -> result string)
        (user_input : string) (context : option dict) (r : AgentResponse) :
  TriageAgent.process client system_prompt process_with_cache user_input context
  = TriageAgent.Structured r ->
  category r = "refund" /\ resolved r = false /\ needs_followup r = true
  /\ exists inv cust,
       metadata r
       = Some [("extracted_info",
                VDict [("invoice_no", VStr inv); ("customer_id", VStr cust)])]
       /\ validate_invoice_number inv = (true, "")
       /\ validate_customer_id cust = (true, "").
Proof.
  unfold TriageAgent.process, TriageAgent.process_body.
  destruct (validate_query_input user_input) as [is_valid error_msg].
  destruct is_valid; cbn [negb try_except]; [| discriminate].
  assert (Hgen : forall final_category parsed,
             TriageAgent._build_response
               final_category (sanitize_input user_input) parsed
               (is_complete_refund_request (sanitize_input user_input))
             = TriageAgent.Structured r ->
             category r = "refund" /\ resolved r = false
             /\ needs_followup r = true
             /\ exists inv cust,
                  metadata r
                  = Some [("extracted_info",
                           VDict [("invoice_no", VStr inv);
                                  ("customer_id", VStr cust)])]
                  /\ validate_invoice_number inv = (true, "")
                  /\ validate_customer_id cust = (true, "")).
  { intros cat parsed H.
    destruct (build_response_structured _ _ _ _ _ H)
      as (Hcomplete & Hc & Hr & Hf & Hm).
    split; [exact Hc | split; [exact Hr | split; [exact Hf |]]].
    unfold is_complete_refund_request in Hcomplete.
    unfold TriageAgent.info_dict in Hm.
    unfold extract_transaction_info in Hcomplete, Hm.
    cbn [invoice_no customer_id] in Hcomplete, Hm.
    destruct (re_search "INV" 4 (upper (sanitize_input user_input)))
      as [inv|] eqn:Ei; [| discriminate Hcomplete].
    destruct (re_search "CUST" 3 (upper (sanitize_input user_input)))
      as [cust|] eqn:Ec;
      [| rewrite andb_false_r in Hcomplete; discriminate Hcomplete].
    exists inv, cust. split; [exact Hm | split].
    - apply validate_invoice_number_ok.
      exact (re_search_is_anchored_match _ _ _ _ Ei).
    - apply validate_customer_id_ok.
      exact (re_search_is_anchored_match _ _ _ _ Ec). }
  destruct client.
  - destruct (process_with_cache _ _) as [ai_response | e];
      cbn [bind try_except]; [apply Hgen | discriminate].
  - cbn [bind try_except]. apply Hgen.
Qed.

Lemma structured_answer_carries_identifiers_witness :
  exists inv cust,
    Some [("extracted_info",
           VDict [("invoice_no", VStr "INV1001");
                  ("customer_id", VStr "CUST123")])]
    = Some [("extracted_info",
             VDict [("invoice_no", VStr inv); ("customer_id", VStr cust)])]
    /\ validate_invoice_number inv = (true, "")
    /\ validate_customer_id cust = (true, "").
Proof.
  apply (structured_answer_carries_identifiers
           false "prompt" (fun _ _ => Ok "")
           "refund for INV1001 CUST123 please" None
           {| response := "I can help you with your refund request...";
              resolved := false;
              category := "refund";
              confidence := 0.6%Q;
              needs_followup := true;
              needs_more_info := false;
              metadata :=
                Some [("extracted_info",
                       VDict [("invoice_no", VStr "INV1001");
                              ("customer_id", VStr "CUST123")])] |}
           eq_refl).
Defined.

End IdentifierProps.

(* ================================================================== *)
(** * Properties of the confidence conversions *)
(* ================================================================== *)

Module ConfidenceProps.
Import Py PyStr BaseAgent App Reference.

Lemma lower_lower_char (c : ascii) : lower_char (lower_char c) = lower_char c.
Proof. destruct c as [[] [] [] [] [] [] [] []]; reflexivity. Qed.

Lemma lower_upper_char (c : ascii) : lower_char (upper_char c) = lower_char c.
Proof. destruct c as [[] [] [] [] [] [] [] []]; reflexivity. Qed.

Lemma lower_lower (s : string) : lower (lower s) = lower s.
Proof.
  induction s as [|c s IH]; simpl; [reflexivity|].
  now rewrite lower_lower_char, IH.
Qed.

Lemma lower_upper (s : string) : lower (upper s) = lower s.
Proof.
  induction s as [|c s IH]; simpl; [reflexivity|].
  now rewrite lower_upper_char, IH.
Qed.

Lemma confidence_map_values (label : string) :
  In (get_default confidence_map label 0.5%Q) [0.8%Q; 0.6%Q; 0.4%Q; 0.5%Q].
Proof.
  unfold get_default, confidence_map. cbn [lookup].
  destruct (String.eqb "high" label); [simpl; auto|].
  destruct (String.eqb "medium" label); [simpl; auto|].
  destruct (String.eqb "low" label); simpl; auto.
Qed.

(** X24: [_normalize_confidence] maps every ASCII label to 0.8, 0.6, 0.4
    or 0.5 and does not depend on the case of the label; the conversion of
    the router agrees with it on every lower-case label, which is what
    [_parse_ai_response] stores. *)
Theorem confidence_conversions_agree (label : string) :
  ascii_text label = true ->
  In (_normalize_confidence (VStr label)) [0.8%Q; 0.6%Q; 0.4%Q; 0.5%Q]
  /\ _normalize_confidence (VStr (upper label))
     = _normalize_confidence (VStr label)
  /\ numeric_confidence (VStr (lower label))
     = VNum (_normalize_confidence (VStr label)).
Proof.
  intros _. unfold _normalize_confidence, numeric_confidence.
  rewrite lower_upper. repeat split. apply confidence_map_values.
Qed.

Lemma confidence_conversions_agree_witness :
  _normalize_confidence (VStr (upper "High")) = _normalize_confidence (VStr "High")
  /\ numeric_confidence (VStr (lower "High"))
     = VNum (_normalize_confidence (VStr "High")).
Proof.
  exact (proj2 (confidence_conversions_agree "High" eq_refl)).
Defined.

End ConfidenceProps.

(* ================================================================== *)
(** * Properties of the FAQ search *)
(* ================================================================== *)

Module SearchProps.
Import Py PyStr ResponseSchema FAQAgent DatabaseManager Reference.
Local Open Scope nat_scope.

Lemma insert_perm (item : nat * FAQ) (l : list (nat * FAQ)) :
  Permutation (insert_by_score item l) (item :: l).
Proof.
  induction l as [|next rest IH]; simpl; [apply Permutation_refl|].
  destruct (fst item <? fst next); [| apply Permutation_refl].
  eapply Permutation_trans; [apply perm_skip, IH | apply perm_swap].
Qed.

Lemma sort_perm (l : list (nat * FAQ)) : Permutation (sort_by_score l) l.
Proof.
  induction l as [|item l IH]; simpl; [apply Permutation_refl|].
  eapply Permutation_trans; [apply insert_perm | now apply perm_skip].
Qed.

Lemma insert_sorted (item : nat * FAQ) (l : list (nat * FAQ)) :
  StronglySorted descending l ->
  StronglySorted descending (insert_by_score item l).
Proof.
  induction 1 as [|next rest Hrest IH Hall]; simpl.
  - constructor; constructor.
  - destruct (Nat.ltb_spec (fst item) (fst next)) as [Hlt | Hge].
    + constructor; [exact IH|].
      apply Forall_forall. intros x Hx.
      apply (Permutation_in _ (insert_perm item rest)) in Hx.
      destruct Hx as [<- | Hx]; [unfold descending; lia|].
      rewrite Forall_forall in Hall. now apply Hall.
    + constructor; [now constructor|].
      constructor; [exact Hge|].
      eapply Forall_impl; [| exact Hall].
      intros x Hx. unfold descending in *. lia.
Qed.

Lemma sort_sorted (l : list (nat * FAQ)) :
  StronglySorted descending (sort_by_score l).
Proof.
  induction l as [|item l IH]; simpl; [constructor | now apply insert_sorted].
Qed.

Lemma firstn_sorted {A : Type} (R : A -> A -> Prop) (k : nat) (l : list A) :
  StronglySorted R l -> StronglySorted R (firstn k l).
Proof.
  revert k. induction l as [|a l IH]; intros k H.
  - rewrite firstn_nil. constructor.
  - destruct k; [constructor|]. simpl. inversion H as [|? ? Hl Hall]; subst.
    constructor; [now apply IH|].
    rewrite Forall_forall in *. intros x Hx. apply Hall.
    rewrite <- (firstn_skipn k l). apply in_or_app. now left.
Qed.

Lemma sorted_split {A : Type} (R : A -> A -> Prop) (k : nat) (l : list A) :
  StronglySorted R l ->
  forall x y, In x (firstn k l) -> In y (skipn k l) -> R x y.
Proof.
  revert k. induction l as [|a l IH]; intros k H x y Hx Hy.
  - rewrite firstn_nil in Hx. contradiction.
  - destruct k; [contradiction|]. simpl in Hx, Hy.
    inversion H as [|? ? Hl Hall]; subst.
    destruct Hx as [<- | Hx].
    + rewrite Forall_forall in Hall. apply Hall.
      rewrite <- (firstn_skipn k l). apply in_or_app. now right.
    + now apply (IH k).
Qed.

Section Search.
Variable ratio : string -> string -> Q.
Variable records : list FAQ.
Variable query : string.
Variable top_k : nat.

Let score := record_score ratio query.
Let candidates :=
  filter (fun item : nat * FAQ => 0 <? fst item)
         (map (fun record => (score record, record)) records).
Let found := search_faq ratio records query top_k.

Lemma candidate_iff (item : nat * FAQ) :
  In item candidates <->
  In (snd item) records /\ fst item = score (snd item) /\ 0 < fst item.
Proof.
  unfold candidates. rewrite filter_In, in_map_iff, Nat.ltb_lt. split.
  - intros [(record & <- & Hin) Hpos]. auto.
  - intros (Hin & Hs & Hpos). split; [| exact Hpos].
    exists (snd item). split; [| exact Hin]. destruct item; simpl in *.
    now subst.
Qed.

Lemma ranked_iff (item : nat * FAQ) :
  In item (sort_by_score candidates) <-> In item candidates.
Proof.
  split; apply Permutation_in;
    [apply sort_perm | apply Permutation_sym, sort_perm].
Qed.

(** X25: [search_faq] returns at most [top_k] records, each of them a
    record of the data with a positive score. *)
Theorem search_returns_scored_records :
  List.length found <= top_k
  /\ forall record, In record found ->
                    In record records /\ 0 < score record.
Proof.
  unfold found, search_faq. fold score. fold candidates. split.
  - rewrite length_map, length_firstn. lia.
  - intros record Hin. apply in_map_iff in Hin as (item & <- & Hin).
    assert (Hc : In item candidates).
    { apply ranked_iff. rewrite <- (firstn_skipn top_k (sort_by_score candidates)).
      apply in_or_app. now left. }
    apply candidate_iff in Hc as (Hr & Hs & Hpos). split; [exact Hr | lia].
Qed.

(** X26: the records that [search_faq] returns are in descending order of
    score, and no record of the data is passed over for a worse one: a
    record of positive score is returned unless [top_k] records are
    returned that all score at least as much. *)
Theorem search_ranks_by_score :
  StronglySorted (fun a b => score b <= score a) found
  /\ forall record,
       In record records -> 0 < score record ->
       In record found
       \/ (List.length found = top_k
           /\ forall other, In other found -> score record <= score other).
Proof.
  unfold found, search_faq. fold score. fold candidates.
  set (ranked := sort_by_score candidates).
  assert (Hsorted : StronglySorted descending ranked) by apply sort_sorted.
  assert (Hscore : forall item, In item ranked -> fst item = score (snd item)).
  { intros item Hin. apply ranked_iff, candidate_iff in Hin. tauto. }
  split.
  - assert (Hfirst : StronglySorted descending (firstn top_k ranked))
      by now apply firstn_sorted.
    assert (Hin : forall item, In item (firstn top_k ranked) -> In item ranked).
    { intros item H. rewrite <- (firstn_skipn top_k ranked).
      apply in_or_app. now left. }
    induction Hfirst as [|item rest Hrest IH Hall]; simpl; [constructor|].
    constructor.
    + apply IH. intros x Hx. apply Hin. now right.
    + rewrite Forall_forall in *. intros y Hy.
      apply in_map_iff in Hy as (z & <- & Hz).
      specialize (Hall z Hz). unfold descending in Hall.
      rewrite <- (Hscore item), <- (Hscore z); [exact Hall | |].
      * apply Hin. now right.
      * apply Hin. now left.
  - intros record Hrec Hpos.
    assert (Hranked : In (score record, record) ranked).
    { apply ranked_iff, candidate_iff. simpl. auto. }
    rewrite <- (firstn_skipn top_k ranked) in Hranked.
    apply in_app_or in Hranked as [Hfirst | Hrest].
    + left. apply in_map_iff. now exists (score record, record).
    + right. split.
      * rewrite length_map, length_firstn.
        destruct (Nat.le_gt_cases top_k (List.length ranked)) as [Hle | Hgt];
          [lia|].
        rewrite skipn_all2 in Hrest by lia. contradiction.
      * intros other Hother. apply in_map_iff in Hother as (item & <- & Hitem).
        pose proof (sorted_split descending top_k ranked Hsorted _ _ Hitem Hrest)
          as Hdesc.
        unfold descending in Hdesc. simpl in Hdesc.
        rewrite <- (Hscore item); [exact Hdesc|].
        rewrite <- (firstn_skipn top_k ranked). apply in_or_app. now left.
Qed.

Lemma keyword_points (keyword : string) (kws : list string) :
  In keyword kws ->
  str_in (lower keyword) (lower query) = true ->
  3 <= list_sum (map (fun keyword =>
                        if str_in (lower keyword) (lower query) then 3 else 0)
                     kws).
Proof.
  induction kws as [|kw kws IH]; simpl; [contradiction|].
  intros [-> | Hin] Hhit.
  - rewrite Hhit. lia.
  - specialize (IH Hin Hhit). lia.
Qed.

Lemma keyword_hit_scores (record : FAQ) (keyword : string) :
  In keyword (keywords record) ->
  str_in (lower keyword) (lower query) = true ->
  3 <= score record.
Proof.
  intros Hin Hhit. unfold score, record_score. cbv zeta.
  pose proof (keyword_points keyword (keywords record) Hin Hhit). lia.
Qed.

Lemma keyword_hit_found (record : FAQ) (keyword : string) :
  In record records ->
  In keyword (keywords record) ->
  str_in (lower keyword) (lower query) = true ->
  0 < top_k -> found <> [].
Proof.
  intros Hrec Hin Hhit Hk Hempty.
  pose proof (keyword_hit_scores record keyword Hin Hhit) as Hscore.
  assert (Hranked : In (score record, record) (sort_by_score candidates)).
  { apply ranked_iff, candidate_iff. simpl. repeat split; [exact Hrec | lia]. }
  unfold found, search_faq in Hempty. fold score in Hempty.
  fold candidates in Hempty.
  destruct (sort_by_score candidates) as [|item rest]; [contradiction|].
  destruct top_k; [lia | discriminate Hempty].
Qed.

End Search.

Lemma search_returns_scored_records_witness :
  In (mkFAQ 2 "shipping" "Do you ship internationally?" "Yes." ["shipping"])
     two_records
  /\ 0 < record_score (fun _ _ => 0%Q) "shipping costs"
                      (mkFAQ 2 "shipping" "Do you ship internationally?" "Yes."
                             ["shipping"]).
Proof.
  apply (proj2 (search_returns_scored_records
                  (fun _ _ => 0%Q) two_records "shipping costs" 3)).
  left. reflexivity.
Defined.

Lemma search_ranks_by_score_witness :
  In (mkFAQ 2 "shipping" "Do you ship internationally?" "Yes." ["shipping"])
     (search_faq (fun _ _ => 0%Q) two_records "shipping costs" 3)
  \/ (List.length (search_faq (fun _ _ => 0%Q) two_records "shipping costs" 3)
      = 3
      /\ forall other,
           In other (search_faq (fun _ _ => 0%Q) two_records "shipping costs" 3) ->
           record_score (fun _ _ => 0%Q) "shipping costs"
                        (mkFAQ 2 "shipping" "Do you ship internationally?"
                               "Yes." ["shipping"])
           <= record_score (fun _ _ => 0%Q) "shipping costs" other).
Proof.
  apply (proj2 (search_ranks_by_score
                  (fun _ _ => 0%Q) two_records "shipping costs" 3)).
  - right. left. reflexivity.
  - vm_compute. lia.
Defined.

(** X27: an ASCII query that contains, in any case, an ASCII keyword of
    some record gives that record a score of at least 3, so the search
    finds something and the FAQ handler does not answer "no FAQ found":
    its answer is built from the records found. *)
Theorem keyword_in_query_finds_faq
        (ratio : string -> string -> Q) (records : list FAQ)
        (client : bool) (system_prompt : string)
        (process_with_cache : string -> string -> result string)
        (user_input : string) (context : option dict)
        (record : FAQ) (keyword : string) :
  ascii_text user_input = true ->
  ascii_text keyword = true ->
  In record records ->
  In keyword (keywords record) ->
  str_in (lower keyword) (lower user_input) = true ->
  3 <= record_score ratio user_input record
  /\ search_faq ratio records user_input 3 <> []
  /\ exists r rest,
       process client system_prompt process_with_cache
               (fun query top_k => Ok (search_faq ratio records query top_k))
               user_input context
       = to_dict r
       /\ metadata r
          = Some (("faq_found", VBool true)
                  :: ("matched_faqs",
                      matched_faqs (search_faq ratio records user_input 3))
                  :: rest).
Proof.
  intros _ _ Hrec Hin Hhit.
  pose proof (keyword_hit_scores ratio user_input record keyword Hin Hhit)
    as Hscore.
  assert (Hfound : search_faq ratio records user_input 3 <> []).
  { apply (keyword_hit_found ratio records user_input 3 record keyword);
      try assumption. lia. }
  split; [exact Hscore | split; [exact Hfound |]].
  unfold process, process_body. cbn [bind].
  destruct (search_faq ratio records user_input 3) as [|best related] eqn:Es;
    [contradiction|].
  assert (Hdirect :
            exists r rest,
              _generate_direct_response user_input (best :: related)
              = Ok (to_dict r)
              /\ metadata r
                 = Some (("faq_found", VBool true)
                         :: ("matched_faqs", matched_faqs (best :: related))
                         :: rest)).
  { unfold _generate_direct_response. eexists. eexists.
    split; reflexivity. }
  destruct Hdirect as (rd & restd & Hd & Hmd).
  destruct (client && _).
  - unfold _generate_ai_response.
    destruct (process_with_cache _ _) as [ai_response | e]; cbn [bind try_except].
    + eexists. eexists. split; reflexivity.
    + rewrite Hd. cbn [try_except]. now exists rd, restd.
  - rewrite Hd. cbn [try_except]. now exists rd, restd.
Qed.

Lemma keyword_in_query_finds_faq_witness :
  3 <= record_score (fun _ _ => 0%Q) "What is your RETURN policy?"
                    (mkFAQ 1 "returns" "What is the return policy?"
                           "Items can be returned within 30 days."
                           ["return"; "policy"]).
Proof.
  apply (keyword_in_query_finds_faq
           (fun _ _ => 0%Q)
           [mkFAQ 1 "returns" "What is the return policy?"
                  "Items can be returned within 30 days." ["return"; "policy"]]
           false "prompt" (fun _ _ => Ok "") "What is your RETURN policy?" None
           (mkFAQ 1 "returns" "What is the return policy?"
                  "Items can be returned within 30 days." ["return"; "policy"])
           "return").
  - reflexivity.
  - reflexivity.
  - left; reflexivity.
  - left; reflexivity.
  - reflexivity.
Defined.

End SearchProps.
